(** * ImageBoardInsights: the paginated cache and the job scheduler

    A shallow embedding of [src/api/iterators.py] and [src/api/main.py]:
    the disk-backed cache [DiskCache], the page-number iterator
    [ImageBoardIterator] with its fingerprint [_hash], the constructor of
    [ImageBoardPostsIterator], [ImageBoardApi.list_posts], and the scheduler
    classes [ThreadManager] and [RequestWorker].

    Python objects are records threaded through a state-and-exception
    monad: an exception leaves the mutations made before it in place, as
    in Python.  Integers are [Z]; Python floats (timestamps, rates,
    intervals) are the exact rationals [Q]; dictionaries whose order matters
    are association lists, the result tray is a [gmap]. *)

From Stdlib Require Import ZArith QArith Qround Lqa String Ascii.
From stdpp Require Import base option list sorting gmap strings pretty.
From Equations Require Import Equations.
From Equations.Prop Require Import Logic.

Local Open Scope string_scope.
Local Open Scope Z_scope.
Local Open Scope list_scope.

(** ** Exceptions and the state-and-exception monad *)

Inductive exn : Set :=
  | AttributeError
  | AssertionError
  | FileNotFoundError
  | IndexError
  | IsADirectoryError
  | KeyError
  | TimeoutError
  | ValueError
  | ZeroDivisionError.

(** How a call ends: it returns, it raises, or it does not come back in
    the modelled environment (a [Queue.get] on an empty queue, a wait loop
    whose observations ran out). *)
Inductive result (A : Type) : Type :=
  | Ok (a : A)
  | Raise (e : exn)
  | Blocks.
Arguments Ok {A} a.
Arguments Raise {A} e.
Arguments Blocks {A}.

Definition is_Ok {A} (r : result A) : bool :=
  match r with Ok _ => true | _ => false end.

Module PyM.

Definition M (S A : Type) : Type := S -> result A * S.

Definition ret {S A} (a : A) : M S A := fun s => (Ok a, s).
Definition raise {S A} (e : exn) : M S A := fun s => (Raise e, s).
Definition blocks {S A} : M S A := fun s => (Blocks, s).
Definition bind {S A B} (m : M S A) (k : A -> M S B) : M S B :=
  fun s => match m s with
           | (Ok a, s') => k a s'
           | (Raise e, s') => (Raise e, s')
           | (Blocks, s') => (Blocks, s')
           end.
Definition get {S} : M S S := fun s => (Ok s, s).
Definition modify {S} (f : S -> S) : M S unit := fun s => (Ok tt, f s).

(** [assert cond] *)
Definition assert {S} (cond : bool) : M S unit :=
  if cond then ret tt else raise AssertionError.

End PyM.

#[global] Instance PyM_ret {S} : MRet (PyM.M S) := @PyM.ret S.
#[global] Instance PyM_bind {S} : MBind (PyM.M S) :=
  fun A B k m => PyM.bind m k.

(** ** Python's order on [str] and [list.sort] *)

(** [str] values compare lexicographically by code point; on the UTF-8
    bytes of [string] that is [String.compare]. *)
Definition str_le (s1 s2 : string) : Prop := String.leb s1 s2 = true.

#[global] Instance str_le_dec : RelDecision str_le.
Proof. intros s1 s2. unfold str_le. apply _. Defined.

(** [list.sort()] / [sorted] on a list of [str]. *)
Definition py_sorted (l : list string) : list string := merge_sort str_le l.

(** [sep.join(l)] *)
Definition str_join (sep : string) (l : list string) : string :=
  String.concat sep l.

(** [x in l] for a list of [str]. *)
Definition str_in (x : string) (l : list string) : bool :=
  bool_decide (x ∈ l).

(** [c in s] for a one-character [c]. *)
Fixpoint char_in (c : ascii) (s : string) : bool :=
  match s with
  | EmptyString => false
  | String a s' => if Ascii.eqb a c then true else char_in c s'
  end.

(** [s.split(c)[0]]: the part of [s] before the first [c]. *)
Fixpoint split_head (c : ascii) (s : string) : string :=
  match s with
  | EmptyString => EmptyString
  | String a s' => if Ascii.eqb a c then EmptyString else String a (split_head c s')
  end.

(** [s.endswith(c)] for a one-character [c]. *)
Fixpoint ends_with (c : ascii) (s : string) : bool :=
  match s with
  | EmptyString => false
  | String a EmptyString => Ascii.eqb a c
  | String _ s' => ends_with c s'
  end.

(** ** Writing a file *)

(** What [os.makedirs(os.path.dirname(path), exist_ok=True)] followed by
    [open(path, "wb")] raises on account of the path itself.  A path
    without ['/'] has the directory part [''], which [makedirs] refuses
    with [FileNotFoundError]; a path that ends in ['/'] names a
    directory, which [open] refuses with [IsADirectoryError].  [None]:
    the write goes through (a file system that takes every other write
    is assumed: permissions, a full disk and files in the place of
    directories are not modelled). *)
Definition write_error (path : string) : option exn :=
  if negb (char_in "/" path) then Some FileNotFoundError
  else if ends_with "/" path then Some IsADirectoryError
  else None.

(** ** Request parameters *)

(** The values the iterators put into [request_data]: strings, integers
    and lists of strings. *)
Inductive value : Type :=
  | VStr (s : string)
  | VInt (n : Z)
  | VList (l : list string).

(** A [dict] with [str] keys, in insertion order. *)
Definition pydict : Type := list (string * value).

(** [d[k] = v]: an existing key keeps its position, a new one goes last. *)
Fixpoint dict_set (k : string) (v : value) (d : pydict) : pydict :=
  match d with
  | [] => [(k, v)]
  | (k', v') :: d' =>
      if String.eqb k' k then (k, v) :: d' else (k', v') :: dict_set k v d'
  end.

Record Request : Type := mkRequest {
  req_endpoint : string;
  req_method : string;
  req_data : pydict
}.

(** What the iterators read of [ImageBoardApi]. *)
Record Api : Type := mkApi {
  username : string;
  base_url : string;
  cache_directory_relative_path : string;
  base_search_tags : list string;
  default_request_page_size : Z
}.

(** ** constants.py *)
Module constants.
Definition MAX_TAGS_PER_REQUEST : Z := 40.
Definition URL_SUFFIX : string := ".json".
Definition FAVORITES : string := "favorites".
Definition POSTS : string := "posts".
Definition POST_FLAGS : string := "post_flags".
Definition NOTES : string := "notes".
Definition TAGS : string := "tags".
Definition TAG_ALIASES : string := "tag_aliases".
End constants.

(** [ImageBoardApi.generate_endpoint] *)
Definition generate_endpoint (api : Api) (category : string)
    (args : list string) : result string :=
  if str_in category
       [constants.POSTS; constants.FAVORITES; constants.POST_FLAGS;
        constants.NOTES; constants.TAGS; constants.TAG_ALIASES]
  then
    let base_endpoint := category in
    let endpoint_pieces := [base_url api; base_endpoint] ++ args in
    Ok (str_join "/" endpoint_pieces +:+ constants.URL_SUFFIX)
  else Raise ValueError.

(** ** iterators.py *)

Section Iterators.

(** A cache record: one item of a page (a post, a tag, ...). *)
Context {Item : Type}.

(** Builtins of the language and its library, taken as given:
    [hashlib.md5(s.encode()).hexdigest()] and [repr] of a [str]. *)
Variable md5_hexdigest : string -> string.
Variable repr_str : string -> string.

(** The remote board: the item array held by the first key of the JSON
    answer to a request, given the requests issued before it. *)
Variable upstream : list Request -> Request -> list Item.

(** A filter is a callable with a [__repr__]. *)
Record Filter : Type := mkFilter {
  filter_call : Item -> bool;
  filter_repr : string
}.

(** The world outside the objects: the pickled tables on disk, by path,
    and the HTTP requests submitted so far (latest last). *)
Record World : Type := mkWorld {
  disk : gmap string (list Item);
  http_log : list Request
}.

Definition set_disk (f : gmap string (list Item) -> gmap string (list Item))
    (w : World) : World :=
  {| disk := f (disk w); http_log := http_log w |}.

(** [self.api.request(endpoint, method, data)] with [return_json=True]:
    the request is submitted and the item array of its answer comes
    back. *)
Definition api_request (endpoint method : string) (data : pydict)
    : PyM.M World (list Item) :=
  fun w =>
    let rq := mkRequest endpoint method data in
    (Ok (upstream (http_log w) rq),
     {| disk := disk w; http_log := http_log w ++ [rq] |}).

(** *** class DiskCache *)

(** [_df] holds the rows of the table; it is [None] only inside
    [__init__], before the first load. *)
Record DiskCache : Type := mkDiskCache {
  cache_file_path : string;
  lazy_lookahead : Z;
  cache_source_available : bool;
  _iter_next_index : Z;
  _df : list Item
}.

Definition set_cache_source_available (b : bool) (c : DiskCache) : DiskCache :=
  {| cache_file_path := cache_file_path c;
     lazy_lookahead := lazy_lookahead c;
     cache_source_available := b;
     _iter_next_index := _iter_next_index c;
     _df := _df c |}.

Definition set_df (df : list Item) (c : DiskCache) : DiskCache :=
  {| cache_file_path := cache_file_path c;
     lazy_lookahead := lazy_lookahead c;
     cache_source_available := cache_source_available c;
     _iter_next_index := _iter_next_index c;
     _df := df |}.

(** [df.iloc[index]] for an integer [index]: negative indices count from
    the end; [None] stands for pandas' [IndexError]. *)
Definition iloc (df : list Item) (index : Z) : option Item :=
  if 0 <=? index then df !! Z.to_nat index
  else if - Z.of_nat (length df) <=? index
       then df !! Z.to_nat (Z.of_nat (length df) + index)
       else None.

(** An object of a class derived from [DiskCache]: the base-class
    fields, the fields [sub] of the subclass, and the world. *)
Record Obj (Sub : Type) : Type := mkObj {
  base : DiskCache;
  sub : Sub;
  world : World
}.
Arguments mkObj {Sub}.
Arguments base {Sub}.
Arguments sub {Sub}.
Arguments world {Sub}.

Section DiskCacheMethods.

Context {Sub : Type}.

(** [_get_next_data], the method a subclass overrides, for the classes
    whose override reads and writes the subclass fields and the world
    only: [DiskCache] itself, [ImageBoardIterator] and the page-number
    iterators derived from it.  The override of
    [ImageBoardIDBasedIterator] also reads [cache_source_available] and
    re-sorts and rewrites the table; it is embedded on its own, as
    [IDBased_get_next_data], and the methods of this section do not
    describe objects of that class. *)
Variable _get_next_data : PyM.M (Sub * World) (list Item).

Definition on_base (f : DiskCache -> DiskCache) : PyM.M (Obj Sub) unit :=
  PyM.modify (fun o => mkObj (f (base o)) (sub o) (world o)).

Definition call_get_next_data : PyM.M (Obj Sub) (list Item) :=
  fun o =>
    let '(r, (s', w')) := _get_next_data (sub o, world o) in
    (r, mkObj (base o) s' w').

(** [_update_disk_cache(_df)]: makes the directory of the cache file and
    pickles [_df], or the current table when [_df] is [None], to the
    file. *)
Definition _update_disk_cache (df : option (list Item))
    : PyM.M (Obj Sub) unit :=
  o ← PyM.get;
  match write_error (cache_file_path (base o)) with
  | Some e => PyM.raise e
  | None =>
      PyM.modify (fun o =>
        let d := default (_df (base o)) df in
        mkObj (base o) (sub o)
              (set_disk (insert (cache_file_path (base o)) d) (world o)))
  end.

Lemma update_disk_cache_unfold (df : option (list Item)) (o : Obj Sub) :
  _update_disk_cache df o
  = match write_error (cache_file_path (base o)) with
    | Some e => (Raise e, o)
    | None =>
        (Ok tt,
         mkObj (base o) (sub o)
               (set_disk (insert (cache_file_path (base o))
                                 (default (_df (base o)) df)) (world o)))
    end.
Proof.
  unfold _update_disk_cache, mbind, PyM_bind, PyM.bind, PyM.get.
  by destruct (write_error (cache_file_path (base o))).
Qed.

Definition _clear_cache : PyM.M (Obj Sub) unit :=
  _update_disk_cache (Some []).

Definition _check_disk_cache : PyM.M (Obj Sub) bool :=
  o ← PyM.get;
  mret (bool_decide (is_Some (disk (world o) !! cache_file_path (base o)))).

(** [_load_disk_cache]: a missing file is created empty and the method
    calls itself again; that second call finds the file, so the
    recursion is one level deep. *)
Definition _load_disk_cache_read : PyM.M (Obj Sub) unit :=
  o ← PyM.get;
  on_base (set_df (default [] (disk (world o) !! cache_file_path (base o)))).

Definition _load_disk_cache : PyM.M (Obj Sub) unit :=
  status ← _check_disk_cache;
  if negb status then _clear_cache;; _load_disk_cache_read
  else _load_disk_cache_read.

(** [_append_from_source] *)
Definition _append_from_source : PyM.M (Obj Sub) bool :=
  new_data ← call_get_next_data;
  if (length new_data =? 0)%nat then
    on_base (set_cache_source_available false);;
    mret false
  else
    o ← PyM.get;
    on_base (set_df (_df (base o) ++ new_data));;
    _update_disk_cache None;;
    on_base (set_cache_source_available true);;
    mret true.

(** How far [index] lies outside a table of [n] rows; [0] inside. *)
Definition out_of_bounds_by (n : nat) (index : Z) : nat :=
  if 0 <=? index then Z.to_nat (index + 1 - Z.of_nat n)
  else Z.to_nat (- index - Z.of_nat n).

Definition getitem_measure (index : Z) (o : Obj Sub) : nat :=
  if cache_source_available (base o)
  then S (out_of_bounds_by (length (_df (base o))) index)
  else 0%nat.

(** What one extension does to the base-class fields when the source
    does not raise. *)
Lemma _append_from_source_Ok (o o' : Obj Sub) (a : bool) :
  _append_from_source o = (Ok a, o') ->
  (a = false /\ cache_source_available (base o') = false /\
   _df (base o') = _df (base o)) \/
  (a = true /\ cache_source_available (base o') = true /\
   exists row rows, _df (base o') = _df (base o) ++ row :: rows).
Proof.
  unfold _append_from_source, call_get_next_data, mbind, PyM_bind, PyM.bind.
  destruct (_get_next_data (sub o, world o)) as [[new_data|e|] [s' w']];
    [|discriminate..].
  destruct new_data as [|row rows]; cbn [length Nat.eqb].
  - intros [= <- <-]. left. auto.
  - unfold on_base, PyM.get, PyM.modify, mret, PyM_ret, PyM.ret.
    rewrite update_disk_cache_unfold. cbn.
    destruct (write_error (cache_file_path (base o))); [done|].
    intros [= <- <-]. right. cbn. eauto.
Qed.

Lemma iloc_None_out_of_bounds (df : list Item) (index : Z) :
  iloc df index = None -> (0 < out_of_bounds_by (length df) index)%nat.
Proof.
  unfold iloc, out_of_bounds_by.
  destruct (Z.leb_spec 0 index) as [Hi|Hi].
  - intros H%lookup_ge_None. lia.
  - destruct (Z.leb_spec (- Z.of_nat (length df)) index) as [Hj|Hj].
    + intros H%lookup_ge_None. lia.
    + intros _. lia.
Qed.

Lemma out_of_bounds_by_app (df new : list Item) (index : Z) :
  (0 < out_of_bounds_by (length df) index)%nat -> new <> [] ->
  (out_of_bounds_by (length (df ++ new)) index
   < out_of_bounds_by (length df) index)%nat.
Proof.
  intros Hpos Hnew. rewrite length_app.
  assert (0 < length new)%nat by (destruct new; [done | cbn; lia]).
  revert Hpos. unfold out_of_bounds_by.
  destruct (0 <=? index); lia.
Qed.

(** [__getitem__(index)]: the row when [index] is inside the table;
    outside, one extension and another try while the source is
    available, [IndexError] once it is not.  An exception of the source
    propagates. *)
Equations? __getitem__ (index : Z) (o : Obj Sub) : result Item * Obj Sub
  by wf (getitem_measure index o) lt :=
__getitem__ index o with inspect (iloc (_df (base o)) index) := {
  | exist _ (Some row) _ => (Ok row, o)
  | exist _ None Hout with inspect (cache_source_available (base o)) := {
    | exist _ false _ => (Raise IndexError, o)
    | exist _ true Hav with inspect (_append_from_source o) := {
      | exist _ (Ok _, o') Happ => __getitem__ index o'
      | exist _ (Raise e, o') _ => (Raise e, o')
      | exist _ (Blocks, o') _ => (Blocks, o') } } }.
Proof.
  unfold getitem_measure. rewrite Hav.
  apply iloc_None_out_of_bounds in Hout.
  destruct (_append_from_source_Ok _ _ _ Happ)
    as [(_ & -> & _) | (_ & -> & row & rows & ->)]; [lia|].
  apply ->Nat.succ_lt_mono. by apply out_of_bounds_by_app.
Qed.

(** [DiskCache.__init__] *)
Definition DiskCache_init (path : string) (lazy : Z)
    (clear_cache_on_init : bool) (fields : Sub)
    : PyM.M World (DiskCache * Sub) :=
  fun w =>
    let o := mkObj (mkDiskCache path lazy true 0 []) fields w in
    let run := (if clear_cache_on_init then _clear_cache else mret tt);;
               _load_disk_cache in
    match run o with
    | (Ok _, o') => (Ok (base o', sub o'), world o')
    | (Raise e, o') => (Raise e, world o')
    | (Blocks, o') => (Blocks, world o')
    end.

Definition set_iter_next_index (i : Z) (c : DiskCache) : DiskCache :=
  {| cache_file_path := cache_file_path c;
     lazy_lookahead := lazy_lookahead c;
     cache_source_available := cache_source_available c;
     _iter_next_index := i;
     _df := _df c |}.

(** [__iter__] *)
Definition __iter__ : PyM.M (Obj Sub) unit :=
  on_base (set_iter_next_index 0).

(** What [__next__] gives the [for] loop: a row, or [StopIteration], the
    signal that ends the loop. *)
Inductive next_outcome : Type :=
  | Yield (row : Item)
  | StopIteration.

(** [__next__]; the value [_append_from_source] returns is dropped. *)
Definition __next__ : PyM.M (Obj Sub) next_outcome :=
  o ← PyM.get;
  (if cache_source_available (base o)
      && (Z.of_nat (length (_df (base o)))
          <=? _iter_next_index (base o) + lazy_lookahead (base o))
   then _append_from_source;; mret tt
   else mret tt);;
  o ← PyM.get;
  if Z.of_nat (length (_df (base o))) <=? _iter_next_index (base o)
  then mret StopIteration
  else
    match iloc (_df (base o)) (_iter_next_index (base o)) with
    | Some row =>
        on_base (set_iter_next_index (_iter_next_index (base o) + 1));;
        mret (Yield row)
    | None => PyM.raise IndexError
    end.

(** The loop [for row in cache] after [__iter__], collecting the rows;
    [fuel] bounds the number of rounds. *)
Fixpoint for_rows (fuel : nat) : PyM.M (Obj Sub) (list Item) :=
  match fuel with
  | O => PyM.blocks
  | S fuel' =>
      r ← __next__;
      match r with
      | StopIteration => mret []
      | Yield row => rows ← for_rows fuel'; mret (row :: rows)
      end
  end.

(** [complete_cache]: [while self.cache_source_available] extend;
    [fuel] bounds the number of extensions. *)
Fixpoint complete_cache (fuel : nat) : PyM.M (Obj Sub) unit :=
  fun o =>
    if cache_source_available (base o) then
      match fuel with
      | O => (Blocks, o)
      | S fuel' => (_append_from_source;; complete_cache fuel') o
      end
    else (Ok tt, o).

(** [__len__] *)
Definition __len__ (fuel : nat) : PyM.M (Obj Sub) nat :=
  complete_cache fuel;;
  o ← PyM.get;
  mret (length (_df (base o))).

End DiskCacheMethods.

(** [DiskCache._get_next_data]: the base class has no source. *)
Definition DiskCache_get_next_data : PyM.M (unit * World) (list Item) :=
  mret [].

(** *** class ImageBoardIterator(DiskCache) *)

Record ImageBoardIterator : Type := mkImageBoardIterator {
  api : Api;
  endpoint : string;
  filters : list Filter;
  request_data : pydict;
  type : string;
  starting_page : Z;
  _next_page : option Z;
  request_hash : string
}.

Definition set_next_page (p : option Z) (it : ImageBoardIterator)
    : ImageBoardIterator :=
  {| api := api it; endpoint := endpoint it; filters := filters it;
     request_data := request_data it; type := type it;
     starting_page := starting_page it; _next_page := p;
     request_hash := request_hash it |}.

Definition on_iterator (f : ImageBoardIterator -> ImageBoardIterator)
    : PyM.M (ImageBoardIterator * World) unit :=
  PyM.modify (fun '(it, w) => (f it, w)).

Definition get_iterator : PyM.M (ImageBoardIterator * World) ImageBoardIterator :=
  fun s => (Ok (fst s), s).

Definition on_world {A} (m : PyM.M World A)
    : PyM.M (ImageBoardIterator * World) A :=
  fun '(it, w) => let '(r, w') := m w in (r, (it, w')).

(** [str(l)] for a list of [str]. *)
Definition str_of_list (l : list string) : string :=
  "[" +:+ str_join ", " (repr_str <$> l) +:+ "]".

(** [f"{key}:{sorted(value) if isinstance(value, list) else value}"] *)
Definition format_request_item (kv : string * value) : string :=
  let '(key, v) := kv in
  key +:+ ":" +:+
    match v with
    | VStr s => s
    | VInt n => pretty n
    | VList l => str_of_list (py_sorted l)
    end.

(** [_hash], on the fields it reads.  [filter_data] is computed and
    sorted; [hash_pieces] is extended with [request_data] only. *)
Definition _hash (api : Api) (endpoint : string) (request_data : pydict)
    (filters : list Filter) : string :=
  let hash_pieces := [username api; endpoint] in
  let request_data := py_sorted (format_request_item <$> request_data) in
  let filter_data := py_sorted (filter_repr <$> filters) in
  let hash_pieces := hash_pieces ++ request_data in
  let request_string := str_join "_" hash_pieces in
  md5_hexdigest request_string.

(** [_get_cache_file_path]: [os.path.join] of relative components. *)
Definition _get_cache_file_path (api : Api) (type request_hash : string)
    : string :=
  str_join "/" [cache_directory_relative_path api; type;
                request_hash +:+ ".pkl"].

(** [_filter_page_items] *)
Definition _filter_page_items (fs : list Filter) (page_items : list Item)
    : list Item :=
  List.filter (fun item => forallb (fun f => filter_call f item) fs) page_items.

(** [_handle_ImageBoard_page_items] *)
Definition _handle_ImageBoard_page_items (fs : list Filter)
    (page_items : list Item) (page : Z) : list Item :=
  if (length page_items =? 0)%nat then []
  else if negb (length fs =? 0)%nat then
    let filtered_page_items := _filter_page_items fs page_items in
    if (length filtered_page_items =? 0)%nat then []
    else filtered_page_items
  else page_items.

(** [self._get_next_page()]: no class of the hierarchy defines a method of
    that name, so the attribute lookup raises. *)
Definition _get_next_page : PyM.M (ImageBoardIterator * World) (list Item) :=
  PyM.raise AttributeError.

(** [_handle_ImageBoard_page(response, page)] *)
Definition _handle_ImageBoard_page (page_items : list Item) (page : Z)
    : PyM.M (ImageBoardIterator * World) (list Item) :=
  if (length page_items =? 0)%nat then mret []
  else
    on_iterator (set_next_page (Some (page + 1)));;
    it ← get_iterator;
    let handled_page_items :=
      _handle_ImageBoard_page_items (filters it) page_items page in
    if (length handled_page_items =? 0)%nat then
      on_iterator (set_next_page (Some page));;
      _get_next_page
    else mret handled_page_items.

(** [ImageBoardIterator._get_next_data] *)
Definition _get_next_data : PyM.M (ImageBoardIterator * World) (list Item) :=
  it ← get_iterator;
  (if _next_page it is None
   then on_iterator (set_next_page (Some (starting_page it)))
   else mret tt);;
  it ← get_iterator;
  let page := default 0 (_next_page it) in
  let page_data := dict_set "page" (VInt page) (request_data it) in
  response ← on_world (api_request (endpoint it) "GET" page_data);
  final_page_items ← _handle_ImageBoard_page response page;
  (if (0 <? length final_page_items)%nat
   then it ← get_iterator;
        on_iterator (set_next_page (Z.succ <$> _next_page it))
   else mret tt);;
  mret final_page_items.

(** [ImageBoardIterator.__init__] *)
Definition ImageBoardIterator_init (api : Api) (endpoint : string)
    (filters : option (list Filter)) (lazy_lookahead : Z)
    (iterator_type : string) (clear_cache_on_init : bool)
    (starting_page : Z) (kwargs : pydict)
    : PyM.M World (DiskCache * ImageBoardIterator) :=
  let filters := default [] filters in
  let request_hash := _hash api endpoint kwargs filters in
  let fields :=
    mkImageBoardIterator api endpoint filters kwargs iterator_type
      starting_page (Some starting_page) request_hash in
  DiskCache_init (_get_cache_file_path api iterator_type request_hash)
    lazy_lookahead clear_cache_on_init fields.

(** *** class ImageBoardIDBasedIterator(ImageBoardIterator) *)

Record ImageBoardIDBasedIterator : Type := mkImageBoardIDBasedIterator {
  iterator : ImageBoardIterator;
  starting_id : Z;
  reverse_responses : bool;
  _next_id : Z;
  id_value_path : list string
}.

(** [ImageBoardIDBasedIterator.__init__] *)
Definition ImageBoardIDBasedIterator_init (api : Api) (endpoint : string)
    (filters : option (list Filter)) (iterator_type : string)
    (clear_cache_on_init : bool) (starting_id : Z)
    (reverse_responses : bool) (id_value_path : option (list string))
    (kwargs : pydict)
    : PyM.M World (DiskCache * ImageBoardIDBasedIterator) :=
  '(c, it) ← ImageBoardIterator_init api endpoint filters 0 iterator_type
               clear_cache_on_init 0 kwargs;
  mret (c, mkImageBoardIDBasedIterator it starting_id reverse_responses
             starting_id (default ["id"] id_value_path)).

Section IDBasedMethods.

(** The call [self.id_value_path(obj)] for a row of the table or an item of a
    page: the id the path leads to, [None] when it leads nowhere. *)
Variable path_get : list string -> Item -> option Z.

(** pandas' [df.sort_values(by="id", ascending=True)]. *)
Variable df_sort_values : list Item -> list Item.

Definition on_id_iterator (f : ImageBoardIterator -> ImageBoardIterator)
    : PyM.M (Obj ImageBoardIDBasedIterator) unit :=
  PyM.modify (fun o =>
    mkObj (base o)
          (mkImageBoardIDBasedIterator (f (iterator (sub o)))
             (starting_id (sub o)) (reverse_responses (sub o))
             (_next_id (sub o)) (id_value_path (sub o)))
          (world o)).

Definition on_id_world {A} (m : PyM.M World A)
    : PyM.M (Obj ImageBoardIDBasedIterator) A :=
  fun o => let '(r, w') := m (world o) in (r, mkObj (base o) (sub o) w').

(** [sort_values("id", ascending=True, complete_cache=False)] *)
Definition sort_values_by_id : PyM.M (Obj ImageBoardIDBasedIterator) unit :=
  o ← PyM.get;
  if (length (_df (base o)) =? 0)%nat then mret tt
  else
    on_base (set_df (df_sort_values (_df (base o))));;
    _update_disk_cache None.

(** [_find_next_minimum_id]: the id of the last row, [starting_id] for
    an empty table. *)
Definition _find_next_minimum_id
    : PyM.M (Obj ImageBoardIDBasedIterator) (option Z) :=
  o ← PyM.get;
  match iloc (_df (base o)) (-1) with
  | Some row => mret (path_get (id_value_path (sub o)) row)
  | None => mret (Some (starting_id (sub o)))
  end.

(** [str(target_id)] inside [f"a{target_id}"]. *)
Definition str_of_id (target_id : option Z) : string :=
  match target_id with
  | Some n => pretty n
  | None => "None"
  end.

(** [ImageBoardIDBasedIterator._handle_ImageBoard_page_items] *)
Definition IDBased_handle_ImageBoard_page_items (fs : list Filter)
    (page_items : list Item) (target_id : option Z) : list Item :=
  if (length page_items =? 0)%nat then []
  else if negb (length fs =? 0)%nat then
    let filtered_page_items := _filter_page_items fs page_items in
    if (length filtered_page_items =? 0)%nat then []
    else filtered_page_items
  else page_items.

(** [ImageBoardIDBasedIterator._handle_ImageBoard_page]; [retry] is the
    call [self._get_next_data(last_id)]. *)
Definition IDBased_handle_ImageBoard_page
    (retry : option Z -> PyM.M (Obj ImageBoardIDBasedIterator) (list Item))
    (response : list Item) (target_id : option Z)
    : PyM.M (Obj ImageBoardIDBasedIterator) (list Item) :=
  o ← PyM.get;
  let page_items := if reverse_responses (sub o) then rev response else response in
  if (length page_items =? 0)%nat then mret []
  else
    let last_id :=
      match last page_items with
      | Some last_item => path_get (id_value_path (sub o)) last_item
      | None => None
      end in
    let handled_page_items :=
      IDBased_handle_ImageBoard_page_items (filters (iterator (sub o)))
        page_items target_id in
    if (length handled_page_items =? 0)%nat then retry last_id
    else mret handled_page_items.

(** [ImageBoardIDBasedIterator._get_next_data(target_id)]; [fuel] bounds
    the depth of the recursion through [_handle_ImageBoard_page]. *)
Fixpoint IDBased_get_next_data (fuel : nat) (target_id : option Z)
    : PyM.M (Obj ImageBoardIDBasedIterator) (list Item) :=
  match fuel with
  | O => PyM.blocks
  | S fuel' =>
      o ← PyM.get;
      if negb (cache_source_available (base o)) then mret []
      else
        (if _next_page (iterator (sub o)) is None
         then on_id_iterator
                (set_next_page (Some (starting_page (iterator (sub o)))))
         else mret tt);;
        o ← PyM.get;
        (if (0 <? length (_df (base o)))%nat then sort_values_by_id
         else mret tt);;
        target_id ←
          match target_id with
          | None => _find_next_minimum_id
          | Some _ => mret target_id
          end;
        on_id_iterator (fun it => set_next_page (Z.succ <$> _next_page it) it);;
        o ← PyM.get;
        let page_data :=
          dict_set "page" (VStr ("a" +:+ str_of_id target_id))
                   (request_data (iterator (sub o))) in
        response ← on_id_world
                     (api_request (endpoint (iterator (sub o))) "GET" page_data);
        IDBased_handle_ImageBoard_page (IDBased_get_next_data fuel')
          response target_id
  end.

End IDBasedMethods.

(** *** class ImageBoardPostsIterator(ImageBoardIDBasedIterator) *)

Definition banned_metatags : list string := ["order"; "limit"; "page"; "tags"].

(** [tags_to_remove.add(tag)] where [tags_to_remove = list()]: a [list]
    has no attribute [add]. *)
Definition list_add (l : list string) (x : string)
    : PyM.M World (list string) :=
  PyM.raise AttributeError.

(** The loop [for tag in tags] that fills [tags_to_remove]. *)
Fixpoint collect_tags_to_remove (tags tags_to_remove : list string)
    : PyM.M World (list string) :=
  match tags with
  | [] => mret tags_to_remove
  | tag :: rest =>
      tags_to_remove ←
        (if char_in ":" tag then
           let metatag := split_head ":" tag in
           if str_in metatag banned_metatags
           then list_add tags_to_remove tag
           else mret tags_to_remove
         else mret tags_to_remove);
      collect_tags_to_remove rest tags_to_remove
  end.

Definition lift_result {A} (r : result A) : PyM.M World A :=
  fun w => (r, w).

(** [ImageBoardPostsIterator.__init__]; the [print] of the joined tags
    is left out. *)
Definition ImageBoardPostsIterator_init (api : Api)
    (tags : option (list string)) (filters : option (list Filter))
    (limit : option Z) (clear_cache_on_init : bool)
    : PyM.M World (DiskCache * ImageBoardIDBasedIterator) :=
  let tags := default [] tags in
  tags_to_remove ← collect_tags_to_remove tags [];
  let tags := List.filter (fun tag => negb (str_in tag tags_to_remove)) tags in
  PyM.assert (Z.of_nat (length tags) <? 40);;
  let tags := py_sorted (tags ++ ["order:id"]) in
  let request_data :=
    omap (fun '(key, v) => (fun v => (key, v)) <$> v)
         [("tags", Some (VStr (str_join " " tags))); ("limit", VInt <$> limit)] in
  endpoint ← lift_result (generate_endpoint api constants.POSTS []);
  ImageBoardIDBasedIterator_init api endpoint filters "posts"
    clear_cache_on_init 0 true (Some ["id"]) request_data.

(** [ImageBoardApi.list_posts].  [list(set(combined_tags))] drops
    duplicates in an order Python does not fix; the constructor sorts
    the tags afterwards. *)
Definition list_posts (api : Api) (tags : list string)
    (filters : option (list Filter))
    (include_base_tags overwrite_disk_cache : bool)
    : PyM.M World (DiskCache * ImageBoardIDBasedIterator) :=
  PyM.assert (Z.of_nat (length tags) + Z.of_nat (length (base_search_tags api))
              <=? constants.MAX_TAGS_PER_REQUEST);;
  let filters := default [] filters in
  let combined_tags := if include_base_tags then base_search_tags api else [] in
  let combined_tags := remove_dups (combined_tags ++ tags) in
  ImageBoardPostsIterator_init api (Some combined_tags) (Some filters)
    (Some (default_request_page_size api)) overwrite_disk_cache.

End Iterators.

Arguments mkObj {Item Sub}.
Arguments base {Item Sub}.
Arguments sub {Item Sub}.
Arguments world {Item Sub}.

(** ** main.py *)

(** A job id is a [uuid4]: an opaque token, unique per submission. *)
Abbreviation JobId := positive (only parsing).

(** A worker thread object, with what [is_alive()] answers for it. *)
Record Thread : Type := mkThread {
  thread_job_id : JobId;
  thread_is_alive : bool
}.

#[global] Instance Thread_eq_dec : EqDecision Thread.
Proof. solve_decision. Defined.

(** [l.remove(x)]: drops the first occurrence of [x]. *)
Fixpoint list_remove_first (x : Thread) (l : list Thread) : list Thread :=
  match l with
  | [] => []
  | y :: l' => if decide (x = y) then l' else y :: list_remove_first x l'
  end.

Lemma list_remove_first_length (x : Thread) (l : list Thread) :
  (length (list_remove_first x l) <= length l)%nat.
Proof. induction l as [|y l IH]; cbn; [lia|]. case_decide; cbn; lia. Qed.

(** [_cleanup_threads]: the [for] loop walks [_active_threads] by position
    while [remove] shortens it. *)
Equations? cleanup_from (i : nat) (l : list Thread) : list Thread
  by wf (length l - i)%nat lt :=
cleanup_from i l with inspect (l !! i) := {
  | exist _ None _ => l
  | exist _ (Some thread) Hi =>
      if thread_is_alive thread then cleanup_from (S i) l
      else cleanup_from (S i) (list_remove_first thread l) }.
Proof.
  all: apply lookup_lt_Some in Hi.
  - lia.
  - pose proof (list_remove_first_length thread l). lia.
Qed.

Definition _cleanup_threads (l : list Thread) : list Thread := cleanup_from 0 l.

Section Scheduler.

(** The keyword arguments of a job and the response stored for it. *)
Context {JobArgs Response : Type}.

(** What the scheduler does to the outside: worker and controller
    threads started, time slept. *)
Inductive effect : Type :=
  | EffStart (job_id : JobId) (kwargs : JobArgs)
  | EffManagerStart
  | EffSleep (seconds : Q).

(** The environment: the successive answers of
    [datetime.now().timestamp()] and the effects so far (latest last). *)
Record Env : Type := mkEnv {
  clock : nat -> Q;
  clock_reads : nat;
  effects : list effect
}.

Record ThreadManager : Type := mkThreadManager {
  job_queue : list (JobId * JobArgs);
  result_tray : gmap JobId Response;
  thread_creation_cooldown_seconds : Q;
  max_concurrent_threads : Z;
  new_thread_job_threshold : Z;
  manager_thread : option bool;
  _active_threads : list Thread
}.

(** [ThreadManager.__init__] *)
Definition ThreadManager_init (job_queue : option (list (JobId * JobArgs)))
    (result_tray : option (gmap JobId Response))
    (thread_creation_cooldown_seconds : Q)
    (max_concurrent_threads new_thread_job_threshold : Z) : ThreadManager :=
  {| job_queue := default [] job_queue;
     result_tray := default ∅ result_tray;
     thread_creation_cooldown_seconds := thread_creation_cooldown_seconds;
     max_concurrent_threads := max_concurrent_threads;
     new_thread_job_threshold :=
       if 0 <? new_thread_job_threshold then new_thread_job_threshold else 1;
     manager_thread := None;
     _active_threads := [] |}.

Definition set_job_queue (q : list (JobId * JobArgs)) (t : ThreadManager)
    : ThreadManager :=
  {| job_queue := q; result_tray := result_tray t;
     thread_creation_cooldown_seconds := thread_creation_cooldown_seconds t;
     max_concurrent_threads := max_concurrent_threads t;
     new_thread_job_threshold := new_thread_job_threshold t;
     manager_thread := manager_thread t;
     _active_threads := _active_threads t |}.

Definition set_result_tray (r : gmap JobId Response) (t : ThreadManager)
    : ThreadManager :=
  {| job_queue := job_queue t; result_tray := r;
     thread_creation_cooldown_seconds := thread_creation_cooldown_seconds t;
     max_concurrent_threads := max_concurrent_threads t;
     new_thread_job_threshold := new_thread_job_threshold t;
     manager_thread := manager_thread t;
     _active_threads := _active_threads t |}.

Definition set_manager_thread (m : option bool) (t : ThreadManager)
    : ThreadManager :=
  {| job_queue := job_queue t; result_tray := result_tray t;
     thread_creation_cooldown_seconds := thread_creation_cooldown_seconds t;
     max_concurrent_threads := max_concurrent_threads t;
     new_thread_job_threshold := new_thread_job_threshold t;
     manager_thread := m;
     _active_threads := _active_threads t |}.

Definition set_active_threads (l : list Thread) (t : ThreadManager)
    : ThreadManager :=
  {| job_queue := job_queue t; result_tray := result_tray t;
     thread_creation_cooldown_seconds := thread_creation_cooldown_seconds t;
     max_concurrent_threads := max_concurrent_threads t;
     new_thread_job_threshold := new_thread_job_threshold t;
     manager_thread := manager_thread t;
     _active_threads := l |}.

(** An object of a class derived from [ThreadManager]. *)
Record SObj (Sub : Type) : Type := mkSObj {
  tm : ThreadManager;
  lim : Sub;
  env : Env
}.
Arguments mkSObj {Sub}.
Arguments tm {Sub}.
Arguments lim {Sub}.
Arguments env {Sub}.

Section ThreadManagerMethods.

Context {Sub : Type}.

Definition on_tm (f : ThreadManager -> ThreadManager) : PyM.M (SObj Sub) unit :=
  PyM.modify (fun o => mkSObj (f (tm o)) (lim o) (env o)).

Definition emit (x : effect) : PyM.M (SObj Sub) unit :=
  PyM.modify (fun o =>
    mkSObj (tm o) (lim o)
      (mkEnv (clock (env o)) (clock_reads (env o)) (effects (env o) ++ [x]))).

(** [datetime.now().timestamp()] *)
Definition now : PyM.M (SObj Sub) Q :=
  fun o =>
    (Ok (clock (env o) (clock_reads (env o))),
     mkSObj (tm o) (lim o)
       (mkEnv (clock (env o)) (S (clock_reads (env o))) (effects (env o)))).

Definition sleep (seconds : Q) : PyM.M (SObj Sub) unit :=
  emit (EffSleep seconds).

(** [_thread_started_callback], run by the worker [thread] itself. *)
Definition _thread_started_callback (thread : Thread) : PyM.M (SObj Sub) unit :=
  o ← PyM.get;
  if bool_decide (thread ∈ _active_threads (tm o)) then mret tt
  else on_tm (set_active_threads (_active_threads (tm o) ++ [thread])).

(** [_thread_completed_callback]; the [ValueError] of [remove] is
    caught, and [task_done] only counts. *)
Definition _thread_completed_callback (thread : Thread)
    : PyM.M (SObj Sub) unit :=
  o ← PyM.get;
  on_tm (set_active_threads (list_remove_first thread (_active_threads (tm o)))).

(** [ThreadManager._summon_thread] *)
Definition ThreadManager_summon_thread (job_id : JobId)
    (pre_summon_delay post_summon_delay : Q) (kwargs : JobArgs)
    : PyM.M (SObj Sub) Thread :=
  sleep pre_summon_delay;;
  run_time ← now;
  let thread := mkThread job_id true in
  emit (EffStart job_id kwargs);;
  finish_time ← now;
  let run_time_delta := (finish_time - run_time)%Q in
  let time_till_next_thread := (post_summon_delay - run_time_delta)%Q in
  (if Qlt_le_dec 0 time_till_next_thread
   then sleep time_till_next_thread else mret tt);;
  mret thread.

(** [_summon_thread] as the object's class defines it. *)
Variable _summon_thread : JobId -> Q -> Q -> JobArgs -> PyM.M (SObj Sub) Thread.

(** [_summon_thread_from_queue]; [Queue.get] blocks on an empty
    queue. *)
Definition _summon_thread_from_queue (pre_summon_delay post_summon_delay : Q)
    : PyM.M (SObj Sub) Thread :=
  o ← PyM.get;
  match job_queue (tm o) with
  | [] => PyM.blocks
  | (job_id, job_kwargs) :: rest =>
      on_tm (set_job_queue rest);;
      _summon_thread job_id pre_summon_delay post_summon_delay job_kwargs
  end.

Definition desired_worker_count (t : ThreadManager) : Z :=
  let current_queue_size := Z.of_nat (length (job_queue t)) in
  let desired_worker_count :=
    current_queue_size `div` new_thread_job_threshold t + 1 in
  if desired_worker_count <=? max_concurrent_threads t
  then desired_worker_count else max_concurrent_threads t.

(** [ThreadManager._manage_threads_work] *)
Definition ThreadManager_manage_threads_work : PyM.M (SObj Sub) unit :=
  o ← PyM.get;
  let desired_new_worker_count :=
    desired_worker_count (tm o) - Z.of_nat (length (_active_threads (tm o))) in
  if 0 <? desired_new_worker_count then
    _summon_thread_from_queue 0
      (thread_creation_cooldown_seconds (tm o));;
    mret tt
  else
    on_tm (set_active_threads (_cleanup_threads (_active_threads (tm o))));;
    let sleep_time := (thread_creation_cooldown_seconds (tm o) / 10)%Q in
    sleep (if Qlt_le_dec 0 sleep_time then sleep_time else 0.1%Q).

(** The guard of the loop in [_manage_threads_job], the controller
    itself being alive. *)
Definition controller_loop_guard (t : ThreadManager) : bool :=
  negb (length (job_queue t) =? 0)%nat
  || negb (length (_active_threads t) =? 0)%nat.

(** [manage_threads] *)
Definition manage_threads : PyM.M (SObj Sub) unit :=
  o ← PyM.get;
  match manager_thread (tm o) with
  | Some true => mret tt
  | _ => on_tm (set_manager_thread (Some true));; emit EffManagerStart
  end.

(** [put_job], for the [uuid4] it draws. *)
Definition put_job (job_id : JobId) (kwargs : JobArgs)
    : PyM.M (SObj Sub) JobId :=
  o ← PyM.get;
  on_tm (set_job_queue (job_queue (tm o) ++ [(job_id, kwargs)]));;
  manage_threads;;
  mret job_id.

(** [RequestThread._run], for the response the request got: it is
    stored under the job id whatever its status. *)
Definition RequestThread_run (job_id : JobId) (response : Response)
    : PyM.M (SObj Sub) unit :=
  o ← PyM.get;
  on_tm (set_result_tray (<[job_id := response]> (result_tray (tm o)))).

(** What the other threads do while [get_result] sleeps once: the
    results the workers store, and whether the controller thread is
    alive afterwards. *)
Record wait_obs : Type := mkWaitObs {
  stored : list (JobId * Response);
  manager_alive : bool
}.

Definition others_run (ob : wait_obs) : PyM.M (SObj Sub) unit :=
  o ← PyM.get;
  on_tm (set_result_tray
           (foldl (fun tray jr => <[jr.1 := jr.2]> tray)
                  (result_tray (tm o)) (stored ob)));;
  o ← PyM.get;
  match manager_thread (tm o) with
  | None => mret tt
  | Some _ => on_tm (set_manager_thread (Some (manager_alive ob)))
  end.

(** The [while] loop of [get_result], one [obs] per round. *)
Fixpoint get_result_loop (job_id : JobId) (timeout timeout_time : Q)
    (obs : list wait_obs) (start_attempts : Z) : PyM.M (SObj Sub) Response :=
  o ← PyM.get;
  match result_tray (tm o) !! job_id with
  | Some response =>
      on_tm (set_result_tray (delete job_id (result_tray (tm o))));;
      mret response
  | None =>
      match obs with
      | [] => PyM.blocks
      | ob :: rest =>
          sleep 0.1%Q;;
          others_run ob;;
          o ← PyM.get;
          start_attempts ←
            match manager_thread (tm o) with
            | None => PyM.raise AttributeError
            | Some true => mret start_attempts
            | Some false => manage_threads;; mret (start_attempts + 1)
            end;
          if 5 <? start_attempts then PyM.raise KeyError
          else
            timed_out ←
              (if Qle_bool 0 timeout
               then t ← now; mret (negb (Qle_bool t timeout_time))
               else mret false);
            if (timed_out : bool) then PyM.raise TimeoutError
            else get_result_loop job_id timeout timeout_time rest start_attempts
      end
  end.

(** [get_result(job_id, timeout)] *)
Definition get_result (job_id : JobId) (timeout : Q) (obs : list wait_obs)
    : PyM.M (SObj Sub) Response :=
  t ← now;
  let timeout_time := (t + timeout)%Q in
  get_result_loop job_id timeout timeout_time obs 0.

(** The [while] loop of [async_get_result]: [await asyncio.sleep(0.1)]
    lets the other tasks and threads run; [KeyError] asks for
    [timeout < 0] as well. *)
Fixpoint async_get_result_loop (job_id : JobId) (timeout timeout_time : Q)
    (obs : list wait_obs) (start_attempts : Z) : PyM.M (SObj Sub) Response :=
  o ← PyM.get;
  match result_tray (tm o) !! job_id with
  | Some response =>
      on_tm (set_result_tray (delete job_id (result_tray (tm o))));;
      mret response
  | None =>
      match obs with
      | [] => PyM.blocks
      | ob :: rest =>
          sleep 0.1%Q;;
          others_run ob;;
          o ← PyM.get;
          start_attempts ←
            match manager_thread (tm o) with
            | None => PyM.raise AttributeError
            | Some true => mret start_attempts
            | Some false => manage_threads;; mret (start_attempts + 1)
            end;
          if (5 <? start_attempts) && (if Qlt_le_dec timeout 0 then true else false)
          then PyM.raise KeyError
          else
            timed_out ←
              (if Qle_bool 0 timeout
               then t ← now; mret (negb (Qle_bool t timeout_time))
               else mret false);
            if (timed_out : bool) then PyM.raise TimeoutError
            else async_get_result_loop job_id timeout timeout_time rest
                   start_attempts
      end
  end.

(** [async_get_result(job_id, timeout)] *)
Definition async_get_result (job_id : JobId) (timeout : Q) (obs : list wait_obs)
    : PyM.M (SObj Sub) Response :=
  t ← now;
  let timeout_time := (t + timeout)%Q in
  async_get_result_loop job_id timeout timeout_time obs 0.

End ThreadManagerMethods.

(** *** class RequestWorker(ThreadManager) *)

Record RequestWorker : Type := mkRequestWorker {
  base_requests_per_minute_limit : Q;
  min_base_request_interval_in_seconds : Q;
  burst_requests_per_minute_limit : Q;
  burst_requests_per_second_limit : Q;
  min_burst_request_interval_in_seconds : Q;
  max_burst_length_seconds : Q;
  max_consecutive_burst_requests : Q;
  min_burst_length_seconds : Q;
  min_consecutive_burst_requests : Q;
  burst_cooldown_length_seconds : Q;
  max_consecutive_burst_periods : Z;
  min_resource_query_interval_in_seconds : Q;
  _consecutive_burst_requests : Z;
  _consecutive_burst_periods : Z;
  _burst_available_after_timestamp : Q
}.

(** The rate-limiter fields set by [RequestWorker.__init__]; [60 / 0]
    raises. *)
Definition RequestWorker_init
    (base_requests_per_minute_limit burst_requests_per_minute_limit
     max_burst_length_seconds min_burst_length_seconds
     burst_cooldown_length_seconds : Q)
    (max_consecutive_burst_periods : Z)
    (min_resource_query_interval_in_seconds : Q) : result RequestWorker :=
  if Qeq_bool base_requests_per_minute_limit 0
     || Qeq_bool burst_requests_per_minute_limit 0
  then Raise ZeroDivisionError
  else
    let burst_requests_per_second_limit :=
      (60 / burst_requests_per_minute_limit)%Q in
    Ok {| base_requests_per_minute_limit := base_requests_per_minute_limit;
          min_base_request_interval_in_seconds :=
            (60 / base_requests_per_minute_limit)%Q;
          burst_requests_per_minute_limit := burst_requests_per_minute_limit;
          burst_requests_per_second_limit := burst_requests_per_second_limit;
          min_burst_request_interval_in_seconds :=
            (60 / burst_requests_per_minute_limit)%Q;
          max_burst_length_seconds := max_burst_length_seconds;
          max_consecutive_burst_requests :=
            (burst_requests_per_second_limit * max_burst_length_seconds)%Q;
          min_burst_length_seconds := min_burst_length_seconds;
          min_consecutive_burst_requests :=
            (burst_requests_per_second_limit * min_burst_length_seconds)%Q;
          burst_cooldown_length_seconds := burst_cooldown_length_seconds;
          max_consecutive_burst_periods := max_consecutive_burst_periods;
          min_resource_query_interval_in_seconds :=
            min_resource_query_interval_in_seconds;
          _consecutive_burst_requests := 0;
          _consecutive_burst_periods := 0;
          _burst_available_after_timestamp := 0 |}.

(** The three assignments to the burst state. *)
Definition set_burst_state (requests periods : Z) (available_after : Q)
    (w : RequestWorker) : RequestWorker :=
  {| base_requests_per_minute_limit := base_requests_per_minute_limit w;
     min_base_request_interval_in_seconds := min_base_request_interval_in_seconds w;
     burst_requests_per_minute_limit := burst_requests_per_minute_limit w;
     burst_requests_per_second_limit := burst_requests_per_second_limit w;
     min_burst_request_interval_in_seconds := min_burst_request_interval_in_seconds w;
     max_burst_length_seconds := max_burst_length_seconds w;
     max_consecutive_burst_requests := max_consecutive_burst_requests w;
     min_burst_length_seconds := min_burst_length_seconds w;
     min_consecutive_burst_requests := min_consecutive_burst_requests w;
     burst_cooldown_length_seconds := burst_cooldown_length_seconds w;
     max_consecutive_burst_periods := max_consecutive_burst_periods w;
     min_resource_query_interval_in_seconds := min_resource_query_interval_in_seconds w;
     _consecutive_burst_requests := requests;
     _consecutive_burst_periods := periods;
     _burst_available_after_timestamp := available_after |}.

(** Which of its two intervals [_determine_interval] returns. *)
Inductive pace : Set := Burst | Base.

(** The number [_determine_interval] returns. *)
Definition interval_seconds (w : RequestWorker) (p : pace) : Q :=
  match p with
  | Burst => min_burst_request_interval_in_seconds w
  | Base => min_base_request_interval_in_seconds w
  end.

Definition read_clock (e : Env) : Q * Env :=
  (clock e (clock_reads e), mkEnv (clock e) (S (clock_reads e)) (effects e)).

Definition new_burst_periods_available (w : RequestWorker) : bool :=
  _consecutive_burst_periods w <? max_consecutive_burst_periods w.

Definition new_burst_requests_available (w : RequestWorker) : bool :=
  negb (Qle_bool (max_consecutive_burst_requests w)
                 (inject_Z (_consecutive_burst_requests w))).

(** [_determine_interval]: every evaluation reads the clock; the one
    that starts a new burst period evaluates again. *)
Equations? _determine_interval (s : RequestWorker * Env)
    : pace * (RequestWorker * Env)
  by wf (Z.to_nat (max_consecutive_burst_periods s.1
                   - _consecutive_burst_periods s.1)) lt :=
_determine_interval (w, e)
  with inspect (negb (new_burst_requests_available w)
                && new_burst_periods_available w) := {
  | exist _ true Hnew =>
      let '(query_run_time, e') := read_clock e in
      _determine_interval
        (set_burst_state 0 (_consecutive_burst_periods w + 1)
           (query_run_time + burst_cooldown_length_seconds w)%Q w, e')
  | exist _ false _ =>
      let '(query_run_time, e') := read_clock e in
      let cooldown_active :=
        Qle_bool query_run_time (_burst_available_after_timestamp w) in
      if negb cooldown_active && new_burst_requests_available w
      then (Burst,
            (set_burst_state (_consecutive_burst_requests w + 1)
               (_consecutive_burst_periods w)
               (_burst_available_after_timestamp w) w, e'))
      else (Base, (w, e')) }.
Proof.
  cbn. apply andb_prop in Hnew as [_ Hnew].
  unfold new_burst_periods_available in Hnew. lia.
Qed.

(** [RequestWorker._summon_thread] *)
Definition RequestWorker_summon_thread (job_id : JobId)
    (pre_summon_delay post_summon_delay : Q) (kwargs : JobArgs)
    : PyM.M (SObj RequestWorker) Thread :=
  interval ← (fun o =>
                let '(p, (w', e')) := _determine_interval (lim o, env o) in
                (Ok (interval_seconds w' p), mkSObj (tm o) w' e'));
  ThreadManager_summon_thread job_id pre_summon_delay interval kwargs.

(** The test that ends [RequestWorker._manage_threads_work]. *)
Definition burst_reset_check (s : RequestWorker * Env) : RequestWorker * Env :=
  let '(w, e) := s in
  if Qle_bool (min_consecutive_burst_requests w)
              (inject_Z (_consecutive_burst_periods w))
  then
    let '(query_run_time, e') := read_clock e in
    (set_burst_state 0 0
       (query_run_time + burst_cooldown_length_seconds w)%Q w, e')
  else (w, e).

(** [RequestWorker._manage_threads_work] *)
Definition RequestWorker_manage_threads_work
    : PyM.M (SObj RequestWorker) unit :=
  ThreadManager_manage_threads_work RequestWorker_summon_thread;;
  PyM.modify (fun o =>
    let '(w', e') := burst_reset_check (lim o, env o) in
    mkSObj (tm o) w' e').

(** A sequence of [_determine_interval] calls alone, each in the
    environment it finds, with no reset test between them. *)
Fixpoint determine_intervals (envs : list Env) (w : RequestWorker)
    : list pace * RequestWorker :=
  match envs with
  | [] => ([], w)
  | e :: envs' =>
      let '(p, (w', _)) := _determine_interval (w, e) in
      let '(ps, w'') := determine_intervals envs' w' in
      (p :: ps, w'')
  end.

End Scheduler.

Arguments mkSObj {JobArgs Response Sub}.
Arguments tm {JobArgs Response Sub}.
Arguments lim {JobArgs Response Sub}.
Arguments env {JobArgs Response Sub}.

(** *** class MediaCacheWorker(RequestWorker) *)

(** What the worker reads of a [requests.Response]. *)
Record HttpResponse : Type := mkHttpResponse {
  status_code : Z;
  request_url : string;
  content : string
}.

(** [s.split(c)[-1]]: the part of [s] after the last [c], all of [s]
    when it has none. *)
Fixpoint split_last (c : ascii) (s : string) : string :=
  match s with
  | EmptyString => EmptyString
  | String a s' =>
      if char_in c s' then split_last c s'
      else if Ascii.eqb a c then s' else String a s'
  end.

(** [os.path.join(a, b)] on POSIX paths. *)
Definition path_join (a b : string) : string :=
  if String.prefix "/" b then b
  else if String.eqb a "" || ends_with "/" a then a +:+ b
  else a +:+ "/" +:+ b.

Section MediaCache.

Context {JobArgs : Type}.

Variable md5_hexdigest : string -> string.

(** The fields [MediaCacheWorker] adds to those of [RequestWorker], and
    the files on disk, by path. *)
Record MediaCacheWorker : Type := mkMediaCacheWorker {
  worker : RequestWorker;
  target_path : string;
  media_files : gmap string string
}.

Definition set_media_files (files : gmap string string) (m : MediaCacheWorker)
    : MediaCacheWorker :=
  {| worker := worker m; target_path := target_path m; media_files := files |}.

Definition MObj : Type := @SObj JobArgs HttpResponse MediaCacheWorker.

(** [generate_path_from_url] *)
Definition generate_path_from_url (target_path url : string) : string :=
  let object_file_extension := split_last "." url in
  let url_md5 := md5_hexdigest url in
  path_join target_path (url_md5 +:+ "." +:+ object_file_extension).

(** [query_cache] *)
Definition query_cache (url : string) : PyM.M MObj bool :=
  o ← PyM.get;
  mret (bool_decide
          (is_Some (media_files (lim o)
                    !! generate_path_from_url (target_path (lim o)) url))).

(** [makedirs(path.dirname(p), exist_ok=True)] and
    [with open(p, "wb") as f: f.write(content)] *)
Definition write_file (path content : string) : PyM.M MObj unit :=
  match write_error path with
  | Some e => PyM.raise e
  | None =>
      PyM.modify (fun o =>
        mkSObj (tm o)
               (set_media_files (<[path := content]> (media_files (lim o))) (lim o))
               (env o))
  end.

(** [MediaCacheWorker._thread_completed_callback], run by the worker
    [thread] for its own job; [obs] is what the other threads do while
    [get_response] waits. *)
Definition MediaCacheWorker_thread_completed_callback (thread : Thread)
    (obs : list wait_obs) : PyM.M MObj unit :=
  response ← get_result (thread_job_id thread) (-1) obs;
  if 400 <=? status_code response then _thread_completed_callback thread
  else
    let url := request_url response in
    o ← PyM.get;
    let object_file_path := generate_path_from_url (target_path (lim o)) url in
    write_file object_file_path (content response);;
    _thread_completed_callback thread.

(** What the write of a download raises: nothing for a status of 400 or
    more, which is not written. *)
Definition media_write_error (target_path : string) (response : HttpResponse)
    : option exn :=
  if 400 <=? status_code response then None
  else write_error (generate_path_from_url target_path (request_url response)).

(** [ManagedThread.run] of a [RequestThread] of a [MediaCacheWorker],
    for the response the request gets; the steps of the thread itself,
    in order. *)
Definition ManagedThread_run (thread : Thread) (response : HttpResponse)
    (obs : list wait_obs) : PyM.M MObj unit :=
  _thread_started_callback thread;;
  RequestThread_run (thread_job_id thread) response;;
  MediaCacheWorker_thread_completed_callback thread obs.

End MediaCache.

(** ** Notions used to state the properties *)

(** Two parameter values that differ at most in the order of a list's
    elements. *)
Inductive same_value : value -> value -> Prop :=
  | same_VStr (s : string) : same_value (VStr s) (VStr s)
  | same_VInt (n : Z) : same_value (VInt n) (VInt n)
  | same_VList (l1 l2 : list string) :
      l1 ≡ₚ l2 -> same_value (VList l1) (VList l2).

Definition same_item (kv1 kv2 : string * value) : Prop :=
  kv1.1 = kv2.1 /\ same_value kv1.2 kv2.2.

(** The same request parameters, supplied in another key order and with
    list values in another element order. *)
Definition same_parameters (d1 d2 : pydict) : Prop :=
  exists d, Forall2 same_item d1 d /\ d ≡ₚ d2.

(** [d.get(k)] *)
Fixpoint dict_get (k : string) (d : pydict) : option value :=
  match d with
  | [] => None
  | (k', v) :: d' => if String.eqb k' k then Some v else dict_get k d'
  end.

(** The [page] parameter a request carries. *)
Definition requested_page (rq : Request) : option value :=
  dict_get "page" (req_data rq).

(** A caller's tag whose part before [':'] is a reserved metatag. *)
Definition has_banned_metatag (tag : string) : bool :=
  char_in ":" tag && str_in (split_head ":" tag) banned_metatags.

Section IteratorNotions.

Context {Item : Type}.
Variable upstream : list Request -> Request -> list Item.

(** The page the next extension asks for. *)
Definition current_page (it : @ImageBoardIterator Item) : Z :=
  default (starting_page it) (_next_page it).

(** The request an extension submits for [page]. *)
Definition page_request (it : @ImageBoardIterator Item) (page : Z) : Request :=
  mkRequest (endpoint it) "GET" (dict_set "page" (VInt page) (request_data it)).

Definition log_request (rq : Request) (w : @World Item) : World :=
  mkWorld (disk w) (http_log w ++ [rq]).

(** The item array the board answers the next extension with. *)
Definition fetched_page (it : @ImageBoardIterator Item) (w : @World Item)
    : list Item :=
  upstream (http_log w) (page_request it (current_page it)).

(** The requests submitted after [w0], in [w]. *)
Definition requests_since (w0 w : @World Item) : list Request :=
  drop (length (http_log w0)) (http_log w).

(** [n] further extensions, whatever each of them returns or raises. *)
Fixpoint extensions (n : nat) (s : @ImageBoardIterator Item * World)
    : ImageBoardIterator * World :=
  match n with
  | O => s
  | S n' => extensions n' (snd (_get_next_data upstream s))
  end.

End IteratorNotions.

(** What [DiskCache.__init__] leaves when it returns: the object holds
    the rows of the existing file, or no rows after a clear or for a
    missing file; the file holds the table; no other file and no request
    is touched. *)
Definition constructed {Item Sub : Type} (path : string)
    (clear_cache_on_init : bool) (fields : Sub) (w : @World Item)
    (r : result (@DiskCache Item * Sub) * @World Item) : Prop :=
  exists c w',
    r = (Ok (c, fields), w')
    /\ _df c = (if clear_cache_on_init then [] else default [] (disk w !! path))
    /\ cache_file_path c = path
    /\ cache_source_available c = true
    /\ _iter_next_index c = 0
    /\ disk w' = <[path := _df c]> (disk w)
    /\ http_log w' = http_log w.

Section IDBasedNotions.

Context {Item : Type}.
Variable path_get : list string -> Item -> option Z.
Variable df_sort_values : list Item -> list Item.

(** The request an ID-based extension submits for [target_id]. *)
Definition id_request (it : @ImageBoardIterator Item) (target_id : option Z)
    : Request :=
  mkRequest (endpoint it) "GET"
    (dict_set "page" (VStr ("a" +:+ str_of_id target_id)) (request_data it)).

(** The table as an ID-based extension leaves it before its first
    request. *)
Definition table_before_request (o : @Obj Item (@ImageBoardIDBasedIterator Item))
    : list Item :=
  if (0 <? length (_df (base o)))%nat then df_sort_values (_df (base o))
  else _df (base o).

(** The id the first request of an extension starts from: the one
    given, or that of the last row of the table (sorted by id), or
    [starting_id] for an empty table. *)
Definition first_target (target_id : option Z)
    (o : @Obj Item (@ImageBoardIDBasedIterator Item)) : option Z :=
  match target_id with
  | Some _ => target_id
  | None =>
      match last (table_before_request o) with
      | Some row => path_get (id_value_path (sub o)) row
      | None => Some (starting_id (sub o))
      end
  end.

(** What sorting the table before the request raises: the sorted table
    is written back to the cache file, when the table has rows. *)
Definition sort_write_error (o : @Obj Item (@ImageBoardIDBasedIterator Item))
    : option exn :=
  if (0 <? length (_df (base o)))%nat
  then write_error (cache_file_path (base o)) else None.

(** A page in the order the iterator reads it. *)
Definition page_as_read (it : @ImageBoardIDBasedIterator Item)
    (response : list Item) : list Item :=
  if reverse_responses it then rev response else response.

End IDBasedNotions.

Section SchedulerNotions.

Context {JobArgs Response : Type}.

(** The worker threads started, in order, among some effects. *)
Definition started_workers (effs : list (@effect JobArgs))
    : list (JobId * JobArgs) :=
  omap (fun x => match x with EffStart j k => Some (j, k) | _ => None end) effs.

(** [ceil(a / b)] for a positive [b]. *)
Definition ceil_div (a b : Z) : Z := - ((- a) `div` b).

(** The desired worker count in the specification's words:
    [min(ceil(queue_size / threshold) + 1, max_concurrent)]. *)
Definition spec_desired_worker_count (t : @ThreadManager JobArgs Response) : Z :=
  Z.min (ceil_div (Z.of_nat (length (job_queue t))) (new_thread_job_threshold t) + 1)
        (max_concurrent_threads t).

(** The pause of an iteration that spawns nothing. *)
Definition idle_sleep (t : @ThreadManager JobArgs Response) : Q :=
  if Qlt_le_dec 0 (thread_creation_cooldown_seconds t / 10)
  then (thread_creation_cooldown_seconds t / 10)%Q else 0.1%Q.

Context {Sub : Type}.

(** The rounds of a wait in which the controller thread is found dead. *)
Definition dead_rounds (obs : list (@wait_obs Response)) : nat :=
  length (List.filter (fun ob => negb (manager_alive ob)) obs).

(** No worker stores a result for [job_id] during the wait. *)
Definition never_stores (job_id : JobId) (obs : list (@wait_obs Response))
    : Prop :=
  Forall (fun ob => job_id ∉ (stored ob).*1) obs.

(** Taking the result of [job_id] off the tray, the clock read once. *)
Definition after_pop (job_id : JobId) (o : @SObj JobArgs Response Sub)
    : SObj Sub :=
  mkSObj (set_result_tray (delete job_id (result_tray (tm o))) (tm o))
         (lim o)
         (mkEnv (clock (env o)) (S (clock_reads (env o))) (effects (env o))).

(** What the dispatch loop does to the limiter, step by step: a call of
    [_determine_interval], or the test that ends
    [RequestWorker._manage_threads_work]; each step in the environment it
    finds, so that any time may pass between two steps. *)
Inductive limiter_step : Type :=
  | Determine (e : @Env JobArgs)
  | ResetCheck (e : @Env JobArgs).

(** What shows of such steps: the interval a call returns, and the reset
    when the test fires. *)
Inductive limiter_event : Set :=
  | Returned (p : pace)
  | ResetFired.

(** The test [_consecutive_burst_periods >= min_consecutive_burst_requests]. *)
Definition reset_fires (w : RequestWorker) : bool :=
  Qle_bool (min_consecutive_burst_requests w)
           (inject_Z (_consecutive_burst_periods w)).

(** The limiter along a sequence of steps, in any order; the loop runs
    the test after every call, and on its own in the iterations that
    dispatch nothing. *)
Fixpoint limiter_steps (steps : list limiter_step) (w : RequestWorker)
    : list limiter_event * RequestWorker :=
  match steps with
  | [] => ([], w)
  | Determine e :: steps' =>
      let '(p, (w', _)) := _determine_interval (w, e) in
      let '(evs, w'') := limiter_steps steps' w' in
      (Returned p :: evs, w'')
  | ResetCheck e :: steps' =>
      let '(w', _) := burst_reset_check (w, e) in
      let '(evs, w'') := limiter_steps steps' w' in
      (if reset_fires w then ResetFired :: evs else evs, w'')
  end.

(** The number of burst intervals at the head of a sequence of events,
    and the longest block of burst intervals returned one after the
    other, with neither a base interval nor a reset between them. *)
Fixpoint burst_prefix (evs : list limiter_event) : nat :=
  match evs with
  | Returned Burst :: evs' => S (burst_prefix evs')
  | _ => O
  end.

Fixpoint longest_burst_run (evs : list limiter_event) : nat :=
  match evs with
  | [] => O
  | Returned Burst :: evs' =>
      Nat.max (S (burst_prefix evs')) (longest_burst_run evs')
  | _ :: evs' => longest_burst_run evs'
  end.

(** How many burst requests fit below the bound: the counter is an
    integer from 0 on, the bound may be fractional. *)
Definition burst_depth (w : RequestWorker) : Z :=
  Z.max 0 (Qceiling (max_consecutive_burst_requests w)).

(** What every call does, whatever the clock: the configuration stays,
    the counters keep their bounds, a burst interval comes from an
    evaluation that read a time past [_burst_available_after_timestamp],
    and a call that starts burst periods leaves that timestamp at the
    time the last of them started plus the cooldown. *)
Definition call_ok (w : RequestWorker) (e : @Env JobArgs)
    (r : pace * (RequestWorker * @Env JobArgs)) : Prop :=
  max_consecutive_burst_requests r.2.1 = max_consecutive_burst_requests w
  /\ max_consecutive_burst_periods r.2.1 = max_consecutive_burst_periods w
  /\ burst_cooldown_length_seconds r.2.1 = burst_cooldown_length_seconds w
  /\ clock r.2.2 = clock e
  /\ (clock_reads e < clock_reads r.2.2)%nat
  /\ (0 <= _consecutive_burst_requests w ->
      0 <= _consecutive_burst_requests r.2.1)
  /\ _consecutive_burst_periods w <= _consecutive_burst_periods r.2.1
  /\ (_consecutive_burst_periods w <= max_consecutive_burst_periods w ->
      _consecutive_burst_periods r.2.1 <= max_consecutive_burst_periods w)
  /\ (r.1 = Burst ->
      (_burst_available_after_timestamp r.2.1
       < clock e (clock_reads r.2.2 - 1))%Q)
  /\ (_consecutive_burst_periods r.2.1 = _consecutive_burst_periods w ->
      _burst_available_after_timestamp r.2.1 = _burst_available_after_timestamp w
      /\ clock_reads r.2.2 = S (clock_reads e))
  /\ (_consecutive_burst_periods w < _consecutive_burst_periods r.2.1 ->
      _burst_available_after_timestamp r.2.1
      = (clock e (clock_reads r.2.2 - 2) + burst_cooldown_length_seconds w)%Q).

(** Two successive readings of the clock are never further apart than
    the cooldown. *)
Definition calm (cooldown : Q) (e : @Env JobArgs) : Prop :=
  forall k, (clock e (S k) <= clock e k + cooldown)%Q.

(** The clock is calm during the calls; the test reads it once. *)
Definition calm_step (cooldown : Q) (step : limiter_step) : Prop :=
  match step with
  | Determine e => calm cooldown e
  | ResetCheck _ => True
  end.

(** What one iteration of the loop body is to the limiter: nothing when
    it blocks on the queue, the test alone when it dispatches nothing, or
    one call, in the environment the iteration starts in, and the test;
    the clock is the one of the object throughout. *)
Definition iteration_steps (o : @SObj JobArgs Response RequestWorker)
    (steps : list limiter_step) : Prop :=
  steps = []
  \/ (exists e, steps = [ResetCheck e] /\ clock e = clock (env o))
  \/ (exists e, steps = [Determine (env o); ResetCheck e]
                /\ clock e = clock (env o)).

End SchedulerNotions.

(** What one pass of [_cleanup_threads] leaves of a list without
    duplicates: the walk by position steps over the worker that follows a
    removed one. *)
Fixpoint cleanup_pass (l : list Thread) : list Thread :=
  match l with
  | [] => []
  | thread :: l' =>
      if thread_is_alive thread then thread :: cleanup_pass l'
      else match l' with
           | [] => []
           | next :: l'' => next :: cleanup_pass l''
           end
  end.

Section WaitNotions.

Context {JobArgs Response : Type}.

(** What a wait does to the outside: a sleep per round, and a restart of
    the controller thread in the rounds that find it dead. *)
Definition wait_effects (obs : list (@wait_obs Response))
    : list (@effect JobArgs) :=
  flat_map (fun ob => EffSleep 0.1%Q
                      :: if manager_alive ob then [] else [EffManagerStart]) obs.

(** The workers store [response] for [job_id] during the round, and
    nothing for that job after it. *)
Definition stores (job_id : JobId) (response : Response)
    (ob : @wait_obs Response) : Prop :=
  exists before after,
    stored ob = before ++ (job_id, response) :: after /\ job_id ∉ after.*1.

End WaitNotions.

(** Jobs put one after the other, each under the id drawn for it. *)
Fixpoint put_jobs {JobArgs Response Sub : Type} (jobs : list (JobId * JobArgs))
    : PyM.M (@SObj JobArgs Response Sub) unit :=
  match jobs with
  | [] => mret tt
  | (job_id, kwargs) :: rest => put_job job_id kwargs;; put_jobs rest
  end.

(** The burst intervals among the intervals of a sequence of calls. *)
Definition burst_count (ps : list pace) : nat :=
  length (List.filter (fun p => match p with Burst => true | Base => false end) ps).

(** The burst intervals a limiter can still hand out before a reset: a
    full depth for each burst period not yet started, and what is left
    of the current one. *)
Definition burst_budget (w : RequestWorker) : Z :=
  (max_consecutive_burst_periods w - _consecutive_burst_periods w) * burst_depth w
  + Z.max 0 (burst_depth w - _consecutive_burst_requests w).

(** [n] iterations of the controller loop of a [RequestWorker], whatever
    each of them does. *)
Fixpoint controller_iterations {JobArgs Response : Type} (n : nat)
    (o : @SObj JobArgs Response RequestWorker) : SObj RequestWorker :=
  match n with
  | O => o
  | S n' => controller_iterations n' (RequestWorker_manage_threads_work o).2
  end.

(** ** Worked inputs *)

Definition example_api : Api :=
  mkApi "user" "https://board" "search_cache" [] 320.

(** A board whose page 3 holds ten items and page 4 two. *)
Definition example_board : list Request -> Request -> list nat :=
  fun _ rq =>
    match requested_page rq with
    | Some (VInt 3) => [1; 2; 3; 4; 5; 6; 7; 8; 9; 10]%nat
    | Some (VInt 4) => [11; 12]%nat
    | _ => []
    end.

Definition reject_all : @Filter nat := mkFilter (fun _ => false) "RejectAll()".

(** A tags iterator about to ask for page 3. *)
Definition example_iterator (fs : list (@Filter nat)) : @ImageBoardIterator nat :=
  mkImageBoardIterator example_api "https://board/tags.json" fs
    [("limit", VInt 320)] "tags" 1 (Some 3) "0123".

Definition empty_world : @World nat := mkWorld ∅ [].

(** Forty-one distinct plain tags, and forty-one distinct tags two of which
    carry a reserved metatag. *)
Definition forty_one_tags : list string :=
  (fun n : nat => "tag" +:+ pretty n) <$> seq 0 41.

Definition forty_one_tags_two_reserved : list string :=
  "order:score" :: "limit:5" :: ((fun n : nat => "tag" +:+ pretty n) <$> seq 0 39).

Definition example_cache : Obj unit :=
  mkObj (mkDiskCache "search_cache/iterator/0123.pkl" 0 true 0 [1; 2]%nat)
        tt empty_world.

(** A scheduler with the defaults of [ThreadManager.__init__] (at most 4
    workers, a new worker per 60 queued jobs), one job queued, one worker
    running and one result on the tray; the clock ticks once per reading. *)
Definition example_manager : @ThreadManager string string :=
  set_result_tray {[ 5%positive := "response" ]}
    (set_manager_thread (Some true)
       (set_active_threads [mkThread 7 true]
          (set_job_queue [(8%positive, "job")] (ThreadManager_init None None 0 4 60)))).

Definition example_env : @Env string :=
  mkEnv (fun k => inject_Z (Z.of_nat k)) 0 [].

Definition example_scheduler : SObj unit :=
  mkSObj example_manager tt example_env.

Definition from_Ok {A} (d : A) (r : result A) : A :=
  match r with Ok a => a | _ => d end.

(** The rate limiters the repository builds: the one of
    [BaseImageBoardApi] and the one of its [MediaCacheWorker]. *)
Definition api_limiter : RequestWorker :=
  from_Ok (mkRequestWorker 0 0 0 0 0 0 0 0 0 0 0 0 0 0 0)
          (RequestWorker_init 60 120 60 30 60 1 0.1).

Definition media_limiter : RequestWorker :=
  from_Ok (mkRequestWorker 0 0 0 0 0 0 0 0 0 0 0 0 0 0 0)
          (RequestWorker_init 500 1000 120 60 30 4 0.1).

(** A limiter whose reset test fires in every iteration
    ([min_burst_length_seconds = 0]), with a depth of one burst request
    and a cooldown of one second. *)
Definition eager_reset_limiter : RequestWorker :=
  from_Ok (mkRequestWorker 0 0 0 0 0 0 0 0 0 0 0 0 0 0 0)
          (RequestWorker_init 60 120 2 0 1 1 0.1).

(** A clock that stands at second 1, and one that shows second [k] at its
    [k]-th reading, read [k] times so far. *)
Definition still_env : @Env string := mkEnv (fun _ => 1%Q) 0 [].

Definition ticking_env (k : nat) : @Env string :=
  mkEnv (fun j => inject_Z (Z.of_nat j)) k [].

(** Eight iterations of the dispatch loop one second apart, as the
    limiter sees them; and six that are ten seconds apart. *)
Definition media_calls : list (@limiter_step string) :=
  flat_map (fun k => [Determine (ticking_env k); ResetCheck (ticking_env k)])
           (seq 1 8).

Definition eager_calls : list (@limiter_step string) :=
  flat_map (fun k => [Determine (ticking_env (10 * k));
                      ResetCheck (ticking_env (10 * k + 1))])
           (seq 1 6).

(** A page-number iterator object with an empty table, the board's page 3
    next; and a cache whose source is exhausted. *)
Definition example_iterator_cache : Obj (@ImageBoardIterator nat) :=
  mkObj (mkDiskCache "search_cache/tags/0123.pkl" 0 true 0 [])
        (example_iterator []) empty_world.

Definition exhausted_cache : Obj unit :=
  mkObj (mkDiskCache "search_cache/iterator/0123.pkl" 0 false 0 [4; 5; 6]%nat)
        tt empty_world.

(** A board every page of which holds two items, and an iterator object
    about to ask [example_board] for its empty page 9. *)
Definition full_board : list Request -> Request -> list nat :=
  fun _ _ => [1; 2]%nat.

Definition empty_page_cache : Obj (@ImageBoardIterator nat) :=
  mkObj (mkDiskCache "search_cache/tags/0123.pkl" 0 true 0 [])
        (set_next_page (Some 9) (example_iterator [])) empty_world.

(** The media cache worker [ImageBoardApi] builds (32 workers, one per
    queued job), nothing downloaded yet. *)
Definition example_media_worker : @MObj string :=
  mkSObj (ThreadManager_init None None 0 32 1)
         (mkMediaCacheWorker media_limiter "search_cache/media" ∅)
         example_env.

(** A posts iterator with an empty table and a filter that keeps the
    items above 3, on a board that answers [a0] with the items 3, 2, 1
    and [a3] with 6, 5, 4; an item is its own id. *)
Definition example_id_board : list Request -> Request -> list nat :=
  fun _ rq =>
    match requested_page rq with
    | Some (VStr "a0") => [3; 2; 1]%nat
    | Some (VStr "a3") => [6; 5; 4]%nat
    | _ => []
    end.

Definition example_id_iterator : @Obj nat (@ImageBoardIDBasedIterator nat) :=
  mkObj (mkDiskCache "search_cache/posts/0123.pkl" 0 true 0 [])
        (mkImageBoardIDBasedIterator
           (mkImageBoardIterator example_api "https://board/posts.json"
              [mkFilter (fun n => 3 <? n)%nat "Above(3)"]
              [("tags", VStr "cat order:id"); ("limit", VInt 320)]
              "posts" 0 (Some 0) "0123")
           0 true 0 ["id"])
        empty_world.

Definition id_of_nat (path : list string) (n : nat) : option Z :=
  Some (Z.of_nat n).

(** * Properties *)

(** ** The order on strings *)

Lemma str_le_trans (a b c : string) : str_le a b -> str_le b c -> str_le a c.
Proof.
  unfold str_le, String.leb. revert b c.
  induction a as [|x a IH]; intros [|y b] [|z c]; cbn; try done.
  unfold Ascii.compare.
  destruct (N.compare_spec (N_of_ascii x) (N_of_ascii y)) as [Hxy|Hxy|Hxy],
           (N.compare_spec (N_of_ascii y) (N_of_ascii z)) as [Hyz|Hyz|Hyz],
           (N.compare_spec (N_of_ascii x) (N_of_ascii z)) as [Hxz|Hxz|Hxz];
    try done; try lia.
  apply IH.
Qed.

#[global] Instance str_le_transitive : Transitive str_le.
Proof. intros a b c. apply str_le_trans. Qed.

#[global] Instance str_le_total : Total str_le.
Proof. intros a b. apply String.leb_total. Qed.

#[global] Instance str_le_antisymm : AntiSymm (=) str_le.
Proof. intros a b. apply String.leb_antisym. Qed.

Lemma py_sorted_Sorted (l : list string) : Sorted str_le (py_sorted l).
Proof. apply Sorted_merge_sort, _. Qed.

Lemma py_sorted_Permutation (l : list string) : py_sorted l ≡ₚ l.
Proof. apply merge_sort_Permutation. Qed.

(** Sorting forgets the order the elements came in. *)
Lemma py_sorted_order_insensitive (l1 l2 : list string) :
  l1 ≡ₚ l2 -> py_sorted l1 = py_sorted l2.
Proof.
  intros Hperm. apply (Sorted_unique str_le); auto using py_sorted_Sorted.
  by rewrite !py_sorted_Permutation.
Qed.

(** ** The fingerprint *)

Section HashProperties.

Context {Item : Type}.
Variable md5_hexdigest : string -> string.
Variable repr_str : string -> string.

Lemma format_request_item_same (kv1 kv2 : string * value) :
  same_item kv1 kv2 ->
  format_request_item repr_str kv1 = format_request_item repr_str kv2.
Proof.
  destruct kv1 as [k1 v1], kv2 as [k2 v2]. intros [Hk Hv]; cbn in *; subst.
  destruct Hv as [s|n|l1 l2 Hl]; [done..|].
  by rewrite (py_sorted_order_insensitive l1 l2).
Qed.

Lemma format_request_items_same (d1 d2 : pydict) :
  same_parameters d1 d2 ->
  format_request_item repr_str <$> d1 ≡ₚ format_request_item repr_str <$> d2.
Proof.
  intros (d & Hsame & Hperm). rewrite <-Hperm. clear Hperm.
  induction Hsame as [|kv1 kv2 d1 d Hkv _ IH]; [done|].
  cbn. by rewrite (format_request_item_same kv1 kv2), IH.
Qed.

(** C1: the fingerprint does not depend on the filters.  [_hash] builds
    and sorts the filters' representations and then leaves them out of
    the hashed string, so two iterators that differ only in their filter
    sets get the same fingerprint, hence the same cache file. *)
Theorem hash_ignores_filters (api : Api) (endpoint iterator_type : string)
    (request_data : pydict) (filters1 filters2 : list (@Filter Item)) :
  _hash md5_hexdigest repr_str api endpoint request_data filters1
  = _hash md5_hexdigest repr_str api endpoint request_data filters2
  /\ _get_cache_file_path api iterator_type
       (_hash md5_hexdigest repr_str api endpoint request_data filters1)
     = _get_cache_file_path api iterator_type
         (_hash md5_hexdigest repr_str api endpoint request_data filters2).
Proof. unfold _hash. split; reflexivity. Qed.

(** C9: two iterators with the same requester, endpoint and filters,
    whose request parameters are the same up to the order of the keys and
    the order of the elements of list values, have the same
    fingerprint. *)
Theorem hash_order_insensitive (api : Api) (endpoint : string)
    (request_data1 request_data2 : pydict) (filters : list (@Filter Item)) :
  same_parameters request_data1 request_data2 ->
  _hash md5_hexdigest repr_str api endpoint request_data1 filters
  = _hash md5_hexdigest repr_str api endpoint request_data2 filters.
Proof.
  intros Hsame. unfold _hash. do 3 f_equal.
  by apply py_sorted_order_insensitive, format_request_items_same.
Qed.

End HashProperties.

Lemma hash_order_insensitive_witness :
  same_parameters [("tags", VList ["b"; "a"]); ("limit", VInt 320)]
                  [("limit", VInt 320); ("tags", VList ["a"; "b"])]
  /\ _hash (Item:=unit) id id
       (mkApi "user" "https://board" "search_cache" [] 320)
       "https://board/posts.json"
       [("tags", VList ["b"; "a"]); ("limit", VInt 320)] []
     = _hash (Item:=unit) id id
       (mkApi "user" "https://board" "search_cache" [] 320)
       "https://board/posts.json"
       [("limit", VInt 320); ("tags", VList ["a"; "b"])] [].
Proof.
  assert (same_parameters [("tags", VList ["b"; "a"]); ("limit", VInt 320)]
                          [("limit", VInt 320); ("tags", VList ["a"; "b"])])
    as Hsame.
  { exists [("tags", VList ["a"; "b"]); ("limit", VInt 320)]. split.
    - repeat constructor.
    - apply perm_swap. }
  split; [exact Hsame|].
  exact (hash_order_insensitive id id _ _ _ _ [] Hsame).
Defined.

(** ** The disk cache *)

Section DiskCacheProperties.

Context {Item Sub : Type}.
Variable source : PyM.M (Sub * @World Item) (list Item).

(** [__getitem__] unfolds the way the method reads. *)
Lemma getitem_unfold (index : Z) (o : Obj Sub) :
  __getitem__ source index o
  = match iloc (_df (base o)) index with
    | Some row => (Ok row, o)
    | None =>
        if cache_source_available (base o) then
          match _append_from_source source o with
          | (Ok _, o') => __getitem__ source index o'
          | (Raise e, o') => (Raise e, o')
          | (Blocks, o') => (Blocks, o')
          end
        else (Raise IndexError, o)
    end.
Proof.
  funelim (__getitem__ source index o); try clear Heqcall;
    repeat match goal with
           | H : ?x = _ |- context [?x] => rewrite H
           end; reflexivity.
Qed.

(** An extension whose source hands back an empty batch marks the source
    exhausted and leaves the table alone. *)
Lemma append_from_source_empty (o : Obj Sub) (s' : Sub) (w' : World) :
  source (sub o, world o) = (Ok [], (s', w')) ->
  _append_from_source source o
  = (Ok false, mkObj (set_cache_source_available false (base o)) s' w').
Proof.
  intros Hsrc.
  unfold _append_from_source, call_get_next_data, mbind, PyM_bind, PyM.bind.
  by rewrite Hsrc.
Qed.

(** C4: an index beyond the cached records.  While the source is
    available the access extends the cache from the source and tries
    again; an extension that gets an empty batch switches
    [cache_source_available] off; and with the source exhausted the
    access raises [IndexError], the object untouched and the source not
    asked. *)
Theorem getitem_beyond_cache (index : Z) (o : Obj Sub) :
  iloc (_df (base o)) index = None ->
  (cache_source_available (base o) = true ->
     __getitem__ source index o
     = match _append_from_source source o with
       | (Ok _, o') => __getitem__ source index o'
       | (Raise e, o') => (Raise e, o')
       | (Blocks, o') => (Blocks, o')
       end)
  /\ (forall s' w',
        cache_source_available (base o) = true ->
        source (sub o, world o) = (Ok [], (s', w')) ->
        let o' := mkObj (set_cache_source_available false (base o)) s' w' in
        _append_from_source source o = (Ok false, o')
        /\ __getitem__ source index o = (Raise IndexError, o'))
  /\ (cache_source_available (base o) = false ->
        __getitem__ source index o = (Raise IndexError, o)).
Proof.
  intros Hout. split; [|split].
  - intros Hav. by rewrite getitem_unfold, Hout, Hav.
  - intros s' w' Hav Hsrc o'.
    pose proof (append_from_source_empty o s' w' Hsrc) as Happ.
    split; [done|].
    rewrite getitem_unfold, Hout, Hav, Happ.
    by rewrite getitem_unfold; cbn; rewrite Hout.
  - intros Hav. by rewrite getitem_unfold, Hout, Hav.
Qed.

End DiskCacheProperties.

Lemma getitem_beyond_cache_witness :
  iloc (_df (base example_cache)) 5 = None
  /\ __getitem__ DiskCache_get_next_data 5 example_cache
     = (Raise IndexError,
        mkObj (set_cache_source_available false (base example_cache))
              tt empty_world).
Proof.
  split; [reflexivity|].
  exact (proj2 (proj1 (proj2
           (getitem_beyond_cache DiskCache_get_next_data 5 example_cache eq_refl))
           tt empty_world eq_refl eq_refl)).
Defined.

(** ** The page-number iterator *)

Section PageIteratorProperties.

Context {Item : Type}.
Variable upstream : list Request -> Request -> list Item.

Lemma dict_get_set (k : string) (v : value) (d : pydict) :
  dict_get k (dict_set k v d) = Some v.
Proof.
  induction d as [|[k' v'] d IH]; cbn.
  - by rewrite String.eqb_refl.
  - destruct (String.eqb k' k) eqn:Hk; cbn; rewrite ?String.eqb_refl, ?Hk; done.
Qed.

Lemma requested_page_page_request (it : @ImageBoardIterator Item) (page : Z) :
  requested_page (page_request it page) = Some (VInt page).
Proof. apply dict_get_set. Qed.

(** With no filter registered every item passes. *)
Lemma filter_page_items_no_filters (items : list Item) :
  _filter_page_items [] items = items.
Proof. induction items as [|x items IH]; cbn; [done|]. by f_equal. Qed.

(** What [_handle_ImageBoard_page_items] hands back is the items that
    pass every filter. *)
Lemma handle_page_items_filter (fs : list Filter) (items : list Item) (page : Z) :
  _handle_ImageBoard_page_items fs items page = _filter_page_items fs items.
Proof.
  unfold _handle_ImageBoard_page_items.
  destruct items as [|x items]; [done|].
  destruct fs as [|f fs]; [by rewrite filter_page_items_no_filters|].
  cbn [length Nat.eqb negb].
  by destruct (_filter_page_items (f :: fs) (x :: items)).
Qed.

(** One extension, by cases on the page the board answers with. *)
Lemma get_next_data_unfold (it : ImageBoardIterator) (w : World) :
  let page := current_page it in
  let rq := page_request it page in
  let items := fetched_page upstream it w in
  let kept := _filter_page_items (filters it) items in
  _get_next_data upstream (it, w)
  = match items, kept with
    | [], _ => (Ok [], (set_next_page (Some page) it, log_request rq w))
    | _ :: _, [] =>
        (Raise AttributeError, (set_next_page (Some page) it, log_request rq w))
    | _ :: _, _ :: _ =>
        (Ok kept, (set_next_page (Some (page + 2)) it, log_request rq w))
    end.
Proof.
  destruct it as [a e fs rd t sp np h].
  unfold _get_next_data, fetched_page, current_page, page_request, log_request,
    _handle_ImageBoard_page, _get_next_page, get_iterator, on_iterator,
    on_world, api_request, set_next_page,
    mbind, mret, PyM_bind, PyM_ret, PyM.bind, PyM.ret, PyM.modify, PyM.raise.
  destruct np as [p|]; cbn -[_handle_ImageBoard_page_items _filter_page_items];
    match goal with |- context [upstream ?l ?r] =>
      destruct (upstream l r) as [|x items];
      cbn -[_handle_ImageBoard_page_items _filter_page_items]; [done|];
      rewrite handle_page_items_filter;
      destruct (_filter_page_items fs (x :: items)); cbn; [done|];
      repeat f_equal; lia
    end.
Qed.

(** The page number never goes back, and every request of later
    extensions is for the page number of the time. *)
Lemma extensions_requests (n : nat) (s : ImageBoardIterator * World) :
  exists new,
    http_log (extensions upstream n s).2 = http_log s.2 ++ new
    /\ Forall (fun rq => exists q, requested_page rq = Some (VInt q)
                                  /\ current_page s.1 <= q) new.
Proof.
  revert s. induction n as [|n IH]; intros [it w]; cbn [extensions].
  - exists []. by rewrite app_nil_r.
  - pose proof (get_next_data_unfold it w) as Hstep. cbn zeta in Hstep.
    destruct (IH (snd (_get_next_data upstream (it, w)))) as (new & Hlog & Hnew).
    exists (page_request it (current_page it) :: new).
    assert (http_log (_get_next_data upstream (it, w)).2.2
            = http_log w ++ [page_request it (current_page it)]
            /\ current_page it <= current_page (_get_next_data upstream (it, w)).2.1)
      as [Hlog1 Hpage1].
    { rewrite Hstep.
      destruct (fetched_page upstream it w);
        [|destruct (_filter_page_items _ _)]; cbn; split; try done;
        unfold current_page; cbn; lia. }
    split.
    + rewrite Hlog, Hlog1. cbn. by rewrite <-app_assoc.
    + constructor.
      * exists (current_page it).
        split; [apply requested_page_page_request|cbn; lia].
      * eapply Forall_impl; [exact Hnew|]. cbn beta.
        intros rq (q & Hq & Hle). exists q. split; [done|cbn; lia].
Qed.

(** C2: a page-number extension that fetches a non-empty page whose
    items are all removed by the filters.  The method resets [_next_page]
    to that page and calls [self._get_next_page()], which no class
    defines: the extension raises [AttributeError] after the one request
    for that page; the following page is not fetched. *)
Theorem fully_filtered_page_raises (it : ImageBoardIterator) (w : World) :
  fetched_page upstream it w <> [] ->
  _filter_page_items (filters it) (fetched_page upstream it w) = [] ->
  _get_next_data upstream (it, w)
  = (Raise AttributeError,
     (set_next_page (Some (current_page it)) it,
      log_request (page_request it (current_page it)) w)).
Proof.
  intros Hpage Hkept. rewrite get_next_data_unfold. cbn zeta.
  rewrite Hkept. by destruct (fetched_page upstream it w).
Qed.

(** C3: a page-number extension that fetches page [p] and keeps at least
    one of its items returns the kept items and leaves [_next_page] at
    [p + 2]; every request of the extensions that follow is for a page
    from [p + 2] on, so page [p + 1] is not requested. *)
Theorem surviving_page_advances_by_two (it : ImageBoardIterator) (w : World) :
  _filter_page_items (filters it) (fetched_page upstream it w) <> [] ->
  exists it' w',
    _get_next_data upstream (it, w)
    = (Ok (_filter_page_items (filters it) (fetched_page upstream it w)),
       (it', w'))
    /\ _next_page it' = Some (current_page it + 2)
    /\ requests_since w w' = [page_request it (current_page it)]
    /\ forall n,
         Forall (fun rq => exists q, requested_page rq = Some (VInt q)
                                     /\ current_page it + 2 <= q)
                (requests_since w' (extensions upstream n (it', w')).2).
Proof.
  intros Hkept.
  exists (set_next_page (Some (current_page it + 2)) it),
         (log_request (page_request it (current_page it)) w).
  split; [|split; [done|split]].
  - rewrite get_next_data_unfold. cbn zeta.
    destruct (fetched_page upstream it w) as [|x items]; [done|].
    by destruct (_filter_page_items (filters it) (x :: items)).
  - unfold requests_since, log_request. cbn. by rewrite drop_app_length.
  - intros n.
    destruct (extensions_requests n
                (set_next_page (Some (current_page it + 2)) it,
                 log_request (page_request it (current_page it)) w))
      as (new & Hlog & Hnew).
    unfold requests_since. rewrite Hlog. cbn [snd]. by rewrite drop_app_length.
Qed.

End PageIteratorProperties.

Lemma fully_filtered_page_raises_witness :
  fetched_page example_board (example_iterator [reject_all]) empty_world <> []
  /\ _filter_page_items [reject_all]
       (fetched_page example_board (example_iterator [reject_all]) empty_world)
     = []
  /\ _get_next_data example_board (example_iterator [reject_all], empty_world)
     = (Raise AttributeError,
        (set_next_page (Some 3) (example_iterator [reject_all]),
         log_request (page_request (example_iterator [reject_all]) 3)
                     empty_world)).
Proof.
  assert (fetched_page example_board (example_iterator [reject_all]) empty_world
          <> []) as Hpage by (vm_compute; discriminate).
  assert (_filter_page_items (filters (example_iterator [reject_all]))
            (fetched_page example_board (example_iterator [reject_all])
               empty_world) = []) as Hkept by reflexivity.
  split; [exact Hpage|]. split; [exact Hkept|].
  exact (fully_filtered_page_raises example_board
           (example_iterator [reject_all]) empty_world Hpage Hkept).
Defined.

Lemma surviving_page_advances_by_two_witness :
  _filter_page_items [] (fetched_page example_board (example_iterator []) empty_world)
  <> []
  /\ exists it' w',
       _get_next_data example_board (example_iterator [], empty_world)
       = (Ok [1; 2; 3; 4; 5; 6; 7; 8; 9; 10]%nat, (it', w'))
       /\ _next_page it' = Some 5.
Proof.
  assert (_filter_page_items (filters (example_iterator []))
            (fetched_page example_board (example_iterator []) empty_world)
          <> []) as Hkept by (vm_compute; discriminate).
  split; [exact Hkept|].
  destruct (surviving_page_advances_by_two example_board
              (example_iterator []) empty_world Hkept)
    as (it' & w' & Hrun & Hnext & _).
  exists it', w'. split; [exact Hrun | exact Hnext].
Defined.

(** ** The posts iterator's constructor *)

Section PostsProperties.

Context {Item : Type}.
Variable md5_hexdigest : string -> string.
Variable repr_str : string -> string.

(** The loop over the tags stops at the first tag it wants to strip. *)
Lemma collect_tags_to_remove_reserved (tags acc : list string) (w : @World Item) :
  existsb has_banned_metatag tags = true ->
  collect_tags_to_remove tags acc w = (Raise AttributeError, w).
Proof.
  revert acc. induction tags as [|tag tags IH]; intros acc; cbn; [done|].
  unfold has_banned_metatag at 1, mbind, PyM_bind, PyM.bind.
  destruct (char_in ":" tag); cbn; [|by apply IH].
  destruct (str_in (split_head ":" tag) banned_metatags); cbn;
    [done | by apply IH].
Qed.

Lemma collect_tags_to_remove_plain (tags acc : list string) (w : @World Item) :
  existsb has_banned_metatag tags = false ->
  collect_tags_to_remove tags acc w = (Ok acc, w).
Proof.
  revert acc. induction tags as [|tag tags IH]; intros acc; cbn; [done|].
  unfold has_banned_metatag at 1, mbind, PyM_bind, PyM.bind.
  destruct (char_in ":" tag); cbn; [|by apply IH].
  destruct (str_in (split_head ":" tag) banned_metatags); cbn;
    [done | by apply IH].
Qed.

Lemma filter_not_in_nil (tags : list string) :
  List.filter (fun tag => negb (str_in tag [])) tags = tags.
Proof. induction tags as [|tag tags IH]; cbn; [done|]. by f_equal. Qed.

(** C8: a tag list that holds a tag with a reserved metatag prefix
    ([order], [limit], [page], [tags]).  The constructor collects such
    tags with [tags_to_remove.add(tag)] on a [list]: it raises
    [AttributeError] at the first of them, before anything is stripped,
    [order:id] appended or the request data built. *)
Theorem reserved_tag_breaks_construction (api : Api) (tags : list string)
    (filters : option (list Filter)) (limit : option Z)
    (clear_cache_on_init : bool) (w : @World Item) :
  existsb has_banned_metatag tags = true ->
  ImageBoardPostsIterator_init md5_hexdigest repr_str api (Some tags) filters
    limit clear_cache_on_init w
  = (Raise AttributeError, w).
Proof.
  intros Hres. unfold ImageBoardPostsIterator_init, mbind, PyM_bind, PyM.bind.
  cbn [default]. by rewrite collect_tags_to_remove_reserved.
Qed.

(** C10: a posts query with 41 tags.  [list_posts] fails its tag-budget
    assertion at once; the constructor called directly fails its own
    when none of the tags carries a reserved metatag prefix.  Either way
    the world is as before: nothing was written and no HTTP request
    submitted. *)
Theorem forty_one_tags_fail_the_budget (api : Api) (tags : list string)
    (filters : option (list Filter)) (w : @World Item) :
  length tags = 41%nat ->
  (forall include_base_tags overwrite_disk_cache,
      list_posts md5_hexdigest repr_str api tags filters include_base_tags
        overwrite_disk_cache w
      = (Raise AssertionError, w))
  /\ (existsb has_banned_metatag tags = false ->
      forall limit clear_cache_on_init,
        ImageBoardPostsIterator_init md5_hexdigest repr_str api (Some tags)
          filters limit clear_cache_on_init w
        = (Raise AssertionError, w)).
Proof.
  intros Hlen. split.
  - intros include_base_tags overwrite_disk_cache.
    unfold list_posts, mbind, PyM_bind, PyM.bind, PyM.assert.
    rewrite Hlen.
    destruct (Z.leb_spec (Z.of_nat 41 + Z.of_nat (length (base_search_tags api)))
                constants.MAX_TAGS_PER_REQUEST) as [Hle|Hgt]; [|done].
    unfold constants.MAX_TAGS_PER_REQUEST in Hle. lia.
  - intros Hplain limit clear_cache_on_init.
    unfold ImageBoardPostsIterator_init, mbind, PyM_bind, PyM.bind.
    cbn [default]. rewrite collect_tags_to_remove_plain by done.
    cbv beta iota zeta. unfold id. by rewrite filter_not_in_nil, Hlen.
Qed.

End PostsProperties.

Lemma reserved_tag_breaks_construction_witness :
  existsb has_banned_metatag ["order:score"] = true
  /\ ImageBoardPostsIterator_init id id example_api (Some ["order:score"])
       None (Some 320) false empty_world
     = (Raise AttributeError, empty_world).
Proof.
  split; [reflexivity|].
  exact (reserved_tag_breaks_construction id id example_api ["order:score"]
           None (Some 320) false empty_world eq_refl).
Defined.

Lemma forty_one_tags_fail_the_budget_witness :
  length forty_one_tags = 41%nat
  /\ list_posts id id example_api forty_one_tags None true false empty_world
     = (Raise AssertionError, empty_world)
  /\ ImageBoardPostsIterator_init id id example_api (Some forty_one_tags)
       None (Some 320) false empty_world
     = (Raise AssertionError, empty_world).
Proof.
  split; [reflexivity|]. split.
  - exact (proj1 (forty_one_tags_fail_the_budget id id example_api
                    forty_one_tags None empty_world eq_refl) true false).
  - refine (proj2 (forty_one_tags_fail_the_budget id id example_api
                     forty_one_tags None empty_world eq_refl) _ (Some 320) false).
    vm_compute. reflexivity.
Defined.

(** C10, as stated, fails on forty-one distinct tags of which two carry a
    reserved metatag: the constructor raises [AttributeError] at the first
    of them, and the tag-budget assertion is never reached. *)
Lemma forty_one_tags_budget_not_reached :
  length forty_one_tags_two_reserved = 41%nat
  /\ NoDup forty_one_tags_two_reserved
  /\ (ImageBoardPostsIterator_init id id example_api
        (Some forty_one_tags_two_reserved) None (Some 320) false empty_world).1
     = Raise AttributeError
  /\ (ImageBoardPostsIterator_init id id example_api
        (Some forty_one_tags_two_reserved) None (Some 320) false empty_world).1
     <> Raise AssertionError.
Proof.
  split; [reflexivity|]. split.
  - apply (bool_decide_unpack _). vm_compute. exact I.
  - split; [vm_compute; reflexivity | vm_compute; discriminate].
Qed.

(** ** The controller loop *)

Section ControllerProperties.

Context {JobArgs Response Sub : Type}.

Implicit Types (o : @SObj JobArgs Response Sub) (t : @ThreadManager JobArgs Response).

Lemma list_remove_first_keeps (x y : Thread) (l : list Thread) :
  y ∈ l -> x <> y -> y ∈ list_remove_first x l.
Proof.
  induction l as [|z l IH]; cbn; [done|].
  intros [->|Hin]%elem_of_cons Hne; case_decide; subst; try done.
  - apply list_elem_of_here.
  - by apply list_elem_of_further, IH.
Qed.

Lemma list_remove_first_sublist (x : Thread) (l : list Thread) :
  list_remove_first x l `sublist_of` l.
Proof.
  induction l as [|z l IH]; cbn; [done|].
  case_decide; [by apply sublist_cons | by apply sublist_skip].
Qed.

(** One pass of [_cleanup_threads] drops finished workers only; the
    living ones all stay. *)
Lemma cleanup_from_spec (i : nat) (l : list Thread) :
  cleanup_from i l `sublist_of` l
  /\ forall thread, thread ∈ l -> thread_is_alive thread = true ->
                    thread ∈ cleanup_from i l.
Proof.
  funelim (cleanup_from i l); try clear Heqcall; [|done].
  destruct (thread_is_alive thread) eqn:Halive; [done|].
  match goal with
  | IH : cleanup_from _ (list_remove_first _ _) `sublist_of` _ /\ _ |- _ =>
      destruct IH as [Hsub Hkeep]
  end.
  split.
  - etrans; [exact Hsub | apply list_remove_first_sublist].
  - intros y Hy Hyalive. apply Hkeep; [|done].
    apply list_remove_first_keeps; [done|]. intros ->. congruence.
Qed.

Lemma list_remove_first_shorter (x : Thread) (l : list Thread) :
  x ∈ l -> (length (list_remove_first x l) < length l)%nat.
Proof.
  induction l as [|y l IH]; cbn; [by intros ?%elem_of_nil|].
  intros Hin. case_decide as Hxy; cbn; [lia|].
  apply elem_of_cons in Hin as [->|Hin]; [done|]. apply IH in Hin. lia.
Qed.

(** A pass that still has a finished worker ahead of it drops at least
    one. *)
Lemma cleanup_from_shrinks (i : nat) (l : list Thread) :
  (exists j thread, (i <= j)%nat /\ l !! j = Some thread
                    /\ thread_is_alive thread = false) ->
  (length (cleanup_from i l) < length l)%nat.
Proof.
  funelim (cleanup_from i l); try clear Heqcall;
    intros (j & dead & Hij & Hj & Hdead).
  - destruct (thread_is_alive thread) eqn:Halive.
    + match goal with
      | IH : _ -> (length (cleanup_from (S i) l) < _)%nat |- _ => apply IH
      end.
      exists j, dead. repeat split; try done.
      destruct (decide (i = j)) as [->|]; [congruence|lia].
    + pose proof (proj1 (cleanup_from_spec (S i) (list_remove_first thread l)))
        as Hsub%sublist_length.
      assert (thread ∈ l) as Hshort%list_remove_first_shorter
        by (by eapply list_elem_of_lookup_2).
      lia.
  - match goal with Hnone : _ !! _ = None |- _ =>
      pose proof (lookup_ge_None_1 _ _ Hnone)
    end.
    apply lookup_lt_Some in Hj. lia.
Qed.

Lemma desired_worker_count_min t :
  desired_worker_count t
  = Z.min (Z.of_nat (length (job_queue t)) `div` new_thread_job_threshold t + 1)
          (max_concurrent_threads t).
Proof. unfold desired_worker_count. case_match; lia. Qed.

(** C7: one iteration of the controller loop (queue non-empty or workers
    active), with the base class's [_summon_thread].  The desired count
    is [min(queue_size // threshold + 1, max_concurrent_threads)], with
    the floor of the quotient.  When fewer workers than that are active
    the iteration takes the job at the head of the queue and starts
    exactly one worker for it; otherwise it starts none, runs one pass of
    [_cleanup_threads], which drops finished workers only, and at least
    one when there is any, and sleeps. *)
Theorem manage_threads_work_iteration o :
  controller_loop_guard (tm o) = true ->
  desired_worker_count (tm o)
  = Z.min (Z.of_nat (length (job_queue (tm o)))
             `div` new_thread_job_threshold (tm o) + 1)
          (max_concurrent_threads (tm o))
  /\ exists o',
      ThreadManager_manage_threads_work ThreadManager_summon_thread o
      = (Ok tt, o')
      /\ if bool_decide (Z.of_nat (length (_active_threads (tm o)))
                         < desired_worker_count (tm o))
         then exists job rest,
             job_queue (tm o) = job :: rest
             /\ job_queue (tm o') = rest
             /\ _active_threads (tm o') = _active_threads (tm o)
             /\ started_workers (effects (env o'))
                = started_workers (effects (env o)) ++ [job]
         else job_queue (tm o') = job_queue (tm o)
              /\ _active_threads (tm o') = _cleanup_threads (_active_threads (tm o))
              /\ (forall thread, thread ∈ _active_threads (tm o) ->
                                 thread_is_alive thread = true ->
                                 thread ∈ _active_threads (tm o'))
              /\ ((exists thread, thread ∈ _active_threads (tm o)
                                  /\ thread_is_alive thread = false) ->
                  (length (_active_threads (tm o'))
                   < length (_active_threads (tm o)))%nat)
              /\ effects (env o')
                 = effects (env o) ++ [EffSleep (idle_sleep (tm o))].
Proof.
  intros Hguard. split; [apply desired_worker_count_min|].
  unfold ThreadManager_manage_threads_work, mbind, PyM_bind, PyM.bind.
  cbn [PyM.get].
  case_bool_decide as Hlt.
  - destruct (Z.ltb_spec 0 (desired_worker_count (tm o)
                            - Z.of_nat (length (_active_threads (tm o)))))
      as [_|?]; [|lia].
    destruct (job_queue (tm o)) as [|[job_id kwargs] rest] eqn:Hq.
    { exfalso. unfold controller_loop_guard in Hguard.
      rewrite desired_worker_count_min, Hq in Hlt. rewrite Hq in Hguard.
      cbn in Hlt, Hguard. rewrite Zdiv_0_l in Hlt.
      destruct (_active_threads (tm o)); cbn in *; [done|lia]. }
    unfold _summon_thread_from_queue, ThreadManager_summon_thread, sleep, emit,
      now, on_tm, mbind, mret, PyM_bind, PyM_ret, PyM.bind, PyM.ret, PyM.get,
      PyM.modify.
    rewrite Hq. cbn.
    match goal with |- context [Qlt_le_dec ?a ?b] => destruct (Qlt_le_dec a b) end;
      cbn; eexists; (split; [reflexivity|]); exists (job_id, kwargs), rest; cbn;
      unfold started_workers; rewrite ?omap_app; cbn;
      rewrite ?app_nil_r; done.
  - destruct (Z.ltb_spec 0 (desired_worker_count (tm o)
                            - Z.of_nat (length (_active_threads (tm o)))))
      as [?|_]; [lia|].
    unfold sleep, emit, on_tm, mbind, mret, PyM_bind, PyM_ret, PyM.bind,
      PyM.ret, PyM.modify. cbn.
    eexists; split; [reflexivity|]. cbn.
    split; [done|]. split; [done|]. split; [apply cleanup_from_spec|].
    split; [|done].
    intros (thread & [j Hj]%list_elem_of_lookup_1 & Hdead).
    apply cleanup_from_shrinks. exists j, thread. repeat split; [lia|done..].
Qed.

End ControllerProperties.

Lemma manage_threads_work_iteration_witness :
  controller_loop_guard (tm example_scheduler) = true
  /\ desired_worker_count (tm example_scheduler) = Z.min (1 `div` 60 + 1) 4.
Proof.
  split; [reflexivity|].
  exact (proj1 (manage_threads_work_iteration example_scheduler eq_refl)).
Defined.

(** C7, as stated, fails with one job queued, a threshold of 60 and one
    worker active: the code wants [1 // 60 + 1 = 1] worker where the
    ceiling gives 2, and with one worker active, below 2, the iteration
    starts none. *)
Lemma desired_worker_count_is_not_ceiling :
  desired_worker_count (tm example_scheduler) = 1
  /\ spec_desired_worker_count (tm example_scheduler) = 2
  /\ Z.of_nat (length (_active_threads (tm example_scheduler)))
     < spec_desired_worker_count (tm example_scheduler)
  /\ started_workers
       (effects (env (ThreadManager_manage_threads_work
                        ThreadManager_summon_thread example_scheduler).2))
     = [].
Proof. repeat split. Qed.

(** ** Result retrieval *)

Section ResultProperties.

Context {JobArgs Response Sub : Type}.

Implicit Types (o : @SObj JobArgs Response Sub).

Lemma stored_lookup_other (job_id : JobId) (l : list (JobId * Response))
    (tray : gmap JobId Response) :
  job_id ∉ l.*1 ->
  foldl (fun tray jr => <[jr.1 := jr.2]> tray) tray l !! job_id = tray !! job_id.
Proof.
  revert tray. induction l as [|[j r] l IH]; intros tray Hnot; cbn; [done|].
  cbn in Hnot. apply not_elem_of_cons in Hnot as [Hne Hnot].
  rewrite IH by done. by rewrite lookup_insert_ne.
Qed.

(** The response a worker stores is on the tray afterwards. *)
Lemma RequestThread_run_stores (job_id : JobId) (response : Response) o :
  result_tray (tm (RequestThread_run job_id response o).2) !! job_id
  = Some response.
Proof. cbn. apply lookup_insert_eq. Qed.

(** With the result present the loop takes it at once. *)
Lemma get_result_loop_present (job_id : JobId) (response : Response)
    (timeout timeout_time : Q) (obs : list wait_obs) (attempts : Z) o :
  result_tray (tm o) !! job_id = Some response ->
  get_result_loop job_id timeout timeout_time obs attempts o
  = (Ok response,
     mkSObj (set_result_tray (delete job_id (result_tray (tm o))) (tm o))
            (lim o) (env o)).
Proof.
  intros Hin. destruct obs; cbn [get_result_loop];
    unfold mbind, PyM_bind, PyM.bind; cbn [PyM.get]; by rewrite Hin.
Qed.

Ltac unfold_round :=
  cbn [get_result_loop];
  unfold sleep, emit, others_run, manage_threads, now, on_tm,
    mbind, mret, PyM_bind, PyM_ret, PyM.bind, PyM.ret, PyM.get, PyM.modify,
    PyM.raise, PyM.blocks.

(** While no worker stores a result for the job, the loop never returns
    one. *)
Lemma get_result_loop_missing (job_id : JobId) (timeout timeout_time : Q)
    (obs : list wait_obs) (attempts : Z) o :
  result_tray (tm o) !! job_id = None ->
  never_stores job_id obs ->
  is_Ok (get_result_loop job_id timeout timeout_time obs attempts o).1 = false.
Proof.
  revert attempts o. induction obs as [|ob rest IH]; intros attempts o Hnone Hobs.
  - unfold_round. by rewrite Hnone.
  - apply Forall_cons in Hobs as [Hob Hrest].
    unfold_round. rewrite Hnone. cbn.
    destruct (manager_thread (tm o)) as [m|] eqn:Hm; cbn; rewrite ?Hm; [|done].
    destruct (manager_alive ob); cbn; unfold emit, PyM.modify; cbn.
    all: destruct (5 <? _); cbn; [done|].
    all: destruct (Qle_bool 0 timeout); cbn;
      [destruct (Qle_bool _ timeout_time); cbn; [|done]|].
    all: apply IH; cbn; [by rewrite stored_lookup_other | done].
Qed.

(** Without a timeout the loop ends exactly when the controller has been
    found dead, and restarted, more than five times; until then it
    waits. *)
Lemma get_result_loop_restarts (job_id : JobId) (timeout timeout_time : Q)
    (obs : list wait_obs) (attempts : Z) o :
  result_tray (tm o) !! job_id = None ->
  never_stores job_id obs ->
  is_Some (manager_thread (tm o)) ->
  Qle_bool 0 timeout = false ->
  0 <= attempts <= 5 ->
  (get_result_loop job_id timeout timeout_time obs attempts o).1
  = if bool_decide (6 <= attempts + Z.of_nat (dead_rounds obs))
    then Raise KeyError else Blocks.
Proof.
  intros Hnone Hobs Hmgr Htimeout. revert attempts o Hnone Hmgr.
  induction obs as [|ob rest IH]; intros attempts o Hnone [m Hm] Hatt.
  - unfold_round. rewrite Hnone. cbn. case_bool_decide; [lia|done].
  - apply Forall_cons in Hobs as [Hob Hrest].
    unfold_round. rewrite Hnone, Htimeout. cbn. rewrite Hm. cbn.
    unfold dead_rounds. cbn [List.filter].
    destruct (manager_alive ob); cbn; unfold emit, PyM.modify; cbn.
    + destruct (Z.ltb_spec 5 attempts); [lia|]. cbn.
      rewrite IH; cbn; [done|done|by rewrite stored_lookup_other|eauto|lia].
    + destruct (Z.ltb_spec 5 (attempts + 1)); cbn.
      * case_bool_decide; [done|lia].
      * rewrite IH; cbn; [|done|by rewrite stored_lookup_other|eauto|lia].
        fold (dead_rounds rest). repeat case_bool_decide; try done; lia.
Qed.

(** C5: a job whose result is on the tray.  [get_result] returns that
    result and takes it off the tray.  A second call for the same job id
    never returns a result; called without a timeout ([timeout < 0], the
    default) it waits until it has found the controller thread dead, and
    restarted it, for the sixth time, and raises [KeyError] then. *)
Theorem get_result_pops_once (job_id : JobId) (response : Response) o :
  result_tray (tm o) !! job_id = Some response ->
  (forall timeout obs,
      get_result job_id timeout obs o = (Ok response, after_pop job_id o))
  /\ result_tray (tm (after_pop job_id o)) !! job_id = None
  /\ (forall timeout obs,
        never_stores job_id obs ->
        is_Ok (get_result job_id timeout obs (after_pop job_id o)).1 = false)
  /\ (forall timeout obs,
        never_stores job_id obs ->
        is_Some (manager_thread (tm o)) ->
        (timeout < 0)%Q ->
        (get_result job_id timeout obs (after_pop job_id o)).1
        = if bool_decide (6 <= dead_rounds obs)%nat
          then Raise KeyError else Blocks).
Proof.
  intros Hin. split; [|split; [|split]].
  - intros timeout obs. unfold get_result, mbind, PyM_bind, PyM.bind, now.
    by erewrite get_result_loop_present by (cbn; exact Hin).
  - cbn. apply lookup_delete_eq.
  - intros timeout obs Hobs. unfold get_result, mbind, PyM_bind, PyM.bind, now.
    apply get_result_loop_missing; [|done]. cbn. apply lookup_delete_eq.
  - intros timeout obs Hobs Hmgr Htimeout.
    unfold get_result, mbind, PyM_bind, PyM.bind, now.
    rewrite get_result_loop_restarts; cbn;
      [|apply lookup_delete_eq|done|done| |lia].
    + repeat case_bool_decide; try done; lia.
    + destruct (Qle_bool 0 timeout) eqn:Hle; [|done].
      apply Qle_bool_iff in Hle. lra.
Qed.

End ResultProperties.

Lemma get_result_pops_once_witness :
  result_tray (tm example_scheduler) !! 5%positive = Some "response"
  /\ get_result 5 (-1) [] example_scheduler
     = (Ok "response", after_pop 5 example_scheduler)
  /\ (get_result 5 (-1) (replicate 6 (mkWaitObs [] false))
        (after_pop 5 example_scheduler)).1
     = Raise KeyError.
Proof.
  split; [reflexivity|]. split.
  - exact (proj1 (get_result_pops_once 5 "response" example_scheduler eq_refl)
             (-1)%Q []).
  - refine (proj2 (proj2 (proj2
              (get_result_pops_once 5 "response" example_scheduler eq_refl)))
              (-1)%Q (replicate 6 (mkWaitObs [] false)) _ _ _).
    + repeat constructor; cbn; apply not_elem_of_nil.
    + cbn. eauto.
    + reflexivity.
Defined.

(** C5, as stated, fails for a second call with [timeout = 0]: after one
    round the deadline has passed and the call raises [TimeoutError], the
    controller restarted once. *)
Lemma second_get_result_times_out :
  (get_result 5 0 [mkWaitObs [] false] (after_pop 5 example_scheduler)).1
  = Raise TimeoutError.
Proof. reflexivity. Qed.

(** ** The rate limiter *)

Section LimiterProperties.

Context {JobArgs Response : Type}.

Implicit Types (w : RequestWorker) (e : @Env JobArgs).

Lemma determine_interval_unfold w e :
  _determine_interval (w, e)
  = if negb (new_burst_requests_available w) && new_burst_periods_available w
    then _determine_interval
           (set_burst_state 0 (_consecutive_burst_periods w + 1)
              (clock e (clock_reads e) + burst_cooldown_length_seconds w)%Q w,
            (read_clock e).2)
    else if negb (Qle_bool (clock e (clock_reads e))
                           (_burst_available_after_timestamp w))
            && new_burst_requests_available w
         then (Burst,
               (set_burst_state (_consecutive_burst_requests w + 1)
                  (_consecutive_burst_periods w)
                  (_burst_available_after_timestamp w) w,
                (read_clock e).2))
         else (Base, (w, (read_clock e).2)).
Proof.
  funelim (_determine_interval (w, e)); try clear Heqcall;
    match goal with H : _ = _ |- _ => rewrite H end; reflexivity.
Qed.

Lemma requests_available_lt w :
  new_burst_requests_available w = true ->
  _consecutive_burst_requests w < Qceiling (max_consecutive_burst_requests w).
Proof.
  unfold new_burst_requests_available. intros Hav.
  apply negb_true_iff, not_true_iff_false in Hav.
  rewrite Qle_bool_iff in Hav. apply Qnot_le_lt in Hav.
  pose proof (Qle_ceiling (max_consecutive_burst_requests w)) as Hceil.
  rewrite Zlt_Qlt. lra.
Qed.

Lemma determine_interval_call_ok w e : call_ok w e (_determine_interval (w, e)).
Proof.
  funelim (_determine_interval (w, e)); try clear Heqcall.
  - (* a new burst period starts, then the call evaluates again *)
    cbn [read_clock].
    pose proof (proj2 (andb_prop _ _ Hnew)) as Hpa.
    unfold new_burst_periods_available in Hpa. apply Z.ltb_lt in Hpa.
    match goal with IH : forall _ _, call_ok _ _ _ |- _ =>
      specialize (IH (clock e (clock_reads e))
                     (mkEnv (clock e) (S (clock_reads e)) (effects e)))
    end.
    set (r := _determine_interval _) in *. clearbody r.
    destruct r as [p [w' e']]. unfold call_ok in *. cbn -[Nat.sub] in *.
    destruct H as (Hmax & Hmaxp & Hcool & Hclock & Hreads & Hreq & Hper
                   & Hperb & Hburst & Hsame & Hstart).
    repeat split; try done; try lia.
    intros _.
    destruct (decide (_consecutive_burst_periods w'
                      = _consecutive_burst_periods w + 1)) as [Heq|Hne].
    + destruct (Hsame Heq) as [-> ->].
      by replace (S (S (clock_reads e)) - 2)%nat with (clock_reads e) by lia.
    + apply Hstart. lia.
  - (* no new period: burst or base *)
    unfold call_ok. cbn -[Nat.sub].
    destruct (negb (Qle_bool (clock e (clock_reads e))
                             (_burst_available_after_timestamp w))
              && new_burst_requests_available w) eqn:Hb; cbn -[Nat.sub].
    + apply andb_prop in Hb as [Hcool Hreq].
      apply negb_true_iff, not_true_iff_false in Hcool.
      rewrite Qle_bool_iff in Hcool. apply Qnot_le_lt in Hcool.
      repeat split; try done; try lia.
      intros _. by replace (S (clock_reads e) - 1)%nat with (clock_reads e) by lia.
    + repeat split; try done; try lia.
Qed.

(** An evaluation that reads a time inside the cooldown window returns
    the base interval, also when it goes through new burst periods first,
    as long as the clock is calm. *)
Lemma determine_interval_in_window w e :
  calm (burst_cooldown_length_seconds w) e ->
  (clock e (clock_reads e) <= _burst_available_after_timestamp w)%Q ->
  (_determine_interval (w, e)).1 = Base.
Proof.
  funelim (_determine_interval (w, e)); try clear Heqcall;
    intros Hcalm Hwin; cbn [read_clock].
  - match goal with IH : forall _ _, _ -> _ -> _ = Base |- _ => apply IH end;
      cbn; [done | apply Hcalm].
  - apply Qle_bool_iff in Hwin. by rewrite Hwin.
Qed.

(** On a calm clock a call that returns the burst interval found the
    request counter below the bound and raised it by one. *)
Lemma determine_interval_burst w e :
  calm (burst_cooldown_length_seconds w) e ->
  (_determine_interval (w, e)).1 = Burst ->
  new_burst_requests_available w = true
  /\ _consecutive_burst_requests (_determine_interval (w, e)).2.1
     = _consecutive_burst_requests w + 1.
Proof.
  intros Hcalm. rewrite determine_interval_unfold.
  destruct (negb (new_burst_requests_available w)
            && new_burst_periods_available w) eqn:Hnew.
  - rewrite determine_interval_in_window; [done|done|]. cbn. apply Hcalm.
  - destruct (negb (Qle_bool (clock e (clock_reads e))
                             (_burst_available_after_timestamp w))
              && new_burst_requests_available w) eqn:Hb; [|done].
    apply andb_prop in Hb as [_ Hreq]. done.
Qed.

(** The reset that ends [RequestWorker._manage_threads_work], when it
    fires, clears both counters and opens a cooldown window; the next call
    that reads a time inside it returns the base interval. *)
Lemma burst_reset_check_restarts w e :
  Qle_bool (min_consecutive_burst_requests w)
           (inject_Z (_consecutive_burst_periods w)) = true ->
  _consecutive_burst_requests (burst_reset_check (w, e)).1 = 0
  /\ _consecutive_burst_periods (burst_reset_check (w, e)).1 = 0
  /\ _burst_available_after_timestamp (burst_reset_check (w, e)).1
     = (clock e (clock_reads e) + burst_cooldown_length_seconds w)%Q
  /\ forall e',
       calm (burst_cooldown_length_seconds w) e' ->
       (clock e' (clock_reads e')
        <= clock e (clock_reads e) + burst_cooldown_length_seconds w)%Q ->
       (_determine_interval ((burst_reset_check (w, e)).1, e')).1 = Base.
Proof.
  intros Hfire. unfold burst_reset_check. rewrite Hfire. cbn.
  repeat split. intros e' Hcalm Hwin. by apply determine_interval_in_window.
Qed.

Lemma determine_intervals_cons e (envs : list (@Env JobArgs)) w :
  determine_intervals (e :: envs) w
  = ((_determine_interval (w, e)).1
       :: (determine_intervals envs (_determine_interval (w, e)).2.1).1,
     (determine_intervals envs (_determine_interval (w, e)).2.1).2).
Proof.
  cbn [determine_intervals].
  destruct (_determine_interval (w, e)) as [p [w' e']]. cbn.
  by destruct (determine_intervals envs w').
Qed.

Lemma burst_reset_check_unfold w e :
  burst_reset_check (w, e)
  = if reset_fires w
    then (set_burst_state 0 0
            (clock e (clock_reads e) + burst_cooldown_length_seconds w)%Q w,
          (read_clock e).2)
    else (w, e).
Proof. unfold burst_reset_check, reset_fires. by destruct (Qle_bool _ _). Qed.

Lemma limiter_steps_determine e (steps : list (@limiter_step JobArgs)) w :
  limiter_steps (Determine e :: steps) w
  = (Returned (_determine_interval (w, e)).1
       :: (limiter_steps steps (_determine_interval (w, e)).2.1).1,
     (limiter_steps steps (_determine_interval (w, e)).2.1).2).
Proof.
  cbn [limiter_steps].
  destruct (_determine_interval (w, e)) as [p [w' e']]. cbn.
  by destruct (limiter_steps steps w').
Qed.

Lemma limiter_steps_reset e (steps : list (@limiter_step JobArgs)) w :
  limiter_steps (ResetCheck e :: steps) w
  = (if reset_fires w
     then ResetFired :: (limiter_steps steps (burst_reset_check (w, e)).1).1
     else (limiter_steps steps (burst_reset_check (w, e)).1).1,
     (limiter_steps steps (burst_reset_check (w, e)).1).2).
Proof.
  cbn [limiter_steps].
  destruct (burst_reset_check (w, e)) as [w' e']. cbn.
  by destruct (limiter_steps steps w').
Qed.

(** Calls on calm clocks with reset tests among them: the burst
    intervals at the head of the events fit between the request counter
    and the depth, and no block of them is longer than the depth. *)
Lemma limiter_steps_bounds (steps : list (@limiter_step JobArgs)) w :
  0 <= _consecutive_burst_requests w ->
  Forall (calm_step (burst_cooldown_length_seconds w)) steps ->
  Z.of_nat (burst_prefix (limiter_steps steps w).1)
    <= Z.max 0 (burst_depth w - _consecutive_burst_requests w)
  /\ Z.of_nat (longest_burst_run (limiter_steps steps w).1)
     <= burst_depth w.
Proof.
  revert w. induction steps as [|[e|e] steps IH]; intros w Hreq Hcalm.
  - cbn. unfold burst_depth. lia.
  - apply Forall_cons in Hcalm as [He Hsteps]. cbn [calm_step] in He.
    rewrite limiter_steps_determine. cbn [fst].
    destruct (determine_interval_call_ok w e)
      as (Hmax & _ & Hcool & _ & _ & Hreq' & _).
    specialize (Hreq' Hreq).
    destruct (IH (_determine_interval (w, e)).2.1) as [IHp IHl];
      [done | by rewrite Hcool |].
    assert (burst_depth (_determine_interval (w, e)).2.1 = burst_depth w)
      as Hdepth by (unfold burst_depth; by rewrite Hmax).
    rewrite Hdepth in IHp, IHl.
    destruct ((_determine_interval (w, e)).1) eqn:Hp;
      cbn [burst_prefix longest_burst_run].
    + destruct (determine_interval_burst w e He Hp) as [Hav Hnext].
      apply requests_available_lt in Hav.
      rewrite Hnext in IHp. unfold burst_depth in *. lia.
    + unfold burst_depth in *. lia.
  - apply Forall_cons in Hcalm as [_ Hsteps].
    rewrite limiter_steps_reset, burst_reset_check_unfold. cbn [fst].
    destruct (reset_fires w); cbn [fst burst_prefix longest_burst_run].
    + destruct (IH (set_burst_state 0 0
                      (clock e (clock_reads e) + burst_cooldown_length_seconds w)%Q
                      w)) as [_ IHl]; [done|done|].
      split; [unfold burst_depth; lia|exact IHl].
    + by apply IH.
Qed.

(** The period counter stays between 0 and its bound. *)
Lemma limiter_steps_periods (steps : list (@limiter_step JobArgs)) w :
  0 <= _consecutive_burst_periods w <= max_consecutive_burst_periods w ->
  0 <= _consecutive_burst_periods (limiter_steps steps w).2
    <= max_consecutive_burst_periods w.
Proof.
  revert w. induction steps as [|[e|e] steps IH]; intros w Hper; [done| |].
  - rewrite limiter_steps_determine. cbn [snd].
    destruct (determine_interval_call_ok w e)
      as (_ & Hmaxp & _ & _ & _ & _ & Hmono & Hperb & _).
    rewrite <-Hmaxp. apply IH. rewrite Hmaxp. split; [lia|]. apply Hperb. lia.
  - rewrite limiter_steps_reset, burst_reset_check_unfold. cbn [snd].
    destruct (reset_fires w); cbn [fst]; [|by apply IH].
    apply (IH (set_burst_state 0 0 _ w)). cbn. lia.
Qed.

(** One iteration of the loop body is, to the limiter, at most one call
    followed by the reset test. *)
Lemma manage_threads_work_steps (o : @SObj JobArgs Response RequestWorker) :
  exists steps,
    iteration_steps o steps
    /\ lim (RequestWorker_manage_threads_work o).2
       = (limiter_steps steps (lim o)).2.
Proof.
  unfold RequestWorker_manage_threads_work, ThreadManager_manage_threads_work,
    iteration_steps.
  unfold mbind at 1 2. unfold PyM_bind, PyM.bind at 1 2. cbn [PyM.get].
  destruct (0 <? _).
  - unfold _summon_thread_from_queue, mbind, PyM_bind, PyM.bind. cbn [PyM.get].
    destruct (job_queue (tm o)) as [|[job_id kwargs] rest].
    { exists []. split; [by left|done]. }
    unfold RequestWorker_summon_thread, ThreadManager_summon_thread, sleep,
      emit, now, on_tm, mbind, mret, PyM_bind, PyM_ret, PyM.bind, PyM.ret,
      PyM.modify.
    cbn [tm lim env].
    pose proof (determine_interval_call_ok (lim o) (env o))
      as (_ & _ & _ & Hclock & _).
    destruct (_determine_interval (lim o, env o)) as [p [w' e']] eqn:Hcall.
    cbn [fst snd] in Hclock. cbn.
    destruct (Qlt_le_dec _ _); cbn.
    all: exists [Determine (env o);
                 ResetCheck (mkEnv (clock e') (S (S (clock_reads e'))) [])].
    all: split; [right; right; eexists; split; [reflexivity|exact Hclock]|].
    all: rewrite limiter_steps_determine, Hcall; cbn [fst snd].
    all: rewrite limiter_steps_reset, burst_reset_check_unfold.
    all: unfold reset_fires; cbn [snd limiter_steps].
    all: by destruct (Qle_bool _ _).
  - unfold sleep, emit, on_tm, mbind, mret, PyM_bind, PyM_ret, PyM.bind,
      PyM.ret, PyM.modify. cbn.
    exists [ResetCheck (env o)].
    split; [right; left; eexists; split; [reflexivity|done]|].
    rewrite limiter_steps_reset, burst_reset_check_unfold.
    unfold reset_fires; cbn [snd limiter_steps].
    by destruct (Qle_bool _ _).
Qed.

(** C6: the limiter along any sequence of [_determine_interval] calls and
    reset tests of [_manage_threads_work], in any order (the loop runs
    the test after every call), from a state with a request counter from
    0 on and a period counter between 0 and its bound, each call on a
    clock whose successive readings are at most
    [burst_cooldown_length_seconds] apart, while any time may pass
    between two steps.  The burst interval is never returned more than
    [ceil(max_consecutive_burst_requests)] times in a row with neither a
    base interval nor a firing reset between; the period counter never
    exceeds [max_consecutive_burst_periods].  For any call at all: a burst
    interval is returned only by an evaluation whose clock reading is
    later than [_burst_available_after_timestamp], and a call that starts
    new burst periods leaves that timestamp at the time the latest of
    them started plus [burst_cooldown_length_seconds].  A reset that fires
    zeroes both counters and sets the timestamp to its clock reading plus
    the cooldown, so that a call which reads a time within that window
    returns the base interval.  And every iteration of
    [RequestWorker._manage_threads_work] is such a sequence: at most one
    call, followed by the test. *)
Theorem burst_depth_and_cooldown (steps : list (@limiter_step JobArgs)) w :
  0 <= _consecutive_burst_requests w ->
  0 <= _consecutive_burst_periods w <= max_consecutive_burst_periods w ->
  Forall (calm_step (burst_cooldown_length_seconds w)) steps ->
  Z.of_nat (longest_burst_run (limiter_steps steps w).1) <= burst_depth w
  /\ 0 <= _consecutive_burst_periods (limiter_steps steps w).2
       <= max_consecutive_burst_periods w
  /\ (forall w0 e,
        ((_determine_interval (w0, e)).1 = Burst ->
         (_burst_available_after_timestamp (_determine_interval (w0, e)).2.1
          < clock e (clock_reads (_determine_interval (w0, e)).2.2 - 1))%Q)
        /\ (_consecutive_burst_periods w0
            < _consecutive_burst_periods (_determine_interval (w0, e)).2.1 ->
            _burst_available_after_timestamp (_determine_interval (w0, e)).2.1
            = (clock e (clock_reads (_determine_interval (w0, e)).2.2 - 2)
               + burst_cooldown_length_seconds w0)%Q))
  /\ (forall w0 e,
        reset_fires w0 = true ->
        _consecutive_burst_requests (burst_reset_check (w0, e)).1 = 0
        /\ _consecutive_burst_periods (burst_reset_check (w0, e)).1 = 0
        /\ _burst_available_after_timestamp (burst_reset_check (w0, e)).1
           = (clock e (clock_reads e) + burst_cooldown_length_seconds w0)%Q
        /\ forall e',
             calm (burst_cooldown_length_seconds w0) e' ->
             (clock e' (clock_reads e')
              <= clock e (clock_reads e) + burst_cooldown_length_seconds w0)%Q ->
             (_determine_interval ((burst_reset_check (w0, e)).1, e')).1 = Base)
  /\ (forall o : @SObj JobArgs Response RequestWorker,
        exists steps',
          iteration_steps o steps'
          /\ lim (RequestWorker_manage_threads_work o).2
             = (limiter_steps steps' (lim o)).2).
Proof.
  intros Hreq Hper Hcalm. split; [|split; [|split; [|split]]].
  - by apply limiter_steps_bounds.
  - by apply limiter_steps_periods.
  - intros w0 e.
    destruct (determine_interval_call_ok w0 e)
      as (_ & _ & _ & _ & _ & _ & _ & _ & Hburst & _ & Hstart).
    auto.
  - intros w0 e Hfire. by apply burst_reset_check_restarts.
  - apply manage_threads_work_steps.
Qed.

End LimiterProperties.

Lemma burst_depth_and_cooldown_witness :
  0 <= _consecutive_burst_requests api_limiter
  /\ 0 <= _consecutive_burst_periods api_limiter
       <= max_consecutive_burst_periods api_limiter
  /\ Forall (calm_step (burst_cooldown_length_seconds api_limiter))
            [Determine still_env; ResetCheck still_env;
             Determine still_env; ResetCheck still_env]
  /\ Z.of_nat (longest_burst_run
                 (limiter_steps
                    [Determine still_env; ResetCheck still_env;
                     Determine still_env; ResetCheck still_env]
                    api_limiter).1)
     <= burst_depth api_limiter.
Proof.
  assert (0 <= _consecutive_burst_requests api_limiter) as Hreq
    by (vm_compute; discriminate).
  assert (0 <= _consecutive_burst_periods api_limiter
          <= max_consecutive_burst_periods api_limiter) as Hper
    by (split; vm_compute; discriminate).
  assert (Forall (calm_step (burst_cooldown_length_seconds api_limiter))
                 [Determine still_env; ResetCheck still_env;
                  Determine still_env; ResetCheck still_env]) as Hcalm
    by (repeat constructor; intros k; vm_compute; discriminate).
  split; [exact Hreq|]. split; [exact Hper|]. split; [exact Hcalm|].
  exact (proj1 (burst_depth_and_cooldown (Response := string) _ api_limiter
                  Hreq Hper Hcalm)).
Defined.

Lemma ticking_env_calm (cooldown : Q) k :
  (1 <= cooldown)%Q -> calm cooldown (ticking_env k).
Proof.
  intros Hc j. cbn [ticking_env clock].
  rewrite Nat2Z.inj_succ. unfold Z.succ. rewrite inject_Z_plus.
  change (inject_Z 1) with 1%Q. generalize (inject_Z (Z.of_nat j)). intros q. lra.
Qed.

(** C6, as stated, fails twice, on clocks as calm as the property above
    asks.  The limiter of [MediaCacheWorker] has a bound of
    [60 / 1000 * 120 = 7.2] burst requests: eight calls one second apart,
    the reset test after each of them, all return the burst interval, and
    the test never fires.  And a limiter with
    [min_burst_length_seconds = 0], a bound of one burst request and a
    cooldown of one second: its test fires in every iteration and clears
    the request counter, and calls ten seconds apart return the burst
    interval six times in a row. *)
Lemma burst_bound_exceeded :
  (RequestWorker_init 500 1000 120 60 30 4 0.1 = Ok media_limiter
   /\ Forall (calm_step (burst_cooldown_length_seconds media_limiter))
             media_calls
   /\ (limiter_steps media_calls media_limiter).1
      = replicate 8 (Returned Burst)
   /\ (max_consecutive_burst_requests media_limiter < inject_Z 8)%Q)
  /\ (RequestWorker_init 60 120 2 0 1 1 0.1 = Ok eager_reset_limiter
      /\ Forall (calm_step (burst_cooldown_length_seconds eager_reset_limiter))
                eager_calls
      /\ (max_consecutive_burst_requests eager_reset_limiter == 1)%Q
      /\ burst_depth eager_reset_limiter = 1
      /\ (limiter_steps eager_calls eager_reset_limiter).1
         = [Returned Burst; ResetFired; Returned Burst; ResetFired;
            Returned Burst; ResetFired; Returned Burst; ResetFired;
            Returned Burst; ResetFired; Returned Burst; ResetFired]).
Proof.
  split.
  - split; [vm_compute; reflexivity|]. split; [|split; vm_compute; reflexivity].
    unfold media_calls. cbn [flat_map seq app].
    repeat (apply Forall_cons; split; [|try exact I]);
      try apply Forall_nil; try exact I;
      apply ticking_env_calm; vm_compute; discriminate.
  - split; [vm_compute; reflexivity|]. split; [|repeat split; vm_compute; reflexivity].
    unfold eager_calls. cbn [flat_map seq app].
    repeat (apply Forall_cons; split; [|try exact I]);
      try apply Forall_nil; try exact I;
      apply ticking_env_calm; vm_compute; discriminate.
Qed.

(** * Further properties *)

(** ** The disk cache: construction, persistence, iteration *)

Section DiskCacheLifecycle.

Context {Item Sub : Type}.

(** The [_get_next_data] of the object's class: one that reads and
    writes the subclass fields and the world only. *)
Variable source : PyM.M (Sub * @World Item) (list Item).

Lemma World_eta (w : @World Item) : mkWorld (disk w) (http_log w) = w.
Proof. by destruct w. Qed.

Lemma DiskCache_init_result (path : string) (lazy : Z)
    (clear_cache_on_init : bool) (fields : Sub) (w : @World Item) :
  write_error path = None
  \/ (clear_cache_on_init = false /\ is_Some (disk w !! path)) ->
  constructed path clear_cache_on_init fields w
    (DiskCache_init path lazy clear_cache_on_init fields w).
Proof.
  intros Hwrite.
  unfold constructed, DiskCache_init, _load_disk_cache, _load_disk_cache_read,
    _clear_cache, _check_disk_cache, on_base,
    mbind, mret, PyM_bind, PyM_ret, PyM.bind, PyM.ret, PyM.get, PyM.modify.
  destruct clear_cache_on_init.
  - destruct Hwrite as [Hwrite|[? _]]; [|done].
    rewrite update_disk_cache_unfold. cbn. rewrite Hwrite. cbn.
    rewrite lookup_insert_eq. rewrite bool_decide_eq_true_2 by eauto. cbn.
    rewrite lookup_insert_eq. cbn. eexists _, _. split; [reflexivity|]. cbn.
    repeat split.
  - cbn. destruct (disk w !! path) as [rows|] eqn:Hfile.
    + rewrite bool_decide_eq_true_2 by eauto. cbn. rewrite Hfile. cbn.
      eexists _, _. split; [reflexivity|]. cbn. repeat split.
      by rewrite insert_id.
    + destruct Hwrite as [Hwrite|[_ [? ?]]]; [|done].
      rewrite bool_decide_eq_false_2 by (intros [? ?]; congruence). cbn.
      rewrite update_disk_cache_unfold. cbn. rewrite Hwrite. cbn.
      rewrite lookup_insert_eq. cbn.
      eexists _, _. split; [reflexivity|]. cbn. repeat split.
Qed.



(** An extension that returns [True] appended the batch, turned the flag
    on and wrote the table to the cache file. *)
Lemma append_from_source_true (o o' : Obj Sub) :
  _append_from_source source o = (Ok true, o') ->
  cache_file_path (base o') = cache_file_path (base o)
  /\ lazy_lookahead (base o') = lazy_lookahead (base o)
  /\ _iter_next_index (base o') = _iter_next_index (base o)
  /\ cache_source_available (base o') = true
  /\ disk (world o') !! cache_file_path (base o') = Some (_df (base o')).
Proof.
  unfold _append_from_source, call_get_next_data, on_base,
    mbind, mret, PyM_bind, PyM_ret, PyM.bind, PyM.ret, PyM.get, PyM.modify.
  destruct (source (sub o, world o)) as [[new_data|e|] [s' w']];
    [|discriminate..].
  destruct new_data as [|row rows]; cbn [length Nat.eqb]; [discriminate|].
  rewrite update_disk_cache_unfold. cbn.
  destruct (write_error (cache_file_path (base o))); [done|].
  intros [= <-]. cbn. repeat split. apply lookup_insert_eq.
Qed.

(** X2: what an extension persisted is what a later object on the same
    path starts from: after [_append_from_source] returned [True], a cache
    constructed on that path without [clear_cache_on_init] holds the same
    rows and leaves the world as it is. *)
Theorem persisted_rows_are_reloaded (o o' : Obj Sub) (lazy : Z) (fields : Sub) :
  _append_from_source source o = (Ok true, o') ->
  exists c,
    DiskCache_init (cache_file_path (base o)) lazy false fields (world o')
    = (Ok (c, fields), world o')
    /\ _df c = _df (base o').
Proof.
  intros (Hpath & _ & _ & _ & Hfile)%append_from_source_true.
  rewrite Hpath in Hfile.
  destruct (DiskCache_init_result (cache_file_path (base o)) lazy false fields
              (world o'))
    as (c & w' & Hinit & Hdf & _ & _ & _ & Hdisk & Hlog);
    [right; split; [done|by rewrite Hfile]|].
  rewrite Hfile in Hdf. cbn in Hdf.
  exists c. split; [|done]. rewrite Hinit. do 2 f_equal.
  rewrite Hdf, insert_id in Hdisk by done.
  rewrite <-(World_eta w'), <-(World_eta (world o')). by rewrite Hdisk, Hlog.
Qed.

(** With the source marked exhausted the four access methods behave as
    on a plain list. *)
Lemma next_exhausted (o : Obj Sub) :
  cache_source_available (base o) = false ->
  __next__ source o
  = if Z.of_nat (length (_df (base o))) <=? _iter_next_index (base o)
    then (Ok StopIteration, o)
    else match iloc (_df (base o)) (_iter_next_index (base o)) with
         | Some row =>
             (Ok (Yield row),
              mkObj (set_iter_next_index (_iter_next_index (base o) + 1) (base o))
                    (sub o) (world o))
         | None => (Raise IndexError, o)
         end.
Proof.
  intros Hoff.
  unfold __next__, on_base, mbind, mret, PyM_bind, PyM_ret, PyM.bind, PyM.ret,
    PyM.get, PyM.modify, PyM.raise.
  rewrite Hoff. cbn.
  destruct (Z.of_nat (length (_df (base o))) <=? _iter_next_index (base o));
    [done|].
  by destruct (iloc (_df (base o)) (_iter_next_index (base o))).
Qed.

Lemma complete_cache_exhausted (fuel : nat) (o : Obj Sub) :
  cache_source_available (base o) = false ->
  complete_cache source fuel o = (Ok tt, o).
Proof. intros Hoff. destruct fuel; cbn; by rewrite Hoff. Qed.

(** X3: once the source is marked exhausted, no access reaches it again:
    [__getitem__], [__next__], [complete_cache] and [__len__] leave the
    subclass fields and the world (disk and network) as they are;
    [__getitem__] answers from the table or raises [IndexError], and
    [__len__] is the number of rows. *)
Theorem exhausted_cache_is_not_extended (o : Obj Sub) (index : Z) (fuel : nat) :
  cache_source_available (base o) = false ->
  __getitem__ source index o
  = (match iloc (_df (base o)) index with
     | Some row => Ok row
     | None => Raise IndexError
     end, o)
  /\ sub (__next__ source o).2 = sub o
  /\ world (__next__ source o).2 = world o
  /\ complete_cache source fuel o = (Ok tt, o)
  /\ __len__ source fuel o = (Ok (length (_df (base o))), o).
Proof.
  intros Hoff. split; [|split; [|split; [|split]]].
  - rewrite getitem_unfold, Hoff. by destruct (iloc (_df (base o)) index).
  - rewrite next_exhausted by done. by repeat case_match.
  - rewrite next_exhausted by done. by repeat case_match.
  - by apply complete_cache_exhausted.
  - unfold __len__, mbind, PyM_bind, PyM.bind.
    by rewrite complete_cache_exhausted.
Qed.

(** X4: for a cache whose [_get_next_data] leaves the base-class fields
    alone ([DiskCache], [ImageBoardIterator] and the page-number
    iterators; not [ImageBoardIDBasedIterator], whose override re-sorts
    the table): when [__getitem__] returns, it returns the row that the
    table it leaves behind holds at that index, and the table it found is
    a prefix of the one it leaves; inside the table it returns the row and
    changes nothing. *)
Theorem getitem_returns_indexed_row (index : Z) (o o' : Obj Sub) (row : Item) :
  __getitem__ source index o = (Ok row, o') ->
  iloc (_df (base o')) index = Some row
  /\ _df (base o) `prefix_of` _df (base o')
  /\ (is_Some (iloc (_df (base o)) index) -> o' = o).
Proof.
  revert o' row. funelim (__getitem__ source index o); try clear Heqcall;
    intros o'' row' Hres.
  - injection Hres as <- <-. repeat split; [done|]. auto.
  - discriminate.
  - match goal with
    | IH : forall _ _, _ = _ -> _ |- _ =>
        destruct (IH _ _ Hres) as (Hrow & Hpre & _)
    end.
    split; [done|]. split.
    + etrans; [|exact Hpre].
      destruct (_append_from_source_Ok _ _ _ _ Happ)
        as [(_ & _ & ->)|(_ & _ & r & rs & ->)]; [done|].
      by apply prefix_app_r.
    + rewrite Hout. by intros [? ?].
  - discriminate.
  - discriminate.
Qed.

Lemma for_rows_exhausted (fuel k : nat) (o : Obj Sub) :
  cache_source_available (base o) = false ->
  _iter_next_index (base o) = Z.of_nat k ->
  (k <= length (_df (base o)))%nat ->
  (length (_df (base o)) - k < fuel)%nat ->
  for_rows source fuel o
  = (Ok (drop k (_df (base o))),
     mkObj (set_iter_next_index (Z.of_nat (length (_df (base o)))) (base o))
           (sub o) (world o)).
Proof.
  revert k o. induction fuel as [|fuel IH]; intros k o Hoff Hidx Hk Hfuel; [lia|].
  cbn [for_rows]. unfold mbind, PyM_bind, PyM.bind.
  rewrite next_exhausted by done. rewrite Hidx.
  destruct (Z.leb_spec (Z.of_nat (length (_df (base o)))) (Z.of_nat k)) as [Hle|Hlt].
  - assert (k = length (_df (base o))) as -> by lia.
    cbn. rewrite drop_all. do 2 f_equal.
    destruct o as [[? ? ? ? ?] ? ?]; cbn in *. by subst.
  - assert (is_Some (_df (base o) !! k)) as [row Hrow]
      by (apply lookup_lt_is_Some; lia).
    unfold iloc. destruct (Z.leb_spec 0 (Z.of_nat k)) as [_|?]; [|lia].
    rewrite Nat2Z.id, Hrow.
    rewrite (IH (S k)); cbn; [|done|lia|lia|lia].
    by rewrite (drop_S _ _ _ Hrow).
Qed.

(** X5: iterating over a cache whose source is exhausted yields exactly the
    cached rows, in table order, and then [StopIteration]; the source is
    not asked. *)
Theorem iterating_exhausted_cache_yields_rows (fuel : nat) (o : Obj Sub) :
  cache_source_available (base o) = false ->
  (length (_df (base o)) < fuel)%nat ->
  (__iter__;; for_rows source fuel) o
  = (Ok (_df (base o)),
     mkObj (set_iter_next_index (Z.of_nat (length (_df (base o)))) (base o))
           (sub o) (world o)).
Proof.
  intros Hoff Hfuel.
  unfold __iter__, on_base, mbind, PyM_bind, PyM.bind, PyM.modify.
  rewrite (for_rows_exhausted fuel 0); cbn; [done|done|done|lia|lia].
Qed.

Lemma complete_cache_Ok (fuel : nat) (o o' : Obj Sub) :
  complete_cache source fuel o = (Ok tt, o') ->
  cache_source_available (base o') = false
  /\ _df (base o) `prefix_of` _df (base o').
Proof.
  revert o. induction fuel as [|fuel IH]; intros o; cbn;
    destruct (cache_source_available (base o)) eqn:Hav.
  - discriminate.
  - intros [= <-]. by split.
  - unfold mbind, PyM_bind, PyM.bind.
    destruct (_append_from_source source o) as [[b|e|] o1] eqn:Happ;
      [|discriminate..].
    intros [Hoff Hpre]%IH. split; [done|]. etrans; [|exact Hpre].
    destruct (_append_from_source_Ok _ _ _ _ Happ)
      as [(_ & _ & ->)|(_ & _ & r & rs & ->)]; [done|by apply prefix_app_r].
  - intros [= <-]. by split.
Qed.

Lemma complete_cache_more_fuel (fuel k : nat) (o o' : Obj Sub) :
  complete_cache source fuel o = (Ok tt, o') ->
  complete_cache source (fuel + k) o = (Ok tt, o').
Proof.
  revert o. induction fuel as [|fuel IH]; intros o; cbn;
    destruct (cache_source_available (base o)) eqn:Hav.
  - discriminate.
  - intros [= <-]. by rewrite complete_cache_exhausted.
  - unfold mbind, PyM_bind, PyM.bind.
    destruct (_append_from_source source o) as [[b|e|] o1]; [|discriminate..].
    apply IH.
  - done.
Qed.

(** X6: for a cache whose [_get_next_data] leaves the base-class fields
    alone ([DiskCache], [ImageBoardIterator] and the page-number
    iterators; not [ImageBoardIDBasedIterator], whose override re-sorts
    the table): when [complete_cache] returns, the source is marked
    exhausted and the table it found is a prefix of the table it leaves;
    running it again, or asking for the length, changes nothing; and
    [fuel] is a bound only: more of it gives the same result. *)
Theorem complete_cache_drains_once (fuel : nat) (o o' : Obj Sub) :
  complete_cache source fuel o = (Ok tt, o') ->
  cache_source_available (base o') = false
  /\ _df (base o) `prefix_of` _df (base o')
  /\ (forall fuel',
        complete_cache source fuel' o' = (Ok tt, o')
        /\ __len__ source fuel' o' = (Ok (length (_df (base o'))), o'))
  /\ (forall k, complete_cache source (fuel + k) o = (Ok tt, o')).
Proof.
  intros Hrun. destruct (complete_cache_Ok _ _ _ Hrun) as [Hoff Hpre].
  split; [done|]. split; [done|]. split.
  - intros fuel'. split; [by apply complete_cache_exhausted|].
    unfold __len__, mbind, PyM_bind, PyM.bind.
    by rewrite complete_cache_exhausted.
  - intros k. by apply complete_cache_more_fuel.
Qed.

End DiskCacheLifecycle.

Lemma persisted_rows_are_reloaded_witness :
  _append_from_source (_get_next_data example_board) example_iterator_cache
  = (Ok true,
     (_append_from_source (_get_next_data example_board)
        example_iterator_cache).2)
  /\ exists c,
      DiskCache_init "search_cache/tags/0123.pkl" 0 false (example_iterator [])
        (world (_append_from_source (_get_next_data example_board)
                  example_iterator_cache).2)
      = (Ok (c, example_iterator []),
         world (_append_from_source (_get_next_data example_board)
                  example_iterator_cache).2)
      /\ _df c = [1; 2; 3; 4; 5; 6; 7; 8; 9; 10]%nat.
Proof.
  assert (_append_from_source (_get_next_data example_board)
            example_iterator_cache
          = (Ok true,
             (_append_from_source (_get_next_data example_board)
                example_iterator_cache).2)) as Happ by reflexivity.
  split; [exact Happ|].
  destruct (persisted_rows_are_reloaded (_get_next_data example_board)
              example_iterator_cache _ 0 (example_iterator []) Happ)
    as (c & Hinit & Hdf).
  exists c. split; [exact Hinit|]. rewrite Hdf. reflexivity.
Defined.

Lemma exhausted_cache_is_not_extended_witness :
  cache_source_available (base exhausted_cache) = false
  /\ __getitem__ DiskCache_get_next_data 7 exhausted_cache
     = (Raise IndexError, exhausted_cache)
  /\ __len__ DiskCache_get_next_data 0 exhausted_cache
     = (Ok 3%nat, exhausted_cache).
Proof.
  split; [reflexivity|]. split.
  - exact (proj1 (exhausted_cache_is_not_extended DiskCache_get_next_data
                    exhausted_cache 7 0 eq_refl)).
  - exact (proj2 (proj2 (proj2 (proj2
             (exhausted_cache_is_not_extended DiskCache_get_next_data
                exhausted_cache 7 0 eq_refl))))).
Defined.

Lemma getitem_returns_indexed_row_witness :
  __getitem__ (_get_next_data example_board) 2 example_iterator_cache
  = (Ok 3%nat,
     (__getitem__ (_get_next_data example_board) 2 example_iterator_cache).2)
  /\ iloc (_df (base (__getitem__ (_get_next_data example_board) 2
                        example_iterator_cache).2)) 2
     = Some 3%nat.
Proof.
  assert (__getitem__ (_get_next_data example_board) 2 example_iterator_cache
          = (Ok 3%nat,
             (__getitem__ (_get_next_data example_board) 2
                example_iterator_cache).2)) as Hget by reflexivity.
  split; [exact Hget|].
  exact (proj1 (getitem_returns_indexed_row (_get_next_data example_board) 2
                  example_iterator_cache _ 3%nat Hget)).
Defined.

Lemma iterating_exhausted_cache_yields_rows_witness :
  cache_source_available (base exhausted_cache) = false
  /\ (length (_df (base exhausted_cache)) < 4)%nat
  /\ ((__iter__;; for_rows DiskCache_get_next_data 4) exhausted_cache).1
     = Ok [4; 5; 6]%nat.
Proof.
  assert (length (_df (base exhausted_cache)) < 4)%nat as Hfuel
    by (vm_compute; lia).
  split; [reflexivity|]. split; [exact Hfuel|].
  exact (f_equal fst (iterating_exhausted_cache_yields_rows
                        DiskCache_get_next_data 4 exhausted_cache eq_refl Hfuel)).
Defined.

Lemma complete_cache_drains_once_witness :
  complete_cache DiskCache_get_next_data 1 example_cache
  = (Ok tt, (complete_cache DiskCache_get_next_data 1 example_cache).2)
  /\ cache_source_available
       (base (complete_cache DiskCache_get_next_data 1 example_cache).2)
     = false
  /\ complete_cache DiskCache_get_next_data (1 + 5) example_cache
     = (Ok tt, (complete_cache DiskCache_get_next_data 1 example_cache).2).
Proof.
  assert (complete_cache DiskCache_get_next_data 1 example_cache
          = (Ok tt, (complete_cache DiskCache_get_next_data 1 example_cache).2))
    as Hrun by reflexivity.
  split; [exact Hrun|]. split.
  - exact (proj1 (complete_cache_drains_once DiskCache_get_next_data 1
                    example_cache _ Hrun)).
  - exact (proj2 (proj2 (proj2 (complete_cache_drains_once
             DiskCache_get_next_data 1 example_cache _ Hrun))) 5%nat).
Defined.

(** ** The page-number iterator: filters, requests, page sequence *)

Section PageIteratorMore.

Context {Item : Type}.
Variable upstream : list Request -> Request -> list Item.

Implicit Types (fs : list (@Filter Item)) (items : list Item).

Lemma filter_page_items_elem fs items (x : Item) :
  x ∈ _filter_page_items fs items
  <-> x ∈ items /\ Forall (fun f => filter_call f x = true) fs.
Proof.
  unfold _filter_page_items.
  rewrite !list_elem_of_In, filter_In, forallb_forall, Forall_forall.
  split; intros [Hin Hall]; (split; [done|]); intros f Hf;
    apply Hall; by apply list_elem_of_In.
Qed.

(** X7: the filter chain is a conjunction.  An item is kept exactly when
    every filter accepts it; the kept items come in the order of the
    page; filtering with two chains one after the other is filtering with
    their concatenation, in either order. *)
Theorem filter_chain_is_conjunction fs1 fs2 items :
  (forall x, x ∈ _filter_page_items fs1 items
             <-> x ∈ items /\ Forall (fun f => filter_call f x = true) fs1)
  /\ _filter_page_items fs1 items `sublist_of` items
  /\ _filter_page_items (fs1 ++ fs2) items
     = _filter_page_items fs2 (_filter_page_items fs1 items)
  /\ _filter_page_items (fs1 ++ fs2) items = _filter_page_items (fs2 ++ fs1) items.
Proof.
  split; [intros x; apply filter_page_items_elem|]. split; [|split].
  - unfold _filter_page_items. induction items as [|x items IH]; cbn; [done|].
    destruct (forallb _ fs1); [by apply sublist_skip | by apply sublist_cons].
  - unfold _filter_page_items. induction items as [|x items IH]; cbn; [done|].
    rewrite forallb_app.
    destruct (forallb (fun f => filter_call f x) fs1); cbn; [|done].
    destruct (forallb (fun f => filter_call f x) fs2); cbn; by rewrite IH.
  - unfold _filter_page_items. induction items as [|x items IH]; cbn; [done|].
    rewrite !forallb_app, andb_comm, IH. done.
Qed.

Lemma dict_get_set_ne (k k' : string) (v : value) (d : pydict) :
  k' <> k -> dict_get k' (dict_set k v d) = dict_get k' d.
Proof.
  intros Hne. induction d as [|[k0 v0] d IH]; cbn.
  - destruct (String.eqb_spec k k'); [congruence|done].
  - destruct (String.eqb_spec k0 k) as [->|Hk0]; cbn.
    + destruct (String.eqb_spec k k'); [congruence|done].
    + by rewrite IH.
Qed.

(** X8: every extension of a page-number iterator submits exactly one
    request, whatever the board answers and whether the extension returns
    or raises: a GET to the iterator's endpoint that carries the
    iterator's own parameters, with [page] set to the current page number
    (any [page] among the parameters is overridden).  The iterator's
    parameters, endpoint and filters, and the files on disk, are left as
    they are. *)
Theorem extension_submits_one_request (it : ImageBoardIterator) (w : World) :
  requests_since w (_get_next_data upstream (it, w)).2.2
  = [page_request it (current_page it)]
  /\ req_endpoint (page_request it (current_page it)) = endpoint it
  /\ req_method (page_request it (current_page it)) = "GET"
  /\ requested_page (page_request it (current_page it))
     = Some (VInt (current_page it))
  /\ (forall k, k <> "page" ->
        dict_get k (req_data (page_request it (current_page it)))
        = dict_get k (request_data it))
  /\ request_data (_get_next_data upstream (it, w)).2.1 = request_data it
  /\ endpoint (_get_next_data upstream (it, w)).2.1 = endpoint it
  /\ filters (_get_next_data upstream (it, w)).2.1 = filters it
  /\ disk (_get_next_data upstream (it, w)).2.2 = disk w.
Proof.
  pose proof (get_next_data_unfold upstream it w) as Hstep. cbn zeta in Hstep.
  assert ((_get_next_data upstream (it, w)).2.2
          = log_request (page_request it (current_page it)) w
          /\ exists p, (_get_next_data upstream (it, w)).2.1 = set_next_page p it)
    as [Hw [p Hit]].
  { rewrite Hstep.
    destruct (fetched_page upstream it w);
      [|destruct (_filter_page_items _ _)]; cbn; eauto. }
  rewrite Hw, Hit. repeat split.
  - unfold requests_since, log_request. cbn. by rewrite drop_app_length.
  - apply requested_page_page_request.
  - intros k Hk. cbn. by apply dict_get_set_ne.
Qed.

(** X9: on a board every page of which keeps at least one item after
    filtering, [n] extensions in a row request the pages [p], [p + 2],
    [p + 4], ... from the current page [p] on: every other page is never
    requested. *)
Theorem extensions_request_every_other_page (it : ImageBoardIterator)
    (w : World) (n : nat) :
  (forall log rq, _filter_page_items (filters it) (upstream log rq) <> []) ->
  requests_since w (extensions upstream n (it, w)).2
  = (fun i : nat => page_request it (current_page it + 2 * Z.of_nat i)) <$> seq 0 n
  /\ current_page (extensions upstream n (it, w)).1
     = current_page it + 2 * Z.of_nat n.
Proof.
  intros Hboard. revert it w Hboard.
  induction n as [|n IH]; intros it w Hboard.
  - cbn. unfold requests_since. rewrite drop_all. split; [done|lia].
  - cbn [extensions].
    pose proof (get_next_data_unfold upstream it w) as Hstep. cbn zeta in Hstep.
    assert (_get_next_data upstream (it, w)
            = (Ok (_filter_page_items (filters it) (fetched_page upstream it w)),
               (set_next_page (Some (current_page it + 2)) it,
                log_request (page_request it (current_page it)) w)))
      as ->.
    { rewrite Hstep. specialize (Hboard (http_log w)
                                   (page_request it (current_page it))).
      fold (fetched_page upstream it w) in Hboard.
      destruct (fetched_page upstream it w); [done|].
      by destruct (_filter_page_items _ _). }
    cbn [snd].
    destruct (IH (set_next_page (Some (current_page it + 2)) it)
                 (log_request (page_request it (current_page it)) w) Hboard)
      as [Hreq Hpage].
    destruct (extensions_requests upstream n
                (set_next_page (Some (current_page it + 2)) it,
                 log_request (page_request it (current_page it)) w))
      as (new & Hlog & _).
    unfold requests_since in *. rewrite Hlog in Hreq |- *. cbn in Hreq |- *.
    rewrite drop_app_length in Hreq.
    rewrite <-app_assoc, drop_app_length. cbn. split.
    + f_equal; [f_equal; lia|].
      rewrite Hreq, <-fmap_S_seq, <-list_fmap_compose.
      apply list_fmap_ext. intros _ i _. cbn.
      unfold page_request, current_page. cbn. do 3 f_equal. lia.
    + rewrite Hpage. unfold current_page. cbn. lia.
Qed.

(** X10: when the board's next page is empty, indexing a page-number
    iterator beyond its table raises [IndexError] after exactly one
    request; the source is marked exhausted, the page number stays, the
    table is untouched, and later accesses beyond the table raise
    [IndexError] without any request. *)
Theorem empty_page_ends_indexing (o : Obj ImageBoardIterator) (index : Z) :
  cache_source_available (base o) = true ->
  iloc (_df (base o)) index = None ->
  fetched_page upstream (sub o) (world o) = [] ->
  exists o',
    __getitem__ (_get_next_data upstream) index o = (Raise IndexError, o')
    /\ cache_source_available (base o') = false
    /\ _df (base o') = _df (base o)
    /\ current_page (sub o') = current_page (sub o)
    /\ requests_since (world o) (world o')
       = [page_request (sub o) (current_page (sub o))]
    /\ forall index',
         iloc (_df (base o)) index' = None ->
         __getitem__ (_get_next_data upstream) index' o' = (Raise IndexError, o').
Proof.
  intros Hav Hout Hempty.
  pose proof (get_next_data_unfold upstream (sub o) (world o)) as Hstep.
  cbn zeta in Hstep. rewrite Hempty in Hstep.
  pose proof (append_from_source_empty (_get_next_data upstream) o _ _ Hstep)
    as Happ.
  eexists. split.
  { rewrite getitem_unfold, Hout, Hav, Happ.
    by rewrite getitem_unfold; cbn; rewrite Hout. }
  cbn. repeat split.
  - unfold requests_since. cbn. by rewrite drop_app_length.
  - intros index' Hout'. rewrite getitem_unfold. cbn. by rewrite Hout'.
Qed.

End PageIteratorMore.

Lemma extensions_request_every_other_page_witness :
  (forall log rq, _filter_page_items (filters (example_iterator []))
                    (full_board log rq) <> [])
  /\ requested_page
       <$> requests_since empty_world
             (extensions full_board 3 (example_iterator [], empty_world)).2
     = [Some (VInt 3); Some (VInt 5); Some (VInt 7)].
Proof.
  assert (forall log rq, _filter_page_items (filters (example_iterator []))
                           (full_board log rq) <> []) as Hboard
    by (intros log rq; vm_compute; discriminate).
  split; [exact Hboard|].
  rewrite (proj1 (extensions_request_every_other_page full_board
                    (example_iterator []) empty_world 3 Hboard)).
  reflexivity.
Defined.

Lemma empty_page_ends_indexing_witness :
  cache_source_available (base empty_page_cache) = true
  /\ iloc (_df (base empty_page_cache)) 0 = None
  /\ fetched_page example_board (sub empty_page_cache) (world empty_page_cache) = []
  /\ exists o',
      __getitem__ (_get_next_data example_board) 0 empty_page_cache
      = (Raise IndexError, o')
      /\ cache_source_available (base o') = false.
Proof.
  split; [reflexivity|]. split; [reflexivity|]. split; [reflexivity|].
  destruct (empty_page_ends_indexing example_board empty_page_cache 0
              eq_refl eq_refl eq_refl) as (o' & Hget & Hoff & _).
  exists o'. split; [exact Hget | exact Hoff].
Defined.

(** ** Posts queries: tag order and the tag budget *)

Section PostsMore.

Context {Item : Type}.
Variable md5_hexdigest : string -> string.
Variable repr_str : string -> string.

Lemma remove_dups_Permutation (l1 l2 : list string) :
  l1 ≡ₚ l2 -> remove_dups l1 ≡ₚ remove_dups l2.
Proof.
  intros Hperm. apply NoDup_Permutation; [apply NoDup_remove_dups..|].
  intros x. by rewrite !elem_of_remove_dups, Hperm.
Qed.

Lemma existsb_Permutation (f : string -> bool) (l1 l2 : list string) :
  l1 ≡ₚ l2 -> existsb f l1 = existsb f l2.
Proof.
  induction 1 as [|x l1 l2 _ IH|x y l|l1 l2 l3 _ IH1 _ IH2]; cbn.
  - done.
  - by rewrite IH.
  - by destruct (f x), (f y).
  - congruence.
Qed.

Lemma posts_init_plain (api : Api) (tags : list string)
    (filters : option (list Filter)) (limit : option Z)
    (clear_cache_on_init : bool) (w : @World Item) :
  existsb has_banned_metatag tags = false ->
  ImageBoardPostsIterator_init md5_hexdigest repr_str api (Some tags) filters
    limit clear_cache_on_init w
  = if Z.of_nat (length tags) <? 40 then
      (ImageBoardIDBasedIterator_init md5_hexdigest repr_str api
         (str_join "/" [base_url api; constants.POSTS] +:+ constants.URL_SUFFIX)
         filters "posts" clear_cache_on_init 0 true (Some ["id"])
         (omap (fun '(key, v) => (fun v => (key, v)) <$> v)
               [("tags", Some (VStr (str_join " "
                                       (py_sorted (tags ++ ["order:id"])))));
                ("limit", VInt <$> limit)])) w
    else (Raise AssertionError, w).
Proof.
  intros Hplain.
  unfold ImageBoardPostsIterator_init, mbind, PyM_bind, PyM.bind.
  cbn [default]. rewrite collect_tags_to_remove_plain by done.
  cbv beta iota zeta. unfold id. rewrite filter_not_in_nil.
  unfold PyM.assert. by destruct (Z.of_nat (length tags) <? 40).
Qed.

(** X11: the order in which the caller lists the tags does not matter:
    [list_posts], and the constructor called directly, give the same
    result (the same iterator with the same parameters, fingerprint and
    cache file, or the same exception) and leave the same world for any
    reordering of the tags. *)
Theorem posts_query_ignores_tag_order (api : Api) (tags1 tags2 : list string)
    (filters : option (list Filter)) (limit : option Z)
    (include_base_tags flag : bool) (w : @World Item) :
  tags1 ≡ₚ tags2 ->
  list_posts md5_hexdigest repr_str api tags1 filters include_base_tags flag w
  = list_posts md5_hexdigest repr_str api tags2 filters include_base_tags flag w
  /\ ImageBoardPostsIterator_init md5_hexdigest repr_str api (Some tags1)
       filters limit flag w
     = ImageBoardPostsIterator_init md5_hexdigest repr_str api (Some tags2)
         filters limit flag w.
Proof.
  assert (forall (t1 t2 : list string) fs lim,
             t1 ≡ₚ t2 ->
             ImageBoardPostsIterator_init md5_hexdigest repr_str api (Some t1)
               fs lim flag w
             = ImageBoardPostsIterator_init md5_hexdigest repr_str api (Some t2)
                 fs lim flag w) as Hinit.
  { intros t1 t2 fs lim Hperm.
    destruct (existsb has_banned_metatag t1) eqn:Hres.
    - unfold ImageBoardPostsIterator_init, mbind, PyM_bind, PyM.bind.
      cbn [default].
      rewrite !collect_tags_to_remove_reserved;
        [done | by rewrite <-(existsb_Permutation _ _ _ Hperm) | done].
    - rewrite !posts_init_plain;
        [|by rewrite <-(existsb_Permutation _ _ _ Hperm) | done].
      rewrite (Permutation_length Hperm).
      by rewrite (py_sorted_order_insensitive (t1 ++ ["order:id"])
                    (t2 ++ ["order:id"])) by (by rewrite Hperm). }
  intros Hperm. split; [|by apply Hinit].
  unfold list_posts, mbind, PyM_bind, PyM.bind, PyM.assert.
  rewrite (Permutation_length Hperm).
  destruct (_ <=? constants.MAX_TAGS_PER_REQUEST); [|reflexivity].
  unfold PyM.ret. cbv beta iota.
  apply Hinit, remove_dups_Permutation. by rewrite Hperm.
Qed.

Lemma char_in_app (c : ascii) (s1 s2 : string) :
  char_in c (s1 +:+ s2) = char_in c s1 || char_in c s2.
Proof.
  induction s1 as [|a s1 IH]; [done|].
  change (String a s1 +:+ s2) with (String a (s1 +:+ s2)). cbn [char_in].
  rewrite IH. by destruct (Ascii.eqb a c).
Qed.

Lemma ends_with_app_cons (c a : ascii) (s1 s2 : string) :
  ends_with c (s1 +:+ String a s2) = ends_with c (String a s2).
Proof.
  induction s1 as [|b s1 IH]; [done|].
  change (String b s1 +:+ String a s2) with (String b (s1 +:+ String a s2)).
  rewrite <-IH. cbn [ends_with].
  by destruct s1.
Qed.

(** The path [_get_cache_file_path] builds has a directory part and does
    not end in ['/']. *)
Lemma get_cache_file_path_writable (api : Api) (type request_hash : string) :
  write_error (_get_cache_file_path api type request_hash) = None.
Proof.
  unfold write_error, _get_cache_file_path, str_join. cbn [String.concat].
  rewrite !char_in_app. cbn [char_in]. rewrite Ascii.eqb_refl.
  rewrite orb_true_r. cbn [orb negb].
  change (cache_directory_relative_path api +:+ "/" +:+ type +:+ "/"
          +:+ request_hash +:+ ".pkl")
    with (cache_directory_relative_path api
          +:+ String "/" (type +:+ String "/" (request_hash +:+ String "." "pkl"))).
  rewrite ends_with_app_cons.
  change (String "/" (type +:+ ?s)) with (String "/" type +:+ s).
  rewrite ends_with_app_cons.
  change (String "/" (request_hash +:+ ?s)) with (String "/" request_hash +:+ s).
  by rewrite ends_with_app_cons.
Qed.

Lemma existsb_remove_dups (f : string -> bool) (l : list string) :
  existsb f (remove_dups l) = existsb f l.
Proof.
  apply eq_true_iff_eq. rewrite !existsb_exists.
  split; intros (x & Hin & Hx); exists x; (split; [|done]);
    apply list_elem_of_In; apply list_elem_of_In in Hin;
    by apply elem_of_remove_dups.
Qed.

(** X12: the budget [list_posts] enforces is 39 distinct tags, not the 40
    of [MAX_TAGS_PER_REQUEST]: with tags none of which carries a reserved
    metatag, a query whose distinct tags (base tags included when asked
    for) number 40 or more raises [AssertionError], in [list_posts] itself
    or, when its own check lets 40 through, in the constructor; the world
    is as before. *)
Theorem posts_budget_is_39_tags (api : Api) (tags : list string)
    (filters : option (list Filter)) (include_base_tags flag : bool)
    (w : @World Item) :
  existsb has_banned_metatag
    ((if include_base_tags then base_search_tags api else []) ++ tags) = false ->
  (39 < length (remove_dups
                  ((if include_base_tags then base_search_tags api else [])
                   ++ tags)))%nat ->
  list_posts md5_hexdigest repr_str api tags filters include_base_tags flag w
  = (Raise AssertionError, w).
Proof.
  intros Hplain Hmany.
  unfold list_posts, mbind, PyM_bind, PyM.bind, PyM.assert.
  destruct (_ <=? constants.MAX_TAGS_PER_REQUEST); [|reflexivity].
  unfold PyM.ret. cbv beta iota.
  rewrite posts_init_plain by (by rewrite existsb_remove_dups).
  destruct (Z.ltb_spec (Z.of_nat (length (remove_dups
              ((if include_base_tags then base_search_tags api else [])
               ++ tags)))) 40); [lia|done].
Qed.

(** X13: a posts query within the budget (tags without reserved metatag,
    at most 39 distinct ones) is built without any request.  The iterator
    asks the posts endpoint for the distinct tags plus [order:id], sorted
    and joined by spaces, with the default page size as [limit]; it
    reverses the board's answers and starts at id 0; its table is what the
    cache file of its fingerprint held, or empty when the file was missing
    or [overwrite_disk_cache] is set, and the file holds that table. *)
Theorem posts_query_within_budget (api : Api) (tags : list string)
    (fs : option (list Filter)) (include_base_tags flag : bool)
    (w : @World Item) :
  existsb has_banned_metatag
    ((if include_base_tags then base_search_tags api else []) ++ tags) = false ->
  Z.of_nat (length tags) + Z.of_nat (length (base_search_tags api)) <= 40 ->
  (length (remove_dups
             ((if include_base_tags then base_search_tags api else [])
              ++ tags)) <= 39)%nat ->
  exists c it w',
    list_posts md5_hexdigest repr_str api tags fs include_base_tags flag w
    = (Ok (c, it), w')
    /\ http_log w' = http_log w
    /\ request_data (iterator it)
       = [("tags",
           VStr (str_join " "
                   (py_sorted
                      (remove_dups
                         ((if include_base_tags then base_search_tags api else [])
                          ++ tags)
                       ++ ["order:id"]))));
          ("limit", VInt (default_request_page_size api))]
    /\ endpoint (iterator it)
       = str_join "/" [base_url api; "posts"] +:+ ".json"
    /\ type (iterator it) = "posts"
    /\ filters (iterator it) = default [] fs
    /\ _next_page (iterator it) = Some 0
    /\ reverse_responses it = true
    /\ starting_id it = 0
    /\ cache_file_path c
       = _get_cache_file_path api "posts" (request_hash (iterator it))
    /\ request_hash (iterator it)
       = _hash md5_hexdigest repr_str api (endpoint (iterator it))
           (request_data (iterator it)) (default [] fs)
    /\ _df c = (if flag then [] else default [] (disk w !! cache_file_path c))
    /\ disk w' = <[cache_file_path c := _df c]> (disk w).
Proof.
  intros Hplain Htotal Hfew.
  unfold list_posts, mbind, PyM_bind, PyM.bind, PyM.assert.
  destruct (Z.leb_spec (Z.of_nat (length tags)
                        + Z.of_nat (length (base_search_tags api)))
              constants.MAX_TAGS_PER_REQUEST) as [_|Hgt];
    [|unfold constants.MAX_TAGS_PER_REQUEST in Hgt; lia].
  unfold PyM.ret. cbv beta iota.
  rewrite posts_init_plain by (by rewrite existsb_remove_dups).
  destruct (Z.ltb_spec (Z.of_nat (length (remove_dups
              ((if include_base_tags then base_search_tags api else [])
               ++ tags)))) 40) as [_|?]; [|lia].
  unfold ImageBoardIDBasedIterator_init, ImageBoardIterator_init,
    mbind, mret, PyM_bind, PyM_ret, PyM.bind, PyM.ret.
  match goal with
  | |- context [DiskCache_init ?path ?lazy ?clear ?fields w] =>
      destruct (DiskCache_init_result path lazy clear fields w
                  (or_introl (get_cache_file_path_writable _ _ _)))
        as (c & w' & -> & Hdf & Hpath & _ & _ & Hdisk & Hlog)
  end.
  eexists _, _, _. split; [reflexivity|]. cbn [iterator reverse_responses
    starting_id request_data endpoint type _next_page request_hash default].
  rewrite Hpath in *.
  repeat split; try done.
Qed.

End PostsMore.

Lemma posts_query_ignores_tag_order_witness :
  ["cat"; "dog"] ≡ₚ ["dog"; "cat"]
  /\ list_posts id id example_api ["cat"; "dog"] None true false empty_world
     = list_posts id id example_api ["dog"; "cat"] None true false empty_world.
Proof.
  split; [apply perm_swap|].
  exact (proj1 (posts_query_ignores_tag_order id id example_api
                  ["cat"; "dog"] ["dog"; "cat"] None None true false
                  empty_world (perm_swap _ _ _))).
Defined.

Lemma posts_budget_is_39_tags_witness :
  existsb has_banned_metatag (base_search_tags example_api ++ take 40 forty_one_tags)
  = false
  /\ (39 < length (remove_dups
                     (base_search_tags example_api ++ take 40 forty_one_tags)))%nat
  /\ Z.of_nat (length (take 40 forty_one_tags)) <= constants.MAX_TAGS_PER_REQUEST
  /\ list_posts id id example_api (take 40 forty_one_tags) None true false
       empty_world
     = (Raise AssertionError, empty_world).
Proof.
  assert (existsb has_banned_metatag
            (base_search_tags example_api ++ take 40 forty_one_tags) = false)
    as Hplain by (vm_compute; reflexivity).
  assert (39 < length (remove_dups
                         (base_search_tags example_api ++ take 40 forty_one_tags)))%nat
    as Hmany by (vm_compute; lia).
  split; [exact Hplain|]. split; [exact Hmany|].
  split; [vm_compute; discriminate|].
  exact (posts_budget_is_39_tags id id example_api (take 40 forty_one_tags)
           None true false empty_world Hplain Hmany).
Defined.

Lemma posts_query_within_budget_witness :
  existsb has_banned_metatag (base_search_tags example_api ++ ["dog"; "cat"; "dog"])
  = false
  /\ Z.of_nat (length ["dog"; "cat"; "dog"])
     + Z.of_nat (length (base_search_tags example_api)) <= 40
  /\ (length (remove_dups (base_search_tags example_api ++ ["dog"; "cat"; "dog"]))
      <= 39)%nat
  /\ exists c it w',
      list_posts id id example_api ["dog"; "cat"; "dog"] None true false
        empty_world
      = (Ok (c, it), w')
      /\ request_data (iterator it)
         = [("tags", VStr "cat dog order:id"); ("limit", VInt 320)]
      /\ http_log w' = [].
Proof.
  assert (existsb has_banned_metatag
            (base_search_tags example_api ++ ["dog"; "cat"; "dog"]) = false)
    as Hplain by (vm_compute; reflexivity).
  assert (Z.of_nat (length ["dog"; "cat"; "dog"])
          + Z.of_nat (length (base_search_tags example_api)) <= 40)
    as Htotal by (vm_compute; discriminate).
  assert (length (remove_dups (base_search_tags example_api ++ ["dog"; "cat"; "dog"]))
          <= 39)%nat
    as Hfew by (vm_compute; lia).
  split; [exact Hplain|]. split; [exact Htotal|]. split; [exact Hfew|].
  destruct (posts_query_within_budget id id example_api ["dog"; "cat"; "dog"]
              None true false empty_world Hplain Htotal Hfew)
    as (c & it & w' & Hrun & Hlog & Hdata & _).
  exists c, it, w'. split; [exact Hrun|]. split; [|exact Hlog].
  rewrite Hdata. vm_compute. reflexivity.
Defined.

(** ** The scheduler: one pass of the cleanup *)

Lemma cleanup_from_step (i : nat) (l : list Thread) :
  cleanup_from i l
  = match l !! i with
    | None => l
    | Some thread =>
        if thread_is_alive thread then cleanup_from (S i) l
        else cleanup_from (S i) (list_remove_first thread l)
    end.
Proof.
  funelim (cleanup_from i l); try clear Heqcall;
    match goal with H : _ !! _ = _ |- _ => rewrite H end; reflexivity.
Qed.

Lemma list_remove_first_middle (pre rest : list Thread) (thread : Thread) :
  thread ∉ pre ->
  list_remove_first thread (pre ++ thread :: rest) = pre ++ rest.
Proof.
  induction pre as [|x pre IH]; cbn; intros Hnot.
  - by rewrite decide_True.
  - apply not_elem_of_cons in Hnot as [Hne Hnot].
    rewrite decide_False by done. by rewrite IH.
Qed.

Lemma cleanup_from_prefix (n : nat) (pre rest : list Thread) :
  (length rest <= n)%nat ->
  NoDup (pre ++ rest) ->
  cleanup_from (length pre) (pre ++ rest) = pre ++ cleanup_pass rest.
Proof.
  revert pre rest. induction n as [|n IH]; intros pre rest Hlen Hnodup.
  - destruct rest; [|cbn in Hlen; lia].
    rewrite cleanup_from_step, lookup_ge_None_2; [done|].
    rewrite length_app. cbn. lia.
  - destruct rest as [|thread rest].
    { rewrite cleanup_from_step, lookup_ge_None_2; [done|].
      rewrite length_app. cbn. lia. }
    rewrite cleanup_from_step, list_lookup_middle by done.
    cbn [cleanup_pass]. cbn in Hlen.
    destruct (thread_is_alive thread).
    + replace (pre ++ thread :: rest) with ((pre ++ [thread]) ++ rest) in *
        by (by rewrite <-app_assoc).
      replace (S (length pre)) with (length (pre ++ [thread]))
        by (rewrite length_app; cbn; lia).
      rewrite IH by (done || lia). by rewrite <-app_assoc.
    + rewrite list_remove_first_middle.
      2:{ apply NoDup_app in Hnodup as (_ & Hdisj & _).
          intros Hin. apply (Hdisj _ Hin), list_elem_of_here. }
      assert (NoDup (pre ++ rest)) as Hnodup'.
      { apply NoDup_app in Hnodup as (Hpre & Hdisj & Hrest).
        apply NoDup_cons in Hrest as [_ Hrest].
        apply NoDup_app. repeat split; [done| |done].
        intros x Hx Hx'. apply (Hdisj _ Hx). by apply list_elem_of_further. }
      destruct rest as [|next rest].
      { rewrite cleanup_from_step, lookup_ge_None_2; [done|].
        rewrite length_app. cbn. lia. }
      rewrite cleanup_from_step.
      replace (pre ++ next :: rest) with ((pre ++ [next]) ++ rest) in *
        by (by rewrite <-app_assoc).
      replace (S (length pre)) with (length (pre ++ [next]))
        by (rewrite length_app; cbn; lia).
      rewrite <-cleanup_from_step.
      cbn in Hlen. rewrite IH by (done || lia). by rewrite <-app_assoc.
Qed.

Lemma cleanup_pass_all_finished (n : nat) (l : list Thread) :
  (length l <= n)%nat ->
  Forall (fun thread => thread_is_alive thread = false) l ->
  length (cleanup_pass l) = (length l / 2)%nat.
Proof.
  revert l. induction n as [|n IH]; intros l Hlen Hdead.
  - by destruct l; [|cbn in Hlen; lia].
  - destruct l as [|thread [|next l]]; [done| |].
    + apply Forall_cons in Hdead as [Hthread _].
      cbn [cleanup_pass]. by rewrite Hthread.
    + apply Forall_cons in Hdead as [Hthread Hdead].
      apply Forall_cons in Hdead as [_ Hdead].
      cbn [cleanup_pass]. rewrite Hthread. cbn [length] in *.
      rewrite IH by (done || lia).
      replace (S (S (length l))) with (length l + 1 * 2)%nat by lia.
      rewrite Nat.div_add by done. lia.
Qed.

(** X14: one pass of [_cleanup_threads] over a list without duplicates
    removes a finished worker and then steps over the worker behind it,
    finished or not: the pass leaves exactly [cleanup_pass] of the list,
    and of [n] finished workers it leaves [n // 2]. *)
Theorem cleanup_steps_over_next_worker (l : list Thread) :
  NoDup l ->
  _cleanup_threads l = cleanup_pass l
  /\ (Forall (fun thread => thread_is_alive thread = false) l ->
      length (_cleanup_threads l) = (length l / 2)%nat).
Proof.
  intros Hnodup.
  assert (_cleanup_threads l = cleanup_pass l) as Heq
    by exact (cleanup_from_prefix (length l) [] l (le_n _) Hnodup).
  split; [exact Heq|].
  intros Hdead. rewrite Heq. by apply (cleanup_pass_all_finished (length l)).
Qed.

Lemma cleanup_steps_over_next_worker_witness :
  NoDup [mkThread 1 false; mkThread 2 false; mkThread 3 true; mkThread 4 false]
  /\ _cleanup_threads
       [mkThread 1 false; mkThread 2 false; mkThread 3 true; mkThread 4 false]
     = [mkThread 2 false; mkThread 3 true].
Proof.
  assert (NoDup [mkThread 1 false; mkThread 2 false; mkThread 3 true;
                 mkThread 4 false]) as Hnodup
    by (apply (bool_decide_unpack _); vm_compute; exact I).
  split; [exact Hnodup|].
  rewrite (proj1 (cleanup_steps_over_next_worker _ Hnodup)). reflexivity.
Defined.

(** ** The scheduler: waiting for a result *)

Section ResultMore.

Context {JobArgs Response Sub : Type}.

Implicit Types (o : @SObj JobArgs Response Sub).

Ltac unfold_wait :=
  cbn [get_result_loop async_get_result_loop];
  unfold sleep, emit, others_run, manage_threads, now, on_tm,
    mbind, mret, PyM_bind, PyM_ret, PyM.bind, PyM.ret, PyM.get, PyM.modify,
    PyM.raise, PyM.blocks.

Lemma stored_lookup_last (job_id : JobId) (response : Response)
    (before after : list (JobId * Response)) (tray : gmap JobId Response) :
  job_id ∉ after.*1 ->
  foldl (fun tray jr => <[jr.1 := jr.2]> tray) tray
        (before ++ (job_id, response) :: after) !! job_id
  = Some response.
Proof.
  intros Hnot. rewrite foldl_app. cbn.
  rewrite stored_lookup_other by done. apply lookup_insert_eq.
Qed.

Lemma dead_rounds_cons (ob : @wait_obs Response) (obs : list wait_obs) :
  dead_rounds (ob :: obs)
  = if manager_alive ob then dead_rounds obs else S (dead_rounds obs).
Proof. unfold dead_rounds. cbn. by destruct (manager_alive ob). Qed.

Lemma get_result_loop_waits (job_id : JobId) (response : Response)
    (timeout timeout_time : Q) (pre : list wait_obs) (ob : wait_obs)
    (post : list wait_obs) (attempts : Z) o :
  result_tray (tm o) !! job_id = None ->
  never_stores job_id pre ->
  stores job_id response ob ->
  is_Some (manager_thread (tm o)) ->
  Qle_bool 0 timeout = false ->
  attempts + Z.of_nat (dead_rounds (pre ++ [ob])) <= 5 ->
  exists o',
    get_result_loop job_id timeout timeout_time (pre ++ ob :: post) attempts o
    = (Ok response, o')
    /\ result_tray (tm o') !! job_id = None
    /\ effects (env o') = effects (env o) ++ wait_effects (pre ++ [ob])
    /\ clock_reads (env o') = clock_reads (env o)
    /\ lim o' = lim o.
Proof.
  intros Hnone Hpre (before & after & Hstored & Hafter) Hmgr Htimeout.
  revert attempts o Hnone Hmgr.
  induction pre as [|ob0 pre IH]; intros attempts o Hnone [m Hm] Hatt.
  - cbn [app] in *. rewrite dead_rounds_cons in Hatt.
    unfold_wait. rewrite Hnone, Htimeout. cbn. rewrite Hm. cbn.
    destruct (manager_alive ob) eqn:Halive; cbn; unfold emit, PyM.modify; cbn.
    + destruct (Z.ltb_spec 5 attempts); [lia|]. cbn.
      rewrite get_result_loop_present with (response := response)
        by (cbn; rewrite Hstored; by apply stored_lookup_last).
      eexists. split; [reflexivity|]. cbn.
      split; [apply lookup_delete_eq|]. by rewrite ?app_nil_r.
    + destruct (Z.ltb_spec 5 (attempts + 1)); [lia|]. cbn.
      rewrite get_result_loop_present with (response := response)
        by (cbn; rewrite Hstored; by apply stored_lookup_last).
      eexists. split; [reflexivity|]. cbn.
      split; [apply lookup_delete_eq|]. by rewrite <-?app_assoc.
  - apply Forall_cons in Hpre as [Hob0 Hpre]. specialize (IH Hpre).
    cbn [app] in *. rewrite dead_rounds_cons in Hatt.
    unfold_wait. rewrite Hnone, Htimeout. cbn. rewrite Hm. cbn.
    destruct (manager_alive ob0) eqn:Halive; cbn; unfold emit, PyM.modify; cbn.
    + destruct (Z.ltb_spec 5 attempts); [lia|]. cbn.
      edestruct (IH attempts) as (o' & -> & Htray & Heff & Hreads & Hlim);
        [| |exact Hatt|]; cbn; [by rewrite stored_lookup_other|eauto|].
      eexists. split; [reflexivity|]. cbn in Heff, Hreads, Hlim.
      rewrite Heff, <-?app_assoc. done.
    + destruct (Z.ltb_spec 5 (attempts + 1)); [lia|]. cbn.
      edestruct (IH (attempts + 1)) as (o' & -> & Htray & Heff & Hreads & Hlim);
        [| |lia|]; cbn; [by rewrite stored_lookup_other|eauto|].
      eexists. split; [reflexivity|]. cbn in Heff, Hreads, Hlim.
      rewrite Heff, <-?app_assoc. done.
Qed.

(** X15: [get_result] waits for the worker.  Called without a timeout
    for a job whose result is not on the tray yet, it returns the
    response a worker stores during a later round of the wait, as long
    as the controller thread has been found dead at most five times by
    then; it takes the response off the tray, has slept 0.1 s per round
    and restarted the controller in the rounds that found it dead, and
    has read the clock just once, on entry. *)
Theorem get_result_waits_for_worker (job_id : JobId) (response : Response)
    (timeout : Q) (pre : list wait_obs) (ob : wait_obs) (post : list wait_obs)
    o :
  result_tray (tm o) !! job_id = None ->
  never_stores job_id pre ->
  stores job_id response ob ->
  is_Some (manager_thread (tm o)) ->
  (timeout < 0)%Q ->
  (dead_rounds (pre ++ [ob]) <= 5)%nat ->
  exists o',
    get_result job_id timeout (pre ++ ob :: post) o = (Ok response, o')
    /\ result_tray (tm o') !! job_id = None
    /\ effects (env o') = effects (env o) ++ wait_effects (pre ++ [ob])
    /\ clock_reads (env o') = S (clock_reads (env o)).
Proof.
  intros Hnone Hpre Hob Hmgr Htimeout Hdead.
  assert (Qle_bool 0 timeout = false) as Hle.
  { destruct (Qle_bool 0 timeout) eqn:Hle; [|done].
    apply Qle_bool_iff in Hle. lra. }
  unfold get_result, mbind, PyM_bind, PyM.bind, now.
  edestruct (get_result_loop_waits job_id response timeout) with (attempts := 0)
    as (o' & -> & Htray & Heff & Hreads & _);
    [| exact Hpre | exact Hob | | exact Hle | | ]; cbn; [done|done|lia|].
  eexists. split; [reflexivity|]. done.
Qed.

Lemma get_result_loop_exceptions (job_id : JobId) (timeout timeout_time : Q)
    (obs : list wait_obs) (attempts : Z) o (e : exn) :
  (get_result_loop job_id timeout timeout_time obs attempts o).1 = Raise e ->
  (e = AttributeError /\ manager_thread (tm o) = None
   /\ result_tray (tm o) !! job_id = None)
  \/ (e = KeyError /\ 6 <= attempts + Z.of_nat (dead_rounds obs))
  \/ (e = TimeoutError /\ Qle_bool 0 timeout = true).
Proof.
  revert attempts o. induction obs as [|ob rest IH]; intros attempts o.
  - unfold_wait. by destruct (result_tray (tm o) !! job_id).
  - unfold_wait. destruct (result_tray (tm o) !! job_id) eqn:Hnone; [done|].
    cbn. destruct (manager_thread (tm o)) as [m|] eqn:Hm; cbn; rewrite ?Hm.
    2:{ intros [= <-]. by left. }
    unfold dead_rounds. cbn [List.filter].
    destruct (manager_alive ob); cbn; unfold emit, PyM.modify; cbn.
    + destruct (Z.ltb_spec 5 attempts); cbn.
      { intros [= <-]. right. left. split; [done|lia]. }
      destruct (Qle_bool 0 timeout) eqn:Hle; cbn.
      * destruct (Qle_bool _ timeout_time); cbn.
        -- intros [(_ & Hbad & _)|[(-> & ?)|?]]%IH; [done| |by auto].
           right. left. split; [done|]. fold (dead_rounds rest). lia.
        -- intros [= <-]. by auto.
      * intros [(_ & Hbad & _)|[(-> & ?)|?]]%IH; [done| |by auto].
        right. left. split; [done|]. fold (dead_rounds rest). lia.
    + destruct (Z.ltb_spec 5 (attempts + 1)); cbn.
      { intros [= <-]. right. left. split; [done|]. lia. }
      destruct (Qle_bool 0 timeout) eqn:Hle; cbn.
      * destruct (Qle_bool _ timeout_time); cbn.
        -- intros [(_ & Hbad & _)|[(-> & ?)|?]]%IH; [done| |by auto].
           right. left. split; [done|]. fold (dead_rounds rest). lia.
        -- intros [= <-]. by auto.
      * intros [(_ & Hbad & _)|[(-> & ?)|?]]%IH; [done| |by auto].
        right. left. split; [done|]. fold (dead_rounds rest). lia.
Qed.

(** X16: the exceptions of [get_result].  It raises [AttributeError]
    only on a manager whose controller thread was never created
    ([manager_thread] is [None], no job was ever put) and for a job that
    is not on the tray; [KeyError] only after it has found the controller
    dead in at least six rounds; [TimeoutError] only when called with a
    timeout of 0 or more; and nothing else. *)
Theorem get_result_exceptions (job_id : JobId) (timeout : Q)
    (obs : list wait_obs) o (e : exn) :
  (get_result job_id timeout obs o).1 = Raise e ->
  (e = AttributeError /\ manager_thread (tm o) = None
   /\ result_tray (tm o) !! job_id = None)
  \/ (e = KeyError /\ (6 <= dead_rounds obs)%nat)
  \/ (e = TimeoutError /\ (0 <= timeout)%Q).
Proof.
  unfold get_result, mbind, PyM_bind, PyM.bind, now.
  intros [(-> & Hm & Hnone)|[(-> & Hdead)|(-> & Hle)]]%get_result_loop_exceptions.
  - left. done.
  - right. left. split; [done|lia].
  - right. right. split; [done|]. by apply Qle_bool_iff.
Qed.

Lemma async_get_result_loop_no_timeout (job_id : JobId)
    (timeout timeout_time : Q) (obs : list wait_obs) (attempts : Z) o :
  (timeout < 0)%Q ->
  async_get_result_loop job_id timeout timeout_time obs attempts o
  = get_result_loop job_id timeout timeout_time obs attempts o.
Proof.
  intros Hneg.
  assert (Qle_bool 0 timeout = false) as Hle.
  { destruct (Qle_bool 0 timeout) eqn:Hle; [|done].
    apply Qle_bool_iff in Hle. lra. }
  revert attempts o.
  induction obs as [|ob rest IH]; intros attempts o; [done|].
  cbn [get_result_loop async_get_result_loop].
  unfold mbind, PyM_bind, PyM.bind. cbn [PyM.get].
  destruct (result_tray (tm o) !! job_id); [done|].
  destruct (sleep _ o) as [[[]|?|] o1]; [|done..].
  destruct (others_run ob o1) as [[[]|?|] o2]; [|done..].
  rewrite Hle.
  destruct (Qlt_le_dec timeout 0) as [_|?]; [|lra].
  destruct (manager_thread (tm o2)) as [[|]|]; [| |done].
  - cbn. rewrite andb_true_r. destruct (5 <? attempts); [done|apply IH].
  - destruct (manage_threads o2) as [[[]|?|] o3]; [|done..].
    cbn. rewrite andb_true_r. destruct (5 <? attempts + 1); [done|apply IH].
Qed.

Lemma async_get_result_loop_no_KeyError (job_id : JobId)
    (timeout timeout_time : Q) (obs : list wait_obs) (attempts : Z) o :
  (0 <= timeout)%Q ->
  (async_get_result_loop job_id timeout timeout_time obs attempts o).1
  <> Raise KeyError.
Proof.
  intros Hpos. revert attempts o.
  induction obs as [|ob rest IH]; intros attempts o.
  - unfold_wait. by destruct (result_tray (tm o) !! job_id).
  - unfold_wait. destruct (result_tray (tm o) !! job_id); [done|].
    cbn. destruct (manager_thread (tm o)) as [m|] eqn:Hm; cbn; rewrite ?Hm;
      [|done].
    destruct (Qlt_le_dec timeout 0) as [?|_]; [lra|].
    destruct (manager_alive ob); cbn; unfold emit, PyM.modify; cbn.
    all: rewrite ?andb_false_r; cbn.
    all: destruct (Qle_bool 0 timeout); cbn;
      [destruct (Qle_bool _ timeout_time); cbn; [|done]|]; apply IH.
Qed.

(** X17: [async_get_result] differs from [get_result] in one test.
    Without a timeout ([timeout < 0]) the two do the same, round for
    round; with a timeout of 0 or more [async_get_result] never raises
    [KeyError], however often it finds the controller dead: it goes on
    until the result is there or the deadline has passed. *)
Theorem async_get_result_vs_get_result (job_id : JobId) (timeout : Q)
    (obs : list wait_obs) o :
  ((timeout < 0)%Q ->
   async_get_result job_id timeout obs o = get_result job_id timeout obs o)
  /\ ((0 <= timeout)%Q ->
      (async_get_result job_id timeout obs o).1 <> Raise KeyError).
Proof.
  unfold async_get_result, get_result, mbind, PyM_bind, PyM.bind, now.
  split; intros Ht.
  - by apply async_get_result_loop_no_timeout.
  - by apply async_get_result_loop_no_KeyError.
Qed.

End ResultMore.

Lemma get_result_waits_for_worker_witness :
  result_tray (tm example_scheduler) !! 9%positive = None
  /\ never_stores (Response := string) 9%positive [mkWaitObs [] true]
  /\ stores 9%positive "late" (mkWaitObs [(9%positive, "late")] false)
  /\ is_Some (manager_thread (tm example_scheduler))
  /\ (-1 < 0)%Q
  /\ (dead_rounds ([mkWaitObs (Response := string) [] true]
                   ++ [mkWaitObs [(9%positive, "late")] false]) <= 5)%nat
  /\ exists o',
      get_result 9 (-1)
        ([mkWaitObs [] true] ++ mkWaitObs [(9%positive, "late")] false :: [])
        example_scheduler
      = (Ok "late", o')
      /\ effects (env o')
         = [EffSleep 0.1%Q; EffSleep 0.1%Q; EffManagerStart].
Proof.
  assert (never_stores (Response := string) 9%positive [mkWaitObs [] true])
    as Hpre by (repeat constructor; cbn; apply not_elem_of_nil).
  assert (stores 9%positive "late" (mkWaitObs [(9%positive, "late")] false))
    as Hob by (exists [], []; split; [reflexivity | apply not_elem_of_nil]).
  assert (is_Some (manager_thread (tm example_scheduler))) as Hmgr
    by (cbn; eauto).
  assert (dead_rounds ([mkWaitObs (Response := string) [] true]
                       ++ [mkWaitObs [(9%positive, "late")] false]) <= 5)%nat
    as Hdead by (cbn; lia).
  split; [reflexivity|]. split; [exact Hpre|]. split; [exact Hob|].
  split; [exact Hmgr|]. split; [reflexivity|]. split; [exact Hdead|].
  destruct (get_result_waits_for_worker 9 "late" (-1)%Q [mkWaitObs [] true]
              (mkWaitObs [(9%positive, "late")] false) [] example_scheduler
              eq_refl Hpre Hob Hmgr eq_refl Hdead)
    as (o' & Hrun & _ & Heff & _).
  exists o'. split; [exact Hrun | exact Heff].
Defined.

Lemma get_result_exceptions_witness :
  (get_result 5 0 [mkWaitObs [] false] (after_pop 5 example_scheduler)).1
  = Raise TimeoutError
  /\ ((TimeoutError = AttributeError
       /\ manager_thread (tm (after_pop 5 example_scheduler)) = None
       /\ result_tray (tm (after_pop 5 example_scheduler)) !! 5%positive = None)
      \/ (TimeoutError = KeyError
          /\ (6 <= dead_rounds [mkWaitObs (Response := string) [] false])%nat)
      \/ (TimeoutError = TimeoutError /\ (0 <= 0)%Q)).
Proof.
  split; [reflexivity|].
  exact (get_result_exceptions 5 0 [mkWaitObs [] false]
           (after_pop 5 example_scheduler) TimeoutError eq_refl).
Defined.

Lemma async_get_result_vs_get_result_witness :
  (-1 < 0)%Q
  /\ (0 <= 0)%Q
  /\ async_get_result 5 (-1) (replicate 6 (mkWaitObs [] false))
       (after_pop 5 example_scheduler)
     = get_result 5 (-1) (replicate 6 (mkWaitObs [] false))
         (after_pop 5 example_scheduler)
  /\ (async_get_result 5 0 (replicate 6 (mkWaitObs [] false))
        (after_pop 5 example_scheduler)).1
     <> Raise KeyError.
Proof.
  split; [reflexivity|]. split; [discriminate|]. split.
  - exact (proj1 (async_get_result_vs_get_result 5 (-1)%Q
                    (replicate 6 (mkWaitObs [] false))
                    (after_pop 5 example_scheduler)) eq_refl).
  - refine (proj2 (async_get_result_vs_get_result 5 0
                     (replicate 6 (mkWaitObs [] false))
                     (after_pop 5 example_scheduler)) _).
    discriminate.
Defined.

(** ** The rate limiter: the burst budget *)

Section LimiterMore.

Context {JobArgs Response : Type}.

Implicit Types (w : RequestWorker) (e : @Env JobArgs).

Lemma requests_unavailable_ge w :
  new_burst_requests_available w = false ->
  Qceiling (max_consecutive_burst_requests w) <= _consecutive_burst_requests w.
Proof.
  unfold new_burst_requests_available. intros Hav.
  apply negb_false_iff, Qle_bool_iff in Hav.
  apply Qceiling_resp_le in Hav. by rewrite Qceiling_Z in Hav.
Qed.

(** One call, whatever the clock: the configuration stays, the counters
    keep their bounds, and the budget goes down by one exactly when the
    burst interval is returned. *)
Lemma determine_interval_budget w e :
  0 <= _consecutive_burst_requests w ->
  burst_budget (_determine_interval (w, e)).2.1
  + (if (_determine_interval (w, e)).1 is Burst then 1 else 0)
  = burst_budget w
  /\ 0 <= _consecutive_burst_requests (_determine_interval (w, e)).2.1
  /\ max_consecutive_burst_requests (_determine_interval (w, e)).2.1
     = max_consecutive_burst_requests w
  /\ max_consecutive_burst_periods (_determine_interval (w, e)).2.1
     = max_consecutive_burst_periods w
  /\ min_consecutive_burst_requests (_determine_interval (w, e)).2.1
     = min_consecutive_burst_requests w
  /\ _consecutive_burst_periods w
     <= _consecutive_burst_periods (_determine_interval (w, e)).2.1
  /\ (_consecutive_burst_periods w <= max_consecutive_burst_periods w ->
      _consecutive_burst_periods (_determine_interval (w, e)).2.1
      <= max_consecutive_burst_periods w).
Proof.
  funelim (_determine_interval (w, e)); try clear Heqcall; intros Hreq.
  - cbn [read_clock].
    pose proof (andb_prop _ _ Hnew) as [Hra Hpa].
    apply negb_true_iff, requests_unavailable_ge in Hra.
    unfold new_burst_periods_available in Hpa. apply Z.ltb_lt in Hpa.
    match goal with IH : forall _ _, _ -> _ |- _ =>
      specialize (IH (clock e (clock_reads e))
                     (mkEnv (clock e) (S (clock_reads e)) (effects e)))
    end.
    set (r := _determine_interval _) in *. clearbody r.
    destruct r as [p [w' e']]. cbn in H |- *.
    destruct H as (Hbudget & Hreq' & Hmax & Hmaxp & Hmin & Hper & Hperb); [lia|].
    repeat split; try done; try lia.
    rewrite Hbudget. unfold burst_budget, burst_depth. cbn. nia.
  - cbn [read_clock].
    destruct (negb (Qle_bool (clock e (clock_reads e))
                             (_burst_available_after_timestamp w))
              && new_burst_requests_available w) eqn:Hb; cbn.
    + apply andb_prop in Hb as [_ Hav%requests_available_lt].
      repeat split; try done; try lia.
      unfold burst_budget, burst_depth. cbn. lia.
    + repeat split; try done; lia.
Qed.

Lemma burst_budget_nonneg w :
  _consecutive_burst_periods w <= max_consecutive_burst_periods w ->
  0 <= burst_budget w.
Proof. unfold burst_budget, burst_depth. nia. Qed.

(** X18: the burst budget.  Over any sequence of [_determine_interval]
    calls, whatever the clock shows, the number of burst intervals
    returned is exactly the budget used up: a full depth for each burst
    period started and one for each request counted in the current one.
    With the period counter within its bound, no more burst intervals are
    returned than the budget at the start. *)
Theorem burst_intervals_spend_the_budget (envs : list (@Env JobArgs)) w :
  0 <= _consecutive_burst_requests w ->
  Z.of_nat (burst_count (determine_intervals envs w).1)
  + burst_budget (determine_intervals envs w).2
  = burst_budget w
  /\ (_consecutive_burst_periods w <= max_consecutive_burst_periods w ->
      Z.of_nat (burst_count (determine_intervals envs w).1) <= burst_budget w).
Proof.
  intros Hreq.
  assert (Z.of_nat (burst_count (determine_intervals envs w).1)
          + burst_budget (determine_intervals envs w).2
          = burst_budget w
          /\ (_consecutive_burst_periods w <= max_consecutive_burst_periods w ->
              _consecutive_burst_periods (determine_intervals envs w).2
              <= max_consecutive_burst_periods (determine_intervals envs w).2))
    as [Hspent Hper].
  { revert w Hreq. induction envs as [|e envs IH]; intros w Hreq.
    - cbn. split; [lia|done].
    - rewrite determine_intervals_cons. cbn [fst snd].
      destruct (determine_interval_budget w e Hreq)
        as (Hbudget & Hreq' & _ & Hmaxp & _ & _ & Hperb).
      destruct (IH _ Hreq') as [IHspent IHper].
      split.
      + rewrite <-Hbudget, <-IHspent. unfold burst_count. cbn [List.filter].
        destruct ((_determine_interval (w, e)).1); cbn [length]; lia.
      + intros Hle. apply IHper. rewrite Hmaxp. auto. }
  split; [exact Hspent|].
  intros Hle. specialize (Hper Hle).
  pose proof (burst_budget_nonneg (determine_intervals envs w).2). lia.
Qed.

Implicit Types (o : @SObj JobArgs Response RequestWorker).

(** An iteration of the base class's loop body calls
    [_determine_interval] at most once and leaves the limiter alone
    otherwise. *)
Lemma manage_threads_work_limiter o :
  lim (ThreadManager_manage_threads_work RequestWorker_summon_thread o).2 = lim o
  \/ exists e,
      lim (ThreadManager_manage_threads_work RequestWorker_summon_thread o).2
      = (_determine_interval (lim o, e)).2.1.
Proof.
  unfold ThreadManager_manage_threads_work, mbind, PyM_bind, PyM.bind.
  cbn [PyM.get].
  destruct (0 <? _).
  - unfold _summon_thread_from_queue, mbind, PyM_bind, PyM.bind. cbn [PyM.get].
    destruct (job_queue (tm o)) as [|[job_id kwargs] rest]; [by left|].
    right. exists (env o).
    unfold RequestWorker_summon_thread, ThreadManager_summon_thread, sleep,
      emit, now, on_tm, mbind, mret, PyM_bind, PyM_ret, PyM.bind, PyM.ret,
      PyM.modify.
    cbn. destruct (_determine_interval (lim o, env o)) as [p [w' e']]. cbn.
    by destruct (Qlt_le_dec _ _).
  - left. unfold sleep, emit, on_tm, mbind, mret, PyM_bind, PyM_ret, PyM.bind,
      PyM.ret, PyM.modify. done.
Qed.

(** The limiter states from which the reset at the end of
    [RequestWorker._manage_threads_work] cannot fire: the period counter
    is compared with [min_consecutive_burst_requests], and never gets
    beyond [max_consecutive_burst_periods]. *)
Lemma controller_iteration_budget o :
  0 <= _consecutive_burst_requests (lim o) ->
  _consecutive_burst_periods (lim o) <= max_consecutive_burst_periods (lim o) ->
  (inject_Z (max_consecutive_burst_periods (lim o))
   < min_consecutive_burst_requests (lim o))%Q ->
  let o' := (RequestWorker_manage_threads_work o).2 in
  burst_budget (lim o') <= burst_budget (lim o)
  /\ _consecutive_burst_periods (lim o) <= _consecutive_burst_periods (lim o')
  /\ 0 <= _consecutive_burst_requests (lim o')
  /\ _consecutive_burst_periods (lim o') <= max_consecutive_burst_periods (lim o')
  /\ max_consecutive_burst_periods (lim o') = max_consecutive_burst_periods (lim o)
  /\ min_consecutive_burst_requests (lim o') = min_consecutive_burst_requests (lim o).
Proof.
  intros Hreq Hper Hmin.
  assert (let o1 := (ThreadManager_manage_threads_work
                       RequestWorker_summon_thread o).2 in
          burst_budget (lim o1) <= burst_budget (lim o)
          /\ _consecutive_burst_periods (lim o) <= _consecutive_burst_periods (lim o1)
          /\ 0 <= _consecutive_burst_requests (lim o1)
          /\ _consecutive_burst_periods (lim o1)
             <= max_consecutive_burst_periods (lim o1)
          /\ max_consecutive_burst_periods (lim o1)
             = max_consecutive_burst_periods (lim o)
          /\ min_consecutive_burst_requests (lim o1)
             = min_consecutive_burst_requests (lim o)) as Hbase.
  { intros o1. subst o1.
    destruct (manage_threads_work_limiter o) as [->|[e ->]].
    - repeat split; (done || lia).
    - destruct (determine_interval_budget (lim o) e Hreq)
        as (Hbudget & Hreq' & _ & Hmaxp & Hmin' & Hmono & Hperb).
      rewrite Hmaxp. repeat split; try done; [|by auto].
      destruct ((_determine_interval (lim o, e)).1); lia. }
  unfold RequestWorker_manage_threads_work, mbind, PyM_bind, PyM.bind.
  destruct (ThreadManager_manage_threads_work RequestWorker_summon_thread o)
    as [[[]|?|] o1]; cbn [snd] in Hbase |- *; [|exact Hbase..].
  destruct Hbase as (Hbudget & Hmono & Hreq1 & Hper1 & Hmaxp & Hmin1).
  unfold PyM.modify, burst_reset_check. cbn [snd].
  destruct (Qle_bool (min_consecutive_burst_requests (lim o1))
                     (inject_Z (_consecutive_burst_periods (lim o1)))) eqn:Hfire.
  { exfalso. apply Qle_bool_iff in Hfire. rewrite Hmin1 in Hfire.
    assert (inject_Z (_consecutive_burst_periods (lim o1))
            <= inject_Z (max_consecutive_burst_periods (lim o)))%Q
      by (rewrite <-Zle_Qle; lia).
    lra. }
  cbn. done.
Qed.

(** X19: a limiter whose [max_consecutive_burst_periods] is below its
    [min_consecutive_burst_requests] (as the one [BaseImageBoardApi]
    builds: 1 against 15) never gets its burst budget back.  The reset at
    the end of [RequestWorker._manage_threads_work] compares the period
    counter with [min_consecutive_burst_requests] and so never fires:
    over any number of iterations of the controller loop, whatever the
    queue and the clock, the period counter never goes down and the
    budget never goes up. *)
Theorem burst_budget_is_never_restored (n : nat) o :
  0 <= _consecutive_burst_requests (lim o) ->
  _consecutive_burst_periods (lim o) <= max_consecutive_burst_periods (lim o) ->
  (inject_Z (max_consecutive_burst_periods (lim o))
   < min_consecutive_burst_requests (lim o))%Q ->
  0 <= burst_budget (lim (controller_iterations n o)) <= burst_budget (lim o)
  /\ _consecutive_burst_periods (lim o)
     <= _consecutive_burst_periods (lim (controller_iterations n o))
     <= max_consecutive_burst_periods (lim o).
Proof.
  revert o. induction n as [|n IH]; intros o Hreq Hper Hmin.
  - cbn. pose proof (burst_budget_nonneg (lim o) Hper). lia.
  - cbn [controller_iterations].
    destruct (controller_iteration_budget o Hreq Hper Hmin)
      as (Hbudget & Hmono & Hreq' & Hper' & Hmaxp & Hmin').
    destruct (IH (RequestWorker_manage_threads_work o).2) as [IHb IHp];
      [done|done|by rewrite Hmaxp, Hmin'|].
    rewrite Hmaxp in IHp. lia.
Qed.

End LimiterMore.

Lemma burst_intervals_spend_the_budget_witness :
  0 <= _consecutive_burst_requests api_limiter
  /\ burst_budget api_limiter = 60
  /\ Z.of_nat (burst_count
                 (determine_intervals (ticking_env <$> seq 1 3)
                    api_limiter).1)
     + burst_budget
         (determine_intervals (ticking_env <$> seq 1 3)
            api_limiter).2
     = burst_budget api_limiter.
Proof.
  assert (0 <= _consecutive_burst_requests api_limiter) as Hreq
    by (vm_compute; discriminate).
  split; [exact Hreq|]. split; [vm_compute; reflexivity|].
  exact (proj1 (burst_intervals_spend_the_budget
                  (ticking_env <$> seq 1 3) api_limiter Hreq)).
Defined.

Lemma burst_budget_is_never_restored_witness :
  0 <= _consecutive_burst_requests api_limiter
  /\ _consecutive_burst_periods api_limiter
     <= max_consecutive_burst_periods api_limiter
  /\ (inject_Z (max_consecutive_burst_periods api_limiter)
      < min_consecutive_burst_requests api_limiter)%Q
  /\ burst_budget
       (lim (controller_iterations 3
               (mkSObj example_manager api_limiter example_env)))
     <= burst_budget api_limiter.
Proof.
  assert (0 <= _consecutive_burst_requests api_limiter) as Hreq
    by (vm_compute; discriminate).
  assert (_consecutive_burst_periods api_limiter
          <= max_consecutive_burst_periods api_limiter) as Hper
    by (vm_compute; discriminate).
  assert (inject_Z (max_consecutive_burst_periods api_limiter)
          < min_consecutive_burst_requests api_limiter)%Q as Hmin
    by (vm_compute; reflexivity).
  split; [exact Hreq|]. split; [exact Hper|]. split; [exact Hmin|].
  exact (proj2 (proj1 (burst_budget_is_never_restored 3
                         (mkSObj example_manager api_limiter example_env)
                         Hreq Hper Hmin))).
Defined.

(** ** The media cache: what becomes of a download *)

Section MediaCacheProperties.

Context {JobArgs : Type}.
Variable md5_hexdigest : string -> string.

Implicit Types (o : @MObj JobArgs).

Lemma list_remove_first_last (thread : Thread) (l : list Thread) :
  thread ∉ l -> list_remove_first thread (l ++ [thread]) = l.
Proof.
  intros Hnot.
  rewrite (list_remove_first_middle l [] thread Hnot). apply app_nil_r.
Qed.

(** X20: what becomes of a media download.  The worker thread registers
    itself, stores the response on the tray and, in its completion
    callback, takes it off again: whatever the status, the response is
    gone from the tray when the thread ends, and no later [get_response]
    for that job can return it.  With a status of 400 or more no file is
    touched and the thread leaves the active list.  With a status below
    400 the content is written to [generate_path_from_url] of the
    request's URL, so that [query_cache] of that URL answers [True], and
    the thread leaves the active list; unless that path has no directory
    part or ends in ['/'] (an empty [target_path], a URL that ends in
    ['/']): then [makedirs] or [open] raises, no file is written, and the
    thread, which never gets to the base class's callback, stays on the
    active list.  The wait inside the callback never sleeps. *)
Theorem media_download_is_consumed (thread : Thread) (response : HttpResponse)
    (obs : list wait_obs) o :
  thread ∉ _active_threads (tm o) ->
  exists o',
    ManagedThread_run md5_hexdigest thread response obs o
    = (match media_write_error md5_hexdigest (target_path (lim o)) response with
       | Some e => Raise e
       | None => Ok tt
       end, o')
    /\ result_tray (tm o') = delete (thread_job_id thread) (result_tray (tm o))
    /\ _active_threads (tm o')
       = (match media_write_error md5_hexdigest (target_path (lim o)) response with
          | Some _ => _active_threads (tm o) ++ [thread]
          | None => _active_threads (tm o)
          end)
    /\ effects (env o') = effects (env o)
    /\ media_files (lim o')
       = (if (400 <=? status_code response)
             || bool_decide (is_Some (media_write_error md5_hexdigest
                                        (target_path (lim o)) response))
          then media_files (lim o)
          else <[generate_path_from_url md5_hexdigest (target_path (lim o))
                   (request_url response) := content response]>
                 (media_files (lim o)))
    /\ (status_code response < 400 ->
        media_write_error md5_hexdigest (target_path (lim o)) response = None ->
        query_cache md5_hexdigest (request_url response) o' = (Ok true, o'))
    /\ (forall timeout obs',
          never_stores (thread_job_id thread) obs' ->
          is_Ok (get_result (thread_job_id thread) timeout obs' o').1 = false).
Proof.
  intros Hnot.
  unfold ManagedThread_run, MediaCacheWorker_thread_completed_callback,
    _thread_started_callback, RequestThread_run, get_result.
  unfold mbind, mret, PyM_bind, PyM_ret, PyM.bind, PyM.ret, PyM.get.
  rewrite bool_decide_eq_false_2 by done.
  unfold on_tm, PyM.modify, now. cbn [tm lim env].
  erewrite get_result_loop_present
    by (cbn; apply lookup_insert_eq).
  cbn [tm lim env set_result_tray result_tray _active_threads
       set_active_threads].
  rewrite delete_insert_eq.
  assert (forall o' : @MObj JobArgs,
             result_tray (tm o') = delete (thread_job_id thread) (result_tray (tm o)) ->
             forall timeout obs',
               never_stores (thread_job_id thread) obs' ->
               is_Ok (get_result (thread_job_id thread) timeout obs' o').1 = false)
    as Hgone.
  { intros o' Htray timeout obs' Hobs'.
    unfold get_result, mbind, PyM_bind, PyM.bind, now.
    apply get_result_loop_missing; [|done].
    cbn. rewrite Htray. apply lookup_delete_eq. }
  unfold media_write_error.
  destruct (Z.leb_spec 400 (status_code response)) as [Hbad|Hgood].
  - unfold _thread_completed_callback, on_tm, mbind, PyM_bind, PyM.bind,
      PyM.modify. cbn.
    rewrite list_remove_first_last by done.
    eexists. split; [reflexivity|].
    split; [done|]. split; [done|]. split; [done|]. split; [done|].
    split; [lia|]. by apply Hgone.
  - unfold write_file, _thread_completed_callback, on_tm, mbind, PyM_bind,
      PyM.bind, PyM.modify, PyM.raise. cbn.
    destruct (write_error (generate_path_from_url md5_hexdigest
                             (target_path (lim o)) (request_url response)))
      as [e|] eqn:Hwrite.
    + eexists. split; [reflexivity|].
      split; [done|]. split; [done|]. split; [done|].
      split; [done|].
      split; [done|]. by apply Hgone.
    + cbn. rewrite list_remove_first_last by done.
      eexists. split; [reflexivity|].
      split; [done|]. split; [done|]. split; [done|].
      split; [done|].
      split; [|by apply Hgone].
      intros _ _. unfold query_cache, mbind, mret, PyM_bind, PyM_ret, PyM.bind,
        PyM.ret. cbn. rewrite lookup_insert_eq.
      by rewrite bool_decide_eq_true_2 by eauto.
Qed.

End MediaCacheProperties.

Lemma media_download_is_consumed_witness :
  (mkThread 3 true ∉ _active_threads (tm example_media_worker))
  /\ (exists o',
       ManagedThread_run id (mkThread 3 true)
         (mkHttpResponse 200 "https://board/data/ab.png" "PNG") []
         example_media_worker
       = (Ok tt, o')
       /\ result_tray (tm o') !! 3%positive = None
       /\ media_files (lim o')
          !! "search_cache/media/https://board/data/ab.png.png"
          = Some "PNG")
  /\ (exists o',
       ManagedThread_run id (mkThread 3 true)
         (mkHttpResponse 200 "https://board.net/" "HTML") []
         example_media_worker
       = (Raise IsADirectoryError, o')
       /\ _active_threads (tm o') = [mkThread 3 true]
       /\ media_files (lim o') = ∅).
Proof.
  assert (mkThread 3 true ∉ _active_threads (tm example_media_worker)) as Hnot
    by apply not_elem_of_nil.
  split; [exact Hnot|]. split.
  - destruct (media_download_is_consumed id (mkThread 3 true)
                (mkHttpResponse 200 "https://board/data/ab.png" "PNG") []
                example_media_worker Hnot)
      as (o' & Hrun & Htray & _ & _ & Hfiles & _).
    exists o'. split; [exact Hrun|]. split.
    + rewrite Htray. apply lookup_delete_eq.
    + rewrite Hfiles. reflexivity.
  - destruct (media_download_is_consumed id (mkThread 3 true)
                (mkHttpResponse 200 "https://board.net/" "HTML") []
                example_media_worker Hnot)
      as (o' & Hrun & _ & Hactive & _ & Hfiles & _).
    exists o'. split; [exact Hrun|]. split; [exact Hactive | exact Hfiles].
Defined.

(** ** ID-based iterators: what an extension requests and returns *)

Section IDBasedProperties.

Context {Item : Type}.
Variable upstream : list Request -> Request -> list Item.
Variable path_get : list string -> Item -> option Z.
Variable df_sort_values : list Item -> list Item.

Implicit Types (o : @Obj Item (@ImageBoardIDBasedIterator Item)).

Lemma iloc_last (df : list Item) : iloc df (-1) = last df.
Proof.
  unfold iloc. cbn [Z.leb Z.compare].
  destruct df as [|x df _] using rev_ind; [done|].
  rewrite last_snoc, length_app. cbn [length].
  destruct (Z.leb_spec (- Z.of_nat (length df + 1)) (-1)); [|lia].
  replace (Z.to_nat (Z.of_nat (length df + 1) + -1)) with (length df) by lia.
  by rewrite list_lookup_middle.
Qed.

Lemma id_handle_page_items_filter (fs : list Filter) (items : list Item)
    (target_id : option Z) :
  IDBased_handle_ImageBoard_page_items fs items target_id
  = _filter_page_items fs items.
Proof.
  unfold IDBased_handle_ImageBoard_page_items.
  destruct items as [|x items]; [done|]. cbn [length Nat.eqb].
  destruct fs as [|f fs]; cbn [length Nat.eqb negb].
  - by rewrite filter_page_items_no_filters.
  - by destruct (_filter_page_items (f :: fs) (x :: items)).
Qed.

(** The first round of an extension whose source is available: the
    table is sorted and written back when it has rows, one request is
    submitted, and the page it brings is handled. *)
Lemma id_get_next_data_step (fuel : nat) (target_id : option Z) o :
  cache_source_available (base o) = true ->
  sort_write_error o = None ->
  exists o1,
    IDBased_get_next_data upstream path_get df_sort_values (S fuel) target_id o
    = IDBased_handle_ImageBoard_page path_get
        (IDBased_get_next_data upstream path_get df_sort_values fuel)
        (upstream (http_log (world o))
           (id_request (iterator (sub o))
              (first_target path_get df_sort_values target_id o)))
        (first_target path_get df_sort_values target_id o) o1
    /\ http_log (world o1)
       = http_log (world o)
         ++ [id_request (iterator (sub o))
               (first_target path_get df_sort_values target_id o)]
    /\ cache_source_available (base o1) = true
    /\ sort_write_error o1 = None
    /\ _df (base o1) = table_before_request df_sort_values o
    /\ endpoint (iterator (sub o1)) = endpoint (iterator (sub o))
    /\ request_data (iterator (sub o1)) = request_data (iterator (sub o))
    /\ filters (iterator (sub o1)) = filters (iterator (sub o))
    /\ reverse_responses (sub o1) = reverse_responses (sub o)
    /\ id_value_path (sub o1) = id_value_path (sub o)
    /\ starting_id (sub o1) = starting_id (sub o).
Proof.
  intros Hav Hwrite. cbn [IDBased_get_next_data].
  unfold mbind, mret, PyM_bind, PyM_ret, PyM.bind, PyM.ret, PyM.get.
  rewrite Hav. cbn [negb].
  unfold first_target, table_before_request, id_request, sort_write_error in *.
  destruct o as [[path lazy av idx df] [[api ep fs rd ty sp np rh] sid rev_ nid idp] w].
  cbn in Hav, Hwrite. subst av.
  destruct np as [np|]; destruct df as [|row df];
    destruct target_id as [t|];
    cbn -[dict_set last iloc write_error] in Hwrite |- *;
    unfold sort_values_by_id, _find_next_minimum_id, on_id_iterator, on_id_world,
      api_request, on_base, _update_disk_cache,
      mbind, mret, PyM_bind, PyM_ret, PyM.bind, PyM.ret, PyM.get, PyM.modify;
    cbn -[dict_set last iloc write_error];
    rewrite ?Hwrite; cbn -[dict_set last iloc write_error];
    rewrite ?iloc_last;
    try (destruct (df_sort_values (row :: df)) as [|row' df'] eqn:Hsorted;
         cbn -[dict_set last iloc write_error]);
    rewrite ?iloc_last;
    repeat match goal with
           | |- context [last ?l] => destruct (last l)
           end;
    eexists; (split; [reflexivity|]); cbn -[write_error];
    repeat split; done.
Qed.

(** An extension that cannot write the sorted table back raises before
    any request. *)
Lemma id_get_next_data_refused (fuel : nat) (target_id : option Z) o (e : exn) :
  cache_source_available (base o) = true ->
  sort_write_error o = Some e ->
  exists o',
    IDBased_get_next_data upstream path_get df_sort_values (S fuel) target_id o
    = (Raise e, o')
    /\ http_log (world o') = http_log (world o).
Proof.
  intros Hav Hwrite. cbn [IDBased_get_next_data].
  unfold mbind, mret, PyM_bind, PyM_ret, PyM.bind, PyM.ret, PyM.get.
  rewrite Hav. cbn [negb].
  unfold sort_write_error in Hwrite.
  destruct o as [[path lazy av idx df] [[api ep fs rd ty sp np rh] sid rev_ nid idp] w].
  cbn in Hav, Hwrite. subst av.
  destruct df as [|row df]; [done|]. cbn -[write_error] in Hwrite.
  destruct np as [np|];
    cbn -[write_error];
    unfold sort_values_by_id, on_id_iterator, on_base, _update_disk_cache,
      mbind, mret, PyM_bind, PyM_ret, PyM.bind, PyM.ret, PyM.get, PyM.modify;
    cbn -[write_error]; rewrite Hwrite; cbn;
    eexists; split; reflexivity.
Qed.

Lemma id_handle_page_unfold
    (retry : option Z -> PyM.M (@Obj Item (@ImageBoardIDBasedIterator Item)) (list Item))
    (response : list Item) (target_id : option Z) o :
  IDBased_handle_ImageBoard_page path_get retry response target_id o
  = match page_as_read (sub o) response with
    | [] => (Ok [], o)
    | item :: page =>
        match _filter_page_items (filters (iterator (sub o))) (item :: page) with
        | [] =>
            retry (match last (item :: page) with
                   | Some last_item => path_get (id_value_path (sub o)) last_item
                   | None => None
                   end) o
        | kept => (Ok kept, o)
        end
    end.
Proof.
  unfold IDBased_handle_ImageBoard_page, page_as_read, mbind, mret, PyM_bind,
    PyM_ret, PyM.bind, PyM.ret, PyM.get.
  rewrite id_handle_page_items_filter.
  destruct (if reverse_responses (sub o) then rev response else response)
    as [|item page]; [done|].
  cbn [length Nat.eqb].
  by destruct (_filter_page_items (filters (iterator (sub o))) (item :: page)).
Qed.

Lemma page_as_read_nil (it : @ImageBoardIDBasedIterator Item)
    (response : list Item) :
  page_as_read it response = [] -> response = [].
Proof.
  unfold page_as_read. destruct (reverse_responses it); [|done].
  intros H. by rewrite <-(rev_involutive response), H.
Qed.

(** X21: what an ID-based extension returns.  When
    [ImageBoardIDBasedIterator._get_next_data] returns with the source
    available, it has just submitted a request to the iterator's endpoint
    for a page [a<id>], and what it returns is that page, in the order
    read (reversed when [reverse_responses] is set), with the items the
    filters reject taken out.  It returns an empty list only when the
    board answered that last request with an empty page: a page that is
    filtered out entirely is followed by a further request, never
    reported as the end of the data.  With the source exhausted it returns
    the empty list and touches nothing. *)
Theorem id_extension_returns_filtered_page (fuel : nat) (target_id : option Z)
    o (items : list Item) o' :
  IDBased_get_next_data upstream path_get df_sort_values fuel target_id o
  = (Ok items, o') ->
  if cache_source_available (base o) then
    exists log rq target,
      http_log (world o') = log ++ [rq]
      /\ http_log (world o) `prefix_of` log
      /\ rq = id_request (iterator (sub o)) target
      /\ items = _filter_page_items (filters (iterator (sub o)))
                   (page_as_read (sub o) (upstream log rq))
      /\ (items = [] -> upstream log rq = [])
      /\ cache_source_available (base o') = true
  else items = [] /\ o' = o.
Proof.
  revert target_id o. induction fuel as [|fuel IH]; intros target_id o; [done|].
  destruct (cache_source_available (base o)) eqn:Hav.
  2:{ cbn [IDBased_get_next_data].
      unfold mbind, mret, PyM_bind, PyM_ret, PyM.bind, PyM.ret, PyM.get.
      rewrite Hav. cbn. by intros [= <- <-]. }
  destruct (sort_write_error o) as [e|] eqn:Hwrite.
  { destruct (id_get_next_data_refused fuel target_id o e Hav Hwrite)
      as (o1 & -> & _). done. }
  destruct (id_get_next_data_step fuel target_id o Hav Hwrite)
    as (o1 & -> & Hlog & Hav1 & _ & _ & Hep & Hrd & Hfs & Hrev & Hidp & _).
  rewrite id_handle_page_unfold.
  set (target := first_target path_get df_sort_values target_id o) in *.
  set (rq := id_request (iterator (sub o)) target) in *.
  assert (page_as_read (sub o1) = page_as_read (sub o)) as Hread
    by (unfold page_as_read; by rewrite Hrev).
  rewrite Hread, Hfs.
  destruct (page_as_read (sub o) (upstream (http_log (world o)) rq))
    as [|item page] eqn:Hpage.
  { intros [= <- <-]. exists (http_log (world o)), rq, target.
    rewrite Hpage. repeat split; try done.
    intros _. by eapply page_as_read_nil. }
  destruct (_filter_page_items (filters (iterator (sub o))) (item :: page))
    as [|kept0 kept] eqn:Hkept.
  - intros Hretry. specialize (IH _ _ Hretry). rewrite Hav1 in IH.
    destruct IH as (log & rq' & target' & Hlog' & Hpre & Hrq' & Hitems & Hnil & Hav').
    exists log, rq', target'. rewrite Hread, Hfs in Hitems.
    repeat split; try done.
    + etrans; [|exact Hpre]. rewrite Hlog. by apply prefix_app_r.
    + rewrite Hrq'. unfold id_request. by rewrite Hep, Hrd.
  - intros [= <- <-]. exists (http_log (world o)), rq, target.
    rewrite Hpage, Hkept. repeat split; done.
Qed.

Lemma id_get_next_data_log (fuel : nat) (target_id : option Z) o :
  cache_source_available (base o) = true ->
  sort_write_error o = None ->
  exists rest,
    http_log (world (IDBased_get_next_data upstream path_get df_sort_values
                       (S fuel) target_id o).2)
    = http_log (world o)
      ++ id_request (iterator (sub o))
           (first_target path_get df_sort_values target_id o) :: rest
    /\ (length rest <= fuel)%nat.
Proof.
  revert target_id o.
  induction fuel as [|fuel IH]; intros target_id o Hav Hwrite.
  - destruct (id_get_next_data_step 0 target_id o Hav Hwrite)
      as (o1 & -> & Hlog & _).
    rewrite id_handle_page_unfold. exists []. split; [|done].
    destruct (page_as_read _ _); [done|]. by destruct (_filter_page_items _ _).
  - destruct (id_get_next_data_step (S fuel) target_id o Hav Hwrite)
      as (o1 & -> & Hlog & Hav1 & Hwrite1 & _).
    rewrite id_handle_page_unfold.
    destruct (page_as_read _ _) as [|i l]; [exists []; split; [done|cbn; lia]|].
    destruct (_filter_page_items _ _); [|exists []; split; [done|cbn; lia]].
    destruct (IH (match last (i :: l) with
                  | Some last_item => path_get (id_value_path (sub o1)) last_item
                  | None => None
                  end) o1 Hav1 Hwrite1) as (rest & -> & Hlen).
    rewrite Hlog, <-app_assoc. cbn [app]. eexists. split; [reflexivity|].
    cbn. lia.
Qed.

(** X22: where an ID-based extension starts.  With the source available,
    [_get_next_data] first sorts a table that has rows and writes it back
    to the cache file; when that write is refused (a cache path without
    directory part, or one that ends in ['/']) the call raises before any
    request.  Otherwise it first submits, whatever the board then
    answers, a GET to the iterator's endpoint with the iterator's
    parameters and [page] set to [a<id>], where the id is the one given
    or, without one, the id of the last row of the table sorted by id, or
    [starting_id] when the table is empty; a call of recursion depth at
    most [fuel + 1] submits at most [fuel + 1] requests, and no request
    submitted before is dropped. *)
Theorem id_extension_first_request (fuel : nat) (target_id : option Z) o :
  cache_source_available (base o) = true ->
  match sort_write_error o with
  | Some e =>
      exists o',
        IDBased_get_next_data upstream path_get df_sort_values (S fuel)
          target_id o
        = (Raise e, o')
        /\ http_log (world o') = http_log (world o)
  | None =>
      exists rest,
        http_log (world (IDBased_get_next_data upstream path_get df_sort_values
                           (S fuel) target_id o).2)
        = http_log (world o)
          ++ id_request (iterator (sub o))
               (first_target path_get df_sort_values target_id o) :: rest
        /\ (length rest <= fuel)%nat
        /\ requested_page
             (id_request (iterator (sub o))
                (first_target path_get df_sort_values target_id o))
           = Some (VStr ("a" +:+ str_of_id
                                   (first_target path_get df_sort_values
                                      target_id o)))
        /\ (forall k, k <> "page" ->
              dict_get k (req_data (id_request (iterator (sub o))
                                      (first_target path_get df_sort_values
                                         target_id o)))
              = dict_get k (request_data (iterator (sub o))))
  end.
Proof.
  intros Hav. destruct (sort_write_error o) as [e|] eqn:Hwrite.
  - by apply id_get_next_data_refused.
  - destruct (id_get_next_data_log fuel target_id o Hav Hwrite)
      as (rest & Hlog & Hlen).
    exists rest. split; [exact Hlog|]. split; [exact Hlen|]. split.
    + apply dict_get_set.
    + intros k Hk. by apply dict_get_set_ne.
Qed.

End IDBasedProperties.

Lemma id_extension_returns_filtered_page_witness :
  IDBased_get_next_data example_id_board id_of_nat (merge_sort le) 5 None
    example_id_iterator
  = (Ok [4; 5; 6]%nat,
     (IDBased_get_next_data example_id_board id_of_nat (merge_sort le) 5 None
        example_id_iterator).2)
  /\ exists log rq target,
      http_log (world (IDBased_get_next_data example_id_board id_of_nat
                         (merge_sort le) 5 None example_id_iterator).2)
      = log ++ [rq]
      /\ http_log (world example_id_iterator) `prefix_of` log
      /\ rq = id_request (iterator (sub example_id_iterator)) target
      /\ [4; 5; 6]%nat
         = _filter_page_items (filters (iterator (sub example_id_iterator)))
             (page_as_read (sub example_id_iterator) (example_id_board log rq))
      /\ ([4; 5; 6]%nat = [] -> example_id_board log rq = [])
      /\ cache_source_available
           (base (IDBased_get_next_data example_id_board id_of_nat
                    (merge_sort le) 5 None example_id_iterator).2)
         = true.
Proof.
  assert (IDBased_get_next_data example_id_board id_of_nat (merge_sort le) 5 None
            example_id_iterator
          = (Ok [4; 5; 6]%nat,
             (IDBased_get_next_data example_id_board id_of_nat (merge_sort le) 5
                None example_id_iterator).2)) as Hrun
    by (vm_compute; reflexivity).
  split; [exact Hrun|].
  exact (id_extension_returns_filtered_page example_id_board id_of_nat
           (merge_sort le) 5 None example_id_iterator _ _ Hrun).
Defined.

Lemma id_extension_first_request_witness :
  cache_source_available (base example_id_iterator) = true
  /\ exists rest,
      http_log (world (IDBased_get_next_data example_id_board id_of_nat
                         (merge_sort le) 5 None example_id_iterator).2)
      = http_log (world example_id_iterator)
        ++ id_request (iterator (sub example_id_iterator))
             (first_target id_of_nat (merge_sort le) None example_id_iterator)
           :: rest
      /\ (length rest <= 4)%nat
      /\ requested_page
           (id_request (iterator (sub example_id_iterator))
              (first_target id_of_nat (merge_sort le) None example_id_iterator))
         = Some (VStr ("a" +:+ str_of_id
                                 (first_target id_of_nat (merge_sort le) None
                                    example_id_iterator)))
      /\ (forall k, k <> "page" ->
            dict_get k (req_data (id_request (iterator (sub example_id_iterator))
                                    (first_target id_of_nat (merge_sort le) None
                                       example_id_iterator)))
            = dict_get k (request_data (iterator (sub example_id_iterator)))).
Proof.
  split; [reflexivity|].
  exact (id_extension_first_request example_id_board id_of_nat
           (merge_sort le) 4 None example_id_iterator eq_refl).
Defined.

(** ** The disk cache: a completed iteration *)

Section IterationMore.

Context {Item Sub : Type}.

(** The [_get_next_data] of the object's class: one that reads and
    writes the subclass fields and the world only. *)
Variable source : PyM.M (Sub * @World Item) (list Item).

Implicit Types (o : @Obj Item Sub).

Lemma append_keeps_cursor o o' (a : bool) :
  _append_from_source source o = (Ok a, o') ->
  lazy_lookahead (base o') = lazy_lookahead (base o)
  /\ _iter_next_index (base o') = _iter_next_index (base o).
Proof.
  unfold _append_from_source, call_get_next_data, mbind, PyM_bind, PyM.bind.
  destruct (source (sub o, world o)) as [[new_data|e|] [s' w']];
    [|discriminate..].
  destruct new_data as [|row rows]; cbn [length Nat.eqb].
  - by intros [= <- <-].
  - unfold on_base, PyM.get, PyM.modify, mret, PyM_ret, PyM.ret.
    rewrite update_disk_cache_unfold. cbn.
    destruct (write_error (cache_file_path (base o))); [done|].
    by intros [= <- <-].
Qed.

(** What one [__next__] does when it returns, for a cursor inside the
    table or at its end and a lookahead of 0 or more. *)
Lemma next_Ok o o' (r : next_outcome) :
  __next__ source o = (Ok r, o') ->
  0 <= lazy_lookahead (base o) ->
  0 <= _iter_next_index (base o) <= Z.of_nat (length (_df (base o))) ->
  _df (base o) `prefix_of` _df (base o')
  /\ lazy_lookahead (base o') = lazy_lookahead (base o)
  /\ match r with
     | StopIteration =>
         cache_source_available (base o') = false
         /\ Z.of_nat (length (_df (base o'))) = _iter_next_index (base o)
     | Yield row =>
         _df (base o') !! Z.to_nat (_iter_next_index (base o)) = Some row
         /\ _iter_next_index (base o') = _iter_next_index (base o) + 1
         /\ _iter_next_index (base o') <= Z.of_nat (length (_df (base o')))
     end.
Proof.
  intros Hnext Hla Hidx.
  assert (exists o1,
             _df (base o) `prefix_of` _df (base o1)
             /\ lazy_lookahead (base o1) = lazy_lookahead (base o)
             /\ _iter_next_index (base o1) = _iter_next_index (base o)
             /\ (Z.of_nat (length (_df (base o1))) <= _iter_next_index (base o) ->
                 cache_source_available (base o1) = false
                 /\ _df (base o1) = _df (base o))
             /\ (if Z.of_nat (length (_df (base o1))) <=? _iter_next_index (base o1)
                 then (Ok StopIteration, o1)
                 else match iloc (_df (base o1)) (_iter_next_index (base o1)) with
                      | Some row =>
                          (Ok (Yield row),
                           mkObj (set_iter_next_index
                                    (_iter_next_index (base o1) + 1) (base o1))
                                 (sub o1) (world o1))
                      | None => (Raise IndexError, o1)
                      end)
                = (Ok r, o'))
    as (o1 & Hpre & Hla1 & Hidx1 & Hstop & Hrest).
  { revert Hnext.
    unfold __next__, on_base, mbind, mret, PyM_bind, PyM_ret, PyM.bind, PyM.ret,
      PyM.get, PyM.modify, PyM.raise.
    destruct (cache_source_available (base o)
              && (Z.of_nat (length (_df (base o)))
                  <=? _iter_next_index (base o) + lazy_lookahead (base o)))
      eqn:Hcond.
    - destruct (_append_from_source source o) as [[a|e|] o1] eqn:Happ;
        [|discriminate..].
      intros Hnext. exists o1.
      destruct (append_keeps_cursor _ _ _ Happ) as [Hla1 Hidx1].
      destruct (_append_from_source_Ok _ _ _ _ Happ)
        as [(_ & Hoff & Hdf) | (_ & Hon & row & rows & Hdf)].
      + rewrite Hdf. repeat split; try done.
        revert Hnext. rewrite Hdf.
        destruct (_ <=? _iter_next_index _); [exact id|].
        destruct (iloc _ _); exact id.
      + split; [rewrite Hdf; by apply prefix_app_r|].
        repeat split; try done.
        * rewrite Hdf, length_app in H. cbn in H. lia.
        * rewrite Hdf, length_app in H. cbn in H. lia.
        * revert Hnext.
          destruct (_ <=? _iter_next_index _); [exact id|].
        destruct (iloc _ _); exact id.
    - intros Hnext. exists o. repeat split; try done.
      + apply andb_false_iff in Hcond as [Hoff|Hlen]; [done|].
        apply Z.leb_gt in Hlen. lia.
      + revert Hnext.
        destruct (_ <=? _iter_next_index _); [exact id|].
        destruct (iloc _ _); exact id. }
  rewrite Hidx1 in Hrest.
  destruct (Z.leb_spec (Z.of_nat (length (_df (base o1))))
              (_iter_next_index (base o))) as [Hle|Hlt].
  - injection Hrest as <- <-. destruct (Hstop Hle) as [Hoff Hdf].
    split; [done|]. split; [done|]. split; [done|].
    rewrite Hdf in Hle |- *. lia.
  - unfold iloc in Hrest.
    destruct (Z.leb_spec 0 (_iter_next_index (base o))) as [_|?]; [|lia].
    destruct (_df (base o1) !! Z.to_nat (_iter_next_index (base o)))
      as [row|] eqn:Hrow; [|done].
    injection Hrest as <- <-. cbn.
    split; [done|]. split; [done|]. split; [done|]. split; [lia|].
    apply lookup_lt_Some in Hrow. lia.
Qed.

Lemma for_rows_Ok (fuel k : nat) o o' (rows : list Item) :
  for_rows source fuel o = (Ok rows, o') ->
  0 <= lazy_lookahead (base o) ->
  _iter_next_index (base o) = Z.of_nat k ->
  (k <= length (_df (base o)))%nat ->
  rows = drop k (_df (base o'))
  /\ cache_source_available (base o') = false
  /\ _df (base o) `prefix_of` _df (base o').
Proof.
  revert k o rows. induction fuel as [|fuel IH]; intros k o rows; [done|].
  cbn [for_rows]. unfold mbind, mret, PyM_bind, PyM_ret, PyM.bind, PyM.ret.
  destruct (__next__ source o) as [[[row|]|e|] o1] eqn:Hnext; [| |done..].
  - destruct (for_rows source fuel o1) as [[rows'|e|] o2] eqn:Hrows; [|done..].
    intros [= <- <-] Hla Hidx Hk.
    destruct (next_Ok _ _ _ Hnext Hla) as (Hpre & Hla1 & Hrow & Hidx1 & Hlen1);
      [lia|].
    rewrite Hidx, Nat2Z.id in Hrow.
    destruct (IH (S k) _ _ Hrows) as (-> & Hoff & Hpre');
      [lia|lia|lia|].
    split; [|split; [done|by etrans]].
    symmetry. apply drop_S. by eapply prefix_lookup_Some.
  - intros [= <- <-] Hla Hidx Hk.
    destruct (next_Ok _ _ _ Hnext Hla) as (Hpre & _ & Hoff & Hlen); [lia|].
    split; [|done]. rewrite drop_ge; [done|lia].
Qed.

(** X23: a completed iteration, for a cache whose [_get_next_data] leaves
    the base-class fields alone ([DiskCache], [ImageBoardIterator] and the
    page-number iterators; not [ImageBoardIDBasedIterator], whose override
    re-sorts the table between two rows of the loop).  With a lookahead of
    0 or more, a [for] loop over the cache that runs to its end
    ([__iter__], then [__next__] until [StopIteration]) has yielded
    exactly the rows of the table it leaves behind, in table order, the
    rows it found first; and it ends only when the source is
    exhausted. *)
Theorem completed_iteration_yields_the_table (fuel : nat) o o'
    (rows : list Item) :
  (__iter__;; for_rows source fuel) o = (Ok rows, o') ->
  0 <= lazy_lookahead (base o) ->
  rows = _df (base o')
  /\ cache_source_available (base o') = false
  /\ _df (base o) `prefix_of` rows.
Proof.
  unfold __iter__, on_base, mbind, PyM_bind, PyM.bind, PyM.modify.
  intros Hrows Hla.
  destruct (for_rows_Ok fuel 0 _ _ _ Hrows) as (-> & Hoff & Hpre);
    cbn; [done|done|lia|].
  done.
Qed.

End IterationMore.

Lemma completed_iteration_yields_the_table_witness :
  (__iter__;; for_rows (_get_next_data example_board) 12) example_iterator_cache
  = (Ok [1; 2; 3; 4; 5; 6; 7; 8; 9; 10]%nat,
     ((__iter__;; for_rows (_get_next_data example_board) 12)
        example_iterator_cache).2)
  /\ 0 <= lazy_lookahead (base example_iterator_cache)
  /\ [1; 2; 3; 4; 5; 6; 7; 8; 9; 10]%nat
     = _df (base ((__iter__;; for_rows (_get_next_data example_board) 12)
                    example_iterator_cache).2)
  /\ cache_source_available
       (base ((__iter__;; for_rows (_get_next_data example_board) 12)
                example_iterator_cache).2)
     = false.
Proof.
  assert ((__iter__;; for_rows (_get_next_data example_board) 12)
            example_iterator_cache
          = (Ok [1; 2; 3; 4; 5; 6; 7; 8; 9; 10]%nat,
             ((__iter__;; for_rows (_get_next_data example_board) 12)
                example_iterator_cache).2)) as Hrun
    by (vm_compute; reflexivity).
  assert (0 <= lazy_lookahead (base example_iterator_cache)) as Hla
    by (vm_compute; discriminate).
  split; [exact Hrun|]. split; [exact Hla|].
  destruct (completed_iteration_yields_the_table (_get_next_data example_board)
              12 example_iterator_cache _ _ Hrun Hla) as (Hrows & Hoff & _).
  split; [exact Hrows | exact Hoff].
Defined.

(** ** The scheduler: the active list and the queue *)

Section BookkeepingMore.

Context {JobArgs Response Sub : Type}.

Implicit Types (o : @SObj JobArgs Response Sub).

Lemma list_remove_first_gone (thread : Thread) (l : list Thread) :
  NoDup l -> thread ∉ list_remove_first thread l.
Proof.
  induction 1 as [|x l Hx Hl IH]; cbn; [apply not_elem_of_nil|].
  case_decide as Heq; [by subst|].
  apply not_elem_of_cons. split; [done|exact IH].
Qed.

(** X24: a worker is on the active list at most once.  On a list
    without duplicates, [_thread_started_callback] puts the thread on the
    list (once, also when it is there already),
    [_thread_completed_callback] takes it off entirely and leaves all the
    others, and [_cleanup_threads] too leaves a list without duplicates;
    a thread that starts and completes leaves the list as it was. *)
Theorem active_threads_stay_distinct (thread : Thread) o :
  NoDup (_active_threads (tm o)) ->
  NoDup (_active_threads (tm (_thread_started_callback thread o).2))
  /\ (thread ∈ _active_threads (tm (_thread_started_callback thread o).2))
  /\ NoDup (_active_threads (tm (_thread_completed_callback thread o).2))
  /\ (thread ∉ _active_threads (tm (_thread_completed_callback thread o).2))
  /\ (forall other,
        other <> thread ->
        other ∈ _active_threads (tm (_thread_completed_callback thread o).2)
        <-> other ∈ _active_threads (tm o))
  /\ NoDup (_cleanup_threads (_active_threads (tm o)))
  /\ (thread ∉ _active_threads (tm o) ->
      _active_threads
        (tm ((_thread_started_callback thread;;
              _thread_completed_callback thread) o).2)
      = _active_threads (tm o)).
Proof.
  intros Hnodup.
  unfold _thread_started_callback, _thread_completed_callback, on_tm,
    mbind, mret, PyM_bind, PyM_ret, PyM.bind, PyM.ret, PyM.get, PyM.modify.
  cbn [snd tm _active_threads set_active_threads].
  split; [|split; [|split; [|split; [|split; [|split]]]]].
  - case_bool_decide as Hin; cbn; [done|].
    apply NoDup_app. repeat split; [done| |apply NoDup_singleton].
    intros x Hx ->%list_elem_of_singleton. done.
  - case_bool_decide as Hin; cbn; [done|].
    apply elem_of_app. right. apply list_elem_of_here.
  - exact (sublist_NoDup _ _ Hnodup (list_remove_first_sublist _ _)).
  - by apply list_remove_first_gone.
  - intros other Hne. split.
    + intros Hin. eapply elem_of_sublist; [exact Hin|].
      apply list_remove_first_sublist.
    + intros Hin. by apply list_remove_first_keeps.
  - exact (sublist_NoDup _ _ Hnodup (proj1 (cleanup_from_spec 0 _))).
  - intros Hnot. rewrite bool_decide_eq_false_2 by done. cbn.
    by apply list_remove_first_last.
Qed.

(** X25: jobs put in a row.  [put_job] never fails; the jobs join the
    queue at its tail in the order they were put, and the controller
    thread is started once, by the first of them, unless it is alive
    already; afterwards it counts as alive.  The result tray and the
    active list are left alone. *)
Theorem put_jobs_start_the_controller_once (jobs : list (JobId * JobArgs)) o :
  exists o',
    put_jobs jobs o = (Ok tt, o')
    /\ job_queue (tm o') = job_queue (tm o) ++ jobs
    /\ effects (env o')
       = effects (env o)
         ++ match jobs, manager_thread (tm o) with
            | [], _ | _, Some true => []
            | _, _ => [EffManagerStart]
            end
    /\ manager_thread (tm o')
       = match jobs with [] => manager_thread (tm o) | _ => Some true end
    /\ result_tray (tm o') = result_tray (tm o)
    /\ _active_threads (tm o') = _active_threads (tm o)
    /\ clock_reads (env o') = clock_reads (env o).
Proof.
  revert o. induction jobs as [|[job_id kwargs] jobs IH]; intros o.
  - exists o. by rewrite !app_nil_r.
  - cbn [put_jobs]. unfold put_job, manage_threads, emit, on_tm,
      mbind, mret, PyM_bind, PyM_ret, PyM.bind, PyM.ret, PyM.get, PyM.modify.
    cbn [tm lim env manager_thread set_job_queue].
    destruct (manager_thread (tm o)) as [[|]|] eqn:Hm; cbn.
    all: match goal with |- context [put_jobs _ ?o1] =>
           destruct (IH o1) as (o' & -> & Hq & Heff & Hmgr & Htray & Hact & Hreads)
         end.
    all: exists o'; cbn in Hq, Heff, Hmgr, Htray, Hact, Hreads.
    all: rewrite Hq, Heff, Hmgr, Htray, Hact, Hreads, <-?app_assoc.
    all: match goal with |- context [match ?l with [] => _ | _ => _ end] =>
           destruct l
         end; cbn; rewrite ?Hm, ?app_nil_r; done.
Qed.

End BookkeepingMore.

Lemma active_threads_stay_distinct_witness :
  NoDup (_active_threads (tm example_scheduler))
  /\ (mkThread 7 true
      ∉ _active_threads
          (tm (_thread_completed_callback (mkThread 7 true) example_scheduler).2)).
Proof.
  assert (NoDup (_active_threads (tm example_scheduler))) as Hnodup
    by (apply (bool_decide_unpack _); vm_compute; exact I).
  split; [exact Hnodup|].
  exact (proj1 (proj2 (proj2 (proj2
           (active_threads_stay_distinct (mkThread 7 true) example_scheduler
              Hnodup))))).
Defined.
